(** * Goal / subtask service of the productivity dashboard

    A shallow embedding of the backend's [GoalService] (in-memory store and
    Prisma-backed store), of the [GoalController] handlers that drive it, of
    the zod schemas that validate goal input, and of the rule-based
    [generateSubtasksFallback] of the [LLMService].

    Conventions of the embedding.
    - A JS [Map] is an insertion-ordered association list ([JsMap]).
    - A method that may [throw] is a computation in the monad [M]: it takes
      the service object and returns an outcome together with the service
      object as the call left it, so that mutations made before a [throw]
      stay visible, as they do in JS.
    - [new Date()] is the argument [now] of the method that calls it.
    - [logger] calls write to a log that no method reads back; they are left
      out.
    - Request bodies carry the field types of the API types ([ApiGoal],
      [ApiSubtask]); an absent ([undefined]) field is [None].  A key that
      the backend stores or tests without validating it ([completed] of a
      subtask update, [goalDescription] of the LLM routes) is a JSON value
      ([JsValue]). *)

From Stdlib Require Import List String Ascii Bool ZArith QArith Lia.
From Stdlib Require Import DecimalString.
Import ListNotations.

Local Open Scope string_scope.
Local Open Scope list_scope.

(* ------------------------------------------------------------------ *)
(** ** JS [Map] with string keys *)

Module JsMap.

Definition t (V : Type) : Type := list (string * V).

Definition empty {V} : t V := [].

(** [map.get(k)]: [None] is [undefined]. *)
Fixpoint get {V} (k : string) (m : t V) : option V :=
  match m with
  | [] => None
  | (k', v) :: r => if String.eqb k' k then Some v else get k r
  end.

(** [map.set(k, v)]: an existing key keeps its position, a new key goes
    last. *)
Fixpoint set {V} (k : string) (v : V) (m : t V) : t V :=
  match m with
  | [] => [(k, v)]
  | (k', v') :: r =>
      if String.eqb k' k then (k, v) :: r else (k', v') :: set k v r
  end.

(** [map.delete(k)]. *)
Definition delete {V} (k : string) (m : t V) : t V :=
  filter (fun kv => negb (String.eqb (fst kv) k)) m.

(** [Array.from(map.values())] and [Array.from(map.entries())]. *)
Definition values {V} (m : t V) : list V := List.map snd m.
Definition entries {V} (m : t V) : list (string * V) := m.
Definition keys {V} (m : t V) : list string := List.map fst m.

(** The keys of a [Map] are pairwise distinct. *)
Definition wf {V} (m : t V) : Prop := NoDup (keys m).

End JsMap.

(* ------------------------------------------------------------------ *)
(** ** Data model *)

Inductive Priority := HIGH | MEDIUM | LOW.
Inductive Status := ACTIVE | COMPLETED | PAUSED | CANCELLED.

Definition Priority_eqb (a b : Priority) : bool :=
  match a, b with
  | HIGH, HIGH | MEDIUM, MEDIUM | LOW, LOW => true
  | _, _ => false
  end.

Definition Status_eqb (a b : Status) : bool :=
  match a, b with
  | ACTIVE, ACTIVE | COMPLETED, COMPLETED
  | PAUSED, PAUSED | CANCELLED, CANCELLED => true
  | _, _ => false
  end.

(** A number that [JSON.parse] yields: a double, as the rational that it
    denotes, or an infinity (a literal beyond the range of the doubles). *)
Inductive JsNumber :=
| Finite (q : Q)
| Infinity (negative : bool).

(** A value that [JSON.parse] yields for a key of a request body. *)
#[warnings="-register-all"]
Inductive JsValue :=
| JsNull
| JsBool (b : bool)
| JsNum (n : JsNumber)
| JsString (s : string)
| JsArray (elements : list JsValue)
| JsObject (properties : list (string * JsValue)).

(** What [if (value)], [!value] and [every] make of a value: [null],
    [false], zero and the empty string are falsy, everything else is
    truthy. *)
Definition truthy (value : JsValue) : bool :=
  match value with
  | JsNull => false
  | JsBool b => b
  | JsNum (Finite q) => negb (Qeq_bool q 0)
  | JsNum (Infinity _) => true
  | JsString s => negb (String.eqb s "")
  | JsArray _ => true
  | JsObject _ => true
  end.

(** Timestamps are milliseconds since the epoch. *)
Definition Date := Z.
Bind Scope Z_scope with Date.

(** Validated subtask data of [subtaskSchema]. *)
Module SubtaskData.
Record t := mk {
  id : option string;
  title : string;
  description : option string;
  completed : bool
}.
End SubtaskData.

(** [completed] is a boolean in every subtask that create, add and toggle
    write; [updateSubtaskInMemory] writes the value of the request as it
    came. *)
Module Subtask.
Record t := mk {
  id : string;
  title : string;
  description : option string;
  completed : JsValue;
  estimatedHours : option Q;
  category : option string;
  skills : option (list string);
  dependencies : option (list string);
  goalId : string;
  createdAt : Date;
  updatedAt : Date
}.

Definition set_completed (b : JsValue) (s : t) : t :=
  mk (id s) (title s) (description s) b (estimatedHours s) (category s)
     (skills s) (dependencies s) (goalId s) (createdAt s) (updatedAt s).

Definition set_title (x : string) (s : t) : t :=
  mk (id s) x (description s) (completed s) (estimatedHours s) (category s)
     (skills s) (dependencies s) (goalId s) (createdAt s) (updatedAt s).

Definition set_description (x : option string) (s : t) : t :=
  mk (id s) (title s) x (completed s) (estimatedHours s) (category s)
     (skills s) (dependencies s) (goalId s) (createdAt s) (updatedAt s).

Definition set_updatedAt (d : Date) (s : t) : t :=
  mk (id s) (title s) (description s) (completed s) (estimatedHours s)
     (category s) (skills s) (dependencies s) (goalId s) (createdAt s) d.
End Subtask.

Module Goal.
(** The last three fields are own properties that [updateGoalInMemory]
    copies onto the stored object when the update supplies them; every
    response overrides them. *)
Record t := mk {
  id : string;
  title : string;
  description : option string;
  priority : Priority;
  status : Status;
  dueDate : option string;
  projectId : option string;
  ownerId : string;
  createdAt : Date;
  updatedAt : Date;
  platformTags : option (list string);
  teamMembers : option (list string);
  subtasks : option (list SubtaskData.t)
}.

Definition set_status (x : Status) (g : t) : t :=
  mk (id g) (title g) (description g) (priority g) x (dueDate g)
     (projectId g) (ownerId g) (createdAt g) (updatedAt g)
     (platformTags g) (teamMembers g) (subtasks g).

Definition set_updatedAt (d : Date) (g : t) : t :=
  mk (id g) (title g) (description g) (priority g) (status g) (dueDate g)
     (projectId g) (ownerId g) (createdAt g) d
     (platformTags g) (teamMembers g) (subtasks g).
End Goal.

(** The goal as a response carries it: [{...goal, subtasks, platformTags: [],
    teamMembers: []}]. *)
Module GoalResponse.
Record t := mk {
  goal : Goal.t;
  subtasks : list Subtask.t;
  platformTags : list string;
  teamMembers : list string
}.
End GoalResponse.

(** The rows behind the Prisma client. *)
Module Database.
Record t := mk {
  goal : list Goal.t;
  subtask : list Subtask.t
}.
End Database.

(** The [GoalService] object. *)
Module GoalService.
Record t := mk {
  prisma : Database.t;
  isDatabaseAvailable : bool;
  inMemoryGoals : JsMap.t Goal.t;
  inMemorySubtasks : JsMap.t Subtask.t;
  goalIdCounter : nat;
  subtaskIdCounter : nat
}.

Definition set_prisma (x : Database.t) (s : t) : t :=
  mk x (isDatabaseAvailable s) (inMemoryGoals s) (inMemorySubtasks s)
     (goalIdCounter s) (subtaskIdCounter s).

Definition set_inMemoryGoals (x : JsMap.t Goal.t) (s : t) : t :=
  mk (prisma s) (isDatabaseAvailable s) x (inMemorySubtasks s)
     (goalIdCounter s) (subtaskIdCounter s).

Definition set_inMemorySubtasks (x : JsMap.t Subtask.t) (s : t) : t :=
  mk (prisma s) (isDatabaseAvailable s) (inMemoryGoals s) x
     (goalIdCounter s) (subtaskIdCounter s).

Definition set_goalIdCounter (n : nat) (s : t) : t :=
  mk (prisma s) (isDatabaseAvailable s) (inMemoryGoals s)
     (inMemorySubtasks s) n (subtaskIdCounter s).

Definition set_subtaskIdCounter (n : nat) (s : t) : t :=
  mk (prisma s) (isDatabaseAvailable s) (inMemoryGoals s)
     (inMemorySubtasks s) (goalIdCounter s) n.
End GoalService.

(* ------------------------------------------------------------------ *)
(** ** Exceptions and the service monad *)

(** A thrown JS [Error] with its [message]. *)
Inductive Exception := Error (message : string).

Inductive Outcome (A : Type) :=
| Return (a : A)
| Throw (e : Exception).
Arguments Return {A} a.
Arguments Throw {A} e.

Definition M (A : Type) : Type := GoalService.t -> Outcome A * GoalService.t.

Definition ret {A} (a : A) : M A := fun s => (Return a, s).
Definition throw {A} (e : Exception) : M A := fun s => (Throw e, s).
Definition bind {A B} (c : M A) (k : A -> M B) : M B :=
  fun s =>
    match c s with
    | (Return a, s') => k a s'
    | (Throw e, s') => (Throw e, s')
    end.
Definition this : M GoalService.t := fun s => (Return s, s).
Definition modify (f : GoalService.t -> GoalService.t) : M unit :=
  fun s => (Return tt, f s).

Declare Scope service_scope.
Delimit Scope service_scope with service.
Notation "x <- c ;; k" := (bind c (fun x => k))
  (at level 100, c at next level, right associativity) : service_scope.
Notation "c ;; k" := (bind c (fun _ => k))
  (at level 100, right associativity) : service_scope.
Local Open Scope service_scope.

(** The template literal [`${prefix}${n}`]. *)
Definition numbered (prefix : string) (n : nat) : string :=
  prefix ++ NilEmpty.string_of_uint (Nat.to_uint n).

(* ------------------------------------------------------------------ *)
(** ** Validated input of the service methods *)

(** Output of [goalSchema.parse]. *)
Module GoalData.
Record t := mk {
  title : string;
  description : option string;
  priority : Priority;
  status : Status;
  dueDate : option string;
  projectId : option string;
  platformTags : list string;
  teamMembers : list string;
  subtasks : list SubtaskData.t
}.
End GoalData.

(** Output of [updateGoalSchema.parse] ([goalSchema.partial()]): a key that
    the update does not supply is [undefined]. *)
Module GoalUpdate.
Record t := mk {
  title : option string;
  description : option string;
  priority : option Priority;
  status : option Status;
  dueDate : option string;
  projectId : option string;
  platformTags : option (list string);
  teamMembers : option (list string);
  subtasks : option (list SubtaskData.t)
}.
End GoalUpdate.

(** The [subtaskData] argument of [addSubtask]. *)
Module NewSubtask.
Record t := mk {
  title : string;
  description : option string;
  estimatedHours : option Q;
  category : option string;
  skills : option (list string);
  dependencies : option (list string)
}.
End NewSubtask.

(** The [subtaskData] argument of [updateSubtask].  The controller takes
    the three keys from the body and passes them on; nothing validates
    [completed] on the way to the in-memory store. *)
Module SubtaskUpdate.
Record t := mk {
  title : option string;
  description : option string;
  completed : option JsValue
}.
End SubtaskUpdate.

(** The [filters] argument of [getUserGoals]. *)
Module Filters.
Record t := mk {
  status : option Status;
  priority : option Priority;
  projectId : option string
}.
Definition none : t := mk None None None.
End Filters.

(** [a !== undefined ? a : b] on an optional field. *)
Definition orElse {A} (a : option A) (b : option A) : option A :=
  match a with Some _ => a | None => b end.

Definition orKeep {A} (a : option A) (b : A) : A :=
  match a with Some x => x | None => b end.

(* ------------------------------------------------------------------ *)
(** ** The in-memory store *)

Module InMemory.

(** [Array.from(this.inMemorySubtasks.values()).filter(subtask =>
    subtask.goalId === goalId)]. *)
Definition subtasksOf (goalId : string) (svc : GoalService.t)
  : list Subtask.t :=
  filter (fun subtask => String.eqb (Subtask.goalId subtask) goalId)
         (JsMap.values (GoalService.inMemorySubtasks svc)).

(** [!goal || goal.ownerId !== userId]. *)
Definition notOwned (goal : option Goal.t) (userId : string) : bool :=
  match goal with
  | None => true
  | Some g => negb (String.eqb (Goal.ownerId g) userId)
  end.

Definition seedDemoData (now : Date) : M unit :=
  let demoGoal1 :=
    Goal.mk "goal-1" "Launch Product MVP"
      (Some "Complete and launch the minimum viable product")
      HIGH ACTIVE (Some "2025-10-30T00:00:00.000Z") None "user-1" now now
      None None None in
  let demoGoal2 :=
    Goal.mk "goal-2" "Marketing Push"
      (Some "Execute comprehensive marketing strategy")
      MEDIUM ACTIVE (Some "2025-11-15T00:00:00.000Z") None "user-1" now now
      None None None in
  let demo id title completed goalId :=
    Subtask.mk id title None completed None None None None goalId now now in
  let subtasks :=
    [ demo "subtask-1" "Finalize landing page" (JsBool true) "goal-1";
      demo "subtask-2" "QA test checkout flow" (JsBool false) "goal-1";
      demo "subtask-3" "Record demo video" (JsBool false) "goal-1";
      demo "subtask-4" "Draft announcement" (JsBool false) "goal-2";
      demo "subtask-5" "Plan social posts" (JsBool false) "goal-2" ] in
  modify (fun svc =>
    GoalService.set_inMemoryGoals
      (JsMap.set "goal-2" demoGoal2
         (JsMap.set "goal-1" demoGoal1 (GoalService.inMemoryGoals svc)))
      svc) ;;
  modify (fun svc =>
    GoalService.set_inMemorySubtasks
      (fold_left (fun m subtask => JsMap.set (Subtask.id subtask) subtask m)
                 subtasks (GoalService.inMemorySubtasks svc))
      svc) ;;
  modify (GoalService.set_goalIdCounter 3) ;;
  modify (GoalService.set_subtaskIdCounter 6).

Definition withSubtasks (svc : GoalService.t) (goal : Goal.t)
  : GoalResponse.t :=
  GoalResponse.mk goal (subtasksOf (Goal.id goal) svc) [] [].

Definition getUserGoalsInMemory (userId : string) (filters : Filters.t)
  : M (list GoalResponse.t) :=
  svc <- this ;;
  let userGoals :=
    filter (fun goal => String.eqb (Goal.ownerId goal) userId)
           (JsMap.values (GoalService.inMemoryGoals svc)) in
  let filteredGoals :=
    match Filters.status filters with
    | Some st => filter (fun goal => Status_eqb (Goal.status goal) st)
                        userGoals
    | None => userGoals
    end in
  let filteredGoals :=
    match Filters.priority filters with
    | Some p => filter (fun goal => Priority_eqb (Goal.priority goal) p)
                       filteredGoals
    | None => filteredGoals
    end in
  ret (List.map (withSubtasks svc) filteredGoals).

(** One iteration of the [validatedData.subtasks.map] of
    [createGoalInMemory]. *)
Definition createSubtask (goalId : string) (now : Date)
           (subtaskData : SubtaskData.t) : M Subtask.t :=
  svc <- this ;;
  let subtaskId := numbered "subtask-" (GoalService.subtaskIdCounter svc) in
  modify (GoalService.set_subtaskIdCounter
            (S (GoalService.subtaskIdCounter svc))) ;;
  let subtask :=
    Subtask.mk subtaskId (SubtaskData.title subtaskData)
      (SubtaskData.description subtaskData)
      (JsBool (SubtaskData.completed subtaskData))
      None None None None goalId now now in
  modify (fun svc =>
    GoalService.set_inMemorySubtasks
      (JsMap.set subtaskId subtask (GoalService.inMemorySubtasks svc)) svc) ;;
  ret subtask.

Fixpoint mapM {A B} (f : A -> M B) (l : list A) : M (list B) :=
  match l with
  | [] => ret []
  | a :: r => b <- f a ;; bs <- mapM f r ;; ret (b :: bs)
  end.

Definition createGoalInMemory (userId : string) (validatedData : GoalData.t)
           (now : Date) : M GoalResponse.t :=
  svc <- this ;;
  let goalId := numbered "goal-" (GoalService.goalIdCounter svc) in
  modify (GoalService.set_goalIdCounter (S (GoalService.goalIdCounter svc))) ;;
  let goal :=
    Goal.mk goalId (GoalData.title validatedData)
      (GoalData.description validatedData)
      (GoalData.priority validatedData)
      (GoalData.status validatedData)
      (GoalData.dueDate validatedData)
      (GoalData.projectId validatedData)
      userId now now None None None in
  modify (fun svc =>
    GoalService.set_inMemoryGoals
      (JsMap.set goalId goal (GoalService.inMemoryGoals svc)) svc) ;;
  subtasks <- mapM (createSubtask goalId now)
                   (GoalData.subtasks validatedData) ;;
  ret (GoalResponse.mk goal subtasks [] []).

(** The [Object.keys(validatedData).forEach] of [updateGoalInMemory]. *)
Definition assignDefined (validatedData : GoalUpdate.t) (now : Date)
           (goal : Goal.t) : Goal.t :=
  Goal.mk (Goal.id goal)
    (orKeep (GoalUpdate.title validatedData) (Goal.title goal))
    (orElse (GoalUpdate.description validatedData) (Goal.description goal))
    (orKeep (GoalUpdate.priority validatedData) (Goal.priority goal))
    (orKeep (GoalUpdate.status validatedData) (Goal.status goal))
    (orElse (GoalUpdate.dueDate validatedData) (Goal.dueDate goal))
    (orElse (GoalUpdate.projectId validatedData) (Goal.projectId goal))
    (Goal.ownerId goal) (Goal.createdAt goal) now
    (orElse (GoalUpdate.platformTags validatedData) (Goal.platformTags goal))
    (orElse (GoalUpdate.teamMembers validatedData) (Goal.teamMembers goal))
    (orElse (GoalUpdate.subtasks validatedData) (Goal.subtasks goal)).

Definition updateGoalInMemory (userId goalId : string)
           (validatedData : GoalUpdate.t) (now : Date) : M GoalResponse.t :=
  svc <- this ;;
  let goal := JsMap.get goalId (GoalService.inMemoryGoals svc) in
  if notOwned goal userId then
    throw (Error "Goal not found or access denied")
  else
    match goal with
    | None => throw (Error "Goal not found or access denied")
    | Some goal =>
        let goal := assignDefined validatedData now goal in
        modify (GoalService.set_inMemoryGoals
                  (JsMap.set goalId goal (GoalService.inMemoryGoals svc))) ;;
        svc <- this ;;
        ret (GoalResponse.mk goal (subtasksOf goalId svc) [] [])
    end.

Definition toggleSubtaskInMemory (userId subtaskId : string) (now : Date)
  : M Subtask.t :=
  svc <- this ;;
  match JsMap.get subtaskId (GoalService.inMemorySubtasks svc) with
  | None => throw (Error "Subtask not found")
  | Some subtask =>
      let goal :=
        JsMap.get (Subtask.goalId subtask) (GoalService.inMemoryGoals svc) in
      if notOwned goal userId then throw (Error "Access denied")
      else
        let subtask :=
          Subtask.set_updatedAt now
            (Subtask.set_completed
               (JsBool (negb (truthy (Subtask.completed subtask))))
               subtask) in
        modify (GoalService.set_inMemorySubtasks
                  (JsMap.set subtaskId subtask
                             (GoalService.inMemorySubtasks svc))) ;;
        ret subtask
  end.

Definition addSubtaskInMemory (userId goalId : string)
           (subtaskData : NewSubtask.t) (now : Date) : M Subtask.t :=
  svc <- this ;;
  let goal := JsMap.get goalId (GoalService.inMemoryGoals svc) in
  if notOwned goal userId then
    throw (Error "Goal not found or access denied")
  else
    let subtaskId := numbered "subtask-" (GoalService.subtaskIdCounter svc) in
    modify (GoalService.set_subtaskIdCounter
              (S (GoalService.subtaskIdCounter svc))) ;;
    let subtask :=
      Subtask.mk subtaskId (NewSubtask.title subtaskData)
        (NewSubtask.description subtaskData)
        (JsBool false)
        (NewSubtask.estimatedHours subtaskData)
        (NewSubtask.category subtaskData)
        (Some (orKeep (NewSubtask.skills subtaskData) []))
        (Some (orKeep (NewSubtask.dependencies subtaskData) []))
        goalId now now in
    modify (fun svc =>
      GoalService.set_inMemorySubtasks
        (JsMap.set subtaskId subtask (GoalService.inMemorySubtasks svc))
        svc) ;;
    ret subtask.

(** The three conditional assignments of [updateSubtaskInMemory] and the
    new [updatedAt]. *)
Definition assignSubtask (subtaskData : SubtaskUpdate.t) (now : Date)
           (subtask : Subtask.t) : Subtask.t :=
  let subtask :=
    Subtask.set_title
      (orKeep (SubtaskUpdate.title subtaskData) (Subtask.title subtask))
      subtask in
  let subtask :=
    Subtask.set_description
      (orElse (SubtaskUpdate.description subtaskData)
              (Subtask.description subtask)) subtask in
  let subtask :=
    Subtask.set_completed
      (orKeep (SubtaskUpdate.completed subtaskData)
              (Subtask.completed subtask)) subtask in
  Subtask.set_updatedAt now subtask.

Definition updateSubtaskInMemory (userId goalId subtaskId : string)
           (subtaskData : SubtaskUpdate.t) (now : Date) : M Subtask.t :=
  svc <- this ;;
  match JsMap.get subtaskId (GoalService.inMemorySubtasks svc) with
  | None => throw (Error "Subtask not found")
  | Some subtask =>
      if negb (String.eqb (Subtask.goalId subtask) goalId) then
        throw (Error "Subtask not found")
      else
        let goal := JsMap.get goalId (GoalService.inMemoryGoals svc) in
        if notOwned goal userId then throw (Error "Access denied")
        else
          let subtask := assignSubtask subtaskData now subtask in
          modify (GoalService.set_inMemorySubtasks
                    (JsMap.set subtaskId subtask
                               (GoalService.inMemorySubtasks svc))) ;;
          ret subtask
  end.

(** The two branches of the completion check, on the goal object. *)
Definition recompute (allCompleted : bool) (now : Date) (goal : Goal.t)
  : option Goal.t :=
  if allCompleted && negb (Status_eqb (Goal.status goal) COMPLETED) then
    Some (Goal.set_updatedAt now (Goal.set_status COMPLETED goal))
  else if negb allCompleted && Status_eqb (Goal.status goal) COMPLETED then
    Some (Goal.set_updatedAt now (Goal.set_status ACTIVE goal))
  else None.

Definition checkAndUpdateGoalCompletionInMemory (userId goalId : string)
           (now : Date) : M unit :=
  svc <- this ;;
  let goal := JsMap.get goalId (GoalService.inMemoryGoals svc) in
  if notOwned goal userId then
    throw (Error "Goal not found or access denied")
  else
    match goal with
    | None => throw (Error "Goal not found or access denied")
    | Some goal =>
        let subtasks := subtasksOf goalId svc in
        if (0 <? List.length subtasks)%nat then
          let allCompleted :=
            forallb (fun subtask => truthy (Subtask.completed subtask))
                    subtasks in
          match recompute allCompleted now goal with
          | Some goal =>
              modify (GoalService.set_inMemoryGoals
                        (JsMap.set goalId goal
                                   (GoalService.inMemoryGoals svc)))
          | None => ret tt
          end
        else ret tt
    end.

(** The [forEach] of [deleteGoalInMemory], over the snapshot
    [Array.from(this.inMemorySubtasks.entries())]. *)
Definition deleteSubtasksOf (goalId : string)
           (snapshot : list (string * Subtask.t)) (m : JsMap.t Subtask.t)
  : JsMap.t Subtask.t :=
  fold_left
    (fun m entry =>
       if String.eqb (Subtask.goalId (snd entry)) goalId
       then JsMap.delete (fst entry) m else m)
    snapshot m.

Definition deleteGoalInMemory (userId goalId : string) : M string :=
  svc <- this ;;
  let goal := JsMap.get goalId (GoalService.inMemoryGoals svc) in
  if notOwned goal userId then
    throw (Error "Goal not found or access denied")
  else
    modify (fun svc =>
      GoalService.set_inMemoryGoals
        (JsMap.delete goalId (GoalService.inMemoryGoals svc)) svc) ;;
    svc <- this ;;
    modify (GoalService.set_inMemorySubtasks
      (deleteSubtasksOf goalId
         (JsMap.entries (GoalService.inMemorySubtasks svc))
         (GoalService.inMemorySubtasks svc))) ;;
    ret "Goal deleted successfully".

End InMemory.

(* ------------------------------------------------------------------ *)
(** ** The Prisma-backed store *)

(** The Prisma client calls that the service makes, on the rows of the two
    tables.  [id] is the primary key of both tables and a subtask row refers
    to its goal row through [goalId].  The schema file is not among the
    sources: the rows have the fields of [ApiGoal] and [ApiSubtask], a new
    row gets [createdAt] and [updatedAt] from the clock, and a row that
    [update] writes gets a fresh [updatedAt]. *)
Module Prisma.

Definition goalOf (db : Database.t) (subtask : Subtask.t) : option Goal.t :=
  find (fun goal => String.eqb (Goal.id goal) (Subtask.goalId subtask))
       (Database.goal db).

(** The relation filter [goal: { ownerId: userId }]. *)
Definition goalOwnedBy (db : Database.t) (userId : string)
           (subtask : Subtask.t) : bool :=
  match goalOf db subtask with
  | Some goal => String.eqb (Goal.ownerId goal) userId
  | None => false
  end.

(** [include: { subtasks: true }]. *)
Definition subtasksOf (db : Database.t) (goalId : string) : list Subtask.t :=
  filter (fun subtask => String.eqb (Subtask.goalId subtask) goalId)
         (Database.subtask db).

Definition goal_findFirst (where_ : Goal.t -> bool) (db : Database.t)
  : option Goal.t :=
  find where_ (Database.goal db).

Definition subtask_findFirst (where_ : Subtask.t -> bool) (db : Database.t)
  : option Subtask.t :=
  find where_ (Database.subtask db).

Definition updateRows {R} (rowId : R -> string) (id : string) (data : R -> R)
           (rows : list R) : list R :=
  List.map (fun row => if String.eqb (rowId row) id then data row else row)
           rows.

(** [prisma.subtask.update({ where: { id }, data })]: the updated row, or
    nothing when no row has the key. *)
Definition subtask_update (id : string) (data : Subtask.t -> Subtask.t)
           (now : Date) (db : Database.t) : option (Subtask.t * Database.t) :=
  let write row := Subtask.set_updatedAt now (data row) in
  match find (fun row => String.eqb (Subtask.id row) id)
             (Database.subtask db) with
  | Some row =>
      Some (write row,
            Database.mk (Database.goal db)
                        (updateRows Subtask.id id write (Database.subtask db)))
  | None => None
  end.

Definition goal_update (id : string) (data : Goal.t -> Goal.t)
           (now : Date) (db : Database.t) : option (Goal.t * Database.t) :=
  let write row := Goal.set_updatedAt now (data row) in
  match find (fun row => String.eqb (Goal.id row) id) (Database.goal db) with
  | Some row =>
      Some (write row,
            Database.mk (updateRows Goal.id id write (Database.goal db))
                        (Database.subtask db))
  | None => None
  end.

(** [prisma.subtask.create({ data: { title, description, completed,
    goalId } })]; [newId] is the key that the database generates. *)
Definition subtask_create (newId title : string) (description : option string)
           (completed : bool) (goalId : string) (now : Date)
           (db : Database.t) : Subtask.t * Database.t :=
  let row :=
    Subtask.mk newId title description (JsBool completed) None None None
               None goalId now now in
  (row, Database.mk (Database.goal db) (Database.subtask db ++ [row])).

(** The error of an [update] whose [where] matches no row. *)
Definition recordNotFound : Exception :=
  Error "Record to update not found.".

(** The client checks [data] against the types of the columns before it
    queries the database.  [completed] is a Boolean column: an [update]
    whose [data] has another value under that key throws a validation
    error and writes nothing.  The message of that error quotes the call
    and its arguments; its first words are kept. *)
Definition isBoolean (value : option JsValue) : bool :=
  match value with
  | None => true
  | Some (JsBool _) => true
  | Some _ => false
  end.

Definition invalidInvocation : Exception :=
  Error "Invalid `prisma.subtask.update()` invocation".

End Prisma.

(* ------------------------------------------------------------------ *)
(** ** Service methods *)

Module Service.

Definition withDatabase {A} (call : Database.t -> option (A * Database.t))
  : M A :=
  svc <- this ;;
  match call (GoalService.prisma svc) with
  | Some (a, db) => modify (GoalService.set_prisma db) ;; ret a
  | None => throw Prisma.recordNotFound
  end.

Definition toggleSubtask (userId subtaskId : string) (now : Date)
  : M Subtask.t :=
  svc <- this ;;
  if negb (GoalService.isDatabaseAvailable svc) then
    InMemory.toggleSubtaskInMemory userId subtaskId now
  else
    let db := GoalService.prisma svc in
    match Prisma.subtask_findFirst
            (fun row => String.eqb (Subtask.id row) subtaskId
                        && Prisma.goalOwnedBy db userId row) db with
    | None => throw (Error "Subtask not found or access denied")
    | Some subtask =>
        withDatabase
          (Prisma.subtask_update subtaskId
             (Subtask.set_completed
                (JsBool (negb (truthy (Subtask.completed subtask))))) now)
    end.

(** [newId] is the key that the database gives the new row; the in-memory
    store does not use it. *)
Definition addSubtask (userId goalId : string) (subtaskData : NewSubtask.t)
           (newId : string) (now : Date) : M Subtask.t :=
  svc <- this ;;
  if negb (GoalService.isDatabaseAvailable svc) then
    InMemory.addSubtaskInMemory userId goalId subtaskData now
  else
    let db := GoalService.prisma svc in
    match Prisma.goal_findFirst
            (fun row => String.eqb (Goal.id row) goalId
                        && String.eqb (Goal.ownerId row) userId) db with
    | None => throw (Error "Goal not found or access denied")
    | Some goal =>
        withDatabase
          (fun db =>
             Some (Prisma.subtask_create newId
                     (NewSubtask.title subtaskData)
                     (NewSubtask.description subtaskData)
                     false goalId now db))
    end.

Definition updateSubtask (userId goalId subtaskId : string)
           (subtaskData : SubtaskUpdate.t) (now : Date) : M Subtask.t :=
  svc <- this ;;
  if negb (GoalService.isDatabaseAvailable svc) then
    InMemory.updateSubtaskInMemory userId goalId subtaskId subtaskData now
  else
    let db := GoalService.prisma svc in
    match Prisma.subtask_findFirst
            (fun row => String.eqb (Subtask.id row) subtaskId
                        && String.eqb (Subtask.goalId row) goalId
                        && Prisma.goalOwnedBy db userId row) db with
    | None => throw (Error "Subtask not found or access denied")
    | Some subtask =>
        if negb (Prisma.isBoolean (SubtaskUpdate.completed subtaskData)) then
          throw Prisma.invalidInvocation
        else
          withDatabase
            (Prisma.subtask_update subtaskId
               (fun row =>
                  Subtask.set_completed
                    (orKeep (SubtaskUpdate.completed subtaskData)
                            (Subtask.completed row))
                    (Subtask.set_description
                       (orElse (SubtaskUpdate.description subtaskData)
                               (Subtask.description row))
                       (Subtask.set_title
                          (orKeep (SubtaskUpdate.title subtaskData)
                                  (Subtask.title row)) row)))
               now)
    end.

Definition checkAndUpdateGoalCompletion (userId goalId : string)
           (now : Date) : M unit :=
  svc <- this ;;
  if negb (GoalService.isDatabaseAvailable svc) then
    InMemory.checkAndUpdateGoalCompletionInMemory userId goalId now
  else
    let db := GoalService.prisma svc in
    match Prisma.goal_findFirst
            (fun row => String.eqb (Goal.id row) goalId
                        && String.eqb (Goal.ownerId row) userId) db with
    | None => throw (Error "Goal not found or access denied")
    | Some goal =>
        let subtasks := Prisma.subtasksOf db (Goal.id goal) in
        if (0 <? List.length subtasks)%nat then
          let allCompleted :=
            forallb (fun subtask => truthy (Subtask.completed subtask))
                    subtasks in
          if allCompleted
             && negb (Status_eqb (Goal.status goal) COMPLETED) then
            withDatabase (Prisma.goal_update goalId
                            (Goal.set_status COMPLETED) now) ;;
            ret tt
          else if negb allCompleted
                  && Status_eqb (Goal.status goal) COMPLETED then
            withDatabase (Prisma.goal_update goalId
                            (Goal.set_status ACTIVE) now) ;;
            ret tt
          else ret tt
        else ret tt
    end.

End Service.

(* ------------------------------------------------------------------ *)
(** ** Controller handlers *)

(** What [res.status(code).json(...)] sends. *)
Inductive Json (A : Type) :=
| Success (message : option string) (data : A)
| Failure (error : string).
Arguments Success {A} message data.
Arguments Failure {A} error.

Record Response (A : Type) := mkResponse {
  code : nat;
  json : Json A
}.
Arguments mkResponse {A} code json.
Arguments code {A} r.
Arguments json {A} r.

Definition Handler (A : Type) : Type :=
  GoalService.t -> Response A * GoalService.t.

(** [try { ... res.status(ok).json({success: true, message, data}) }
     catch (error) { res.status(400).json({success: false, error:
     error.message}) }]. *)
Definition respond {A} (ok : nat) (message : string) (call : M A)
  : Handler A :=
  fun svc =>
    match call svc with
    | (Return a, svc') => (mkResponse ok (Success (Some message) a), svc')
    | (Throw (Error m), svc') => (mkResponse 400 (Failure m), svc')
    end.

(** The body of [POST /api/goals/:id/subtasks]. *)
Module AddSubtaskBody.
Record t := mk {
  title : option string;
  description : option string;
  completed : option JsValue;
  estimatedHours : option Q;
  category : option string;
  skills : option (list string);
  dependencies : option (list string)
}.
End AddSubtaskBody.

Module GoalController.

Definition toggleSubtask (userId subtaskId : string) (now : Date)
  : Handler Subtask.t :=
  respond 200 "Subtask updated successfully"
    (subtask <- Service.toggleSubtask userId subtaskId now ;;
     Service.checkAndUpdateGoalCompletion userId (Subtask.goalId subtask)
                                          now ;;
     ret subtask).

(** [!title] on an optional string. *)
Definition falsy (title : option string) : bool :=
  match title with
  | None => true
  | Some s => String.eqb s ""
  end.

Definition addSubtask (userId goalId : string) (body : AddSubtaskBody.t)
           (newId : string) (now : Date) : Handler Subtask.t :=
  fun svc =>
    if falsy (AddSubtaskBody.title body) then
      (mkResponse 400 (Failure "Subtask title is required"), svc)
    else
      respond 201 "Subtask added successfully"
        (Service.addSubtask userId goalId
           (NewSubtask.mk (orKeep (AddSubtaskBody.title body) "")
                          (AddSubtaskBody.description body)
                          None None None None)
           newId now)
        svc.

Definition updateSubtask (userId goalId subtaskId : string)
           (body : SubtaskUpdate.t) (now : Date) : Handler Subtask.t :=
  respond 200 "Subtask updated successfully"
    (subtask <- Service.updateSubtask userId goalId subtaskId body now ;;
     match SubtaskUpdate.completed body with
     | Some _ => Service.checkAndUpdateGoalCompletion userId goalId now
     | None => ret tt
     end ;;
     ret subtask).

End GoalController.

(* ------------------------------------------------------------------ *)
(** ** Validation schemas *)

(** The body of a subtask inside [POST /api/goals] and [PUT /api/goals/:id]. *)
Module SubtaskBody.
Record t := mk {
  id : option string;
  title : option string;
  description : option string;
  completed : option bool
}.
End SubtaskBody.

(** The body of [POST /api/goals] and [PUT /api/goals/:id]; the two enums
    arrive as strings. *)
Module GoalBody.
Record t := mk {
  title : option string;
  description : option string;
  priority : option string;
  status : option string;
  dueDate : option string;
  projectId : option string;
  platformTags : option (list string);
  teamMembers : option (list string);
  subtasks : option (list SubtaskBody.t)
}.
End GoalBody.

Record ZodIssue := mkIssue {
  path : list string;
  message : string
}.

(** What [schema.parse] does: it returns the parsed value, throws a
    [ZodError] that carries at least one issue, or lets through what a
    [transform] throws. *)
Inductive Parse (A : Type) :=
| Parsed (a : A)
| ZodError (first : ZodIssue) (rest : list ZodIssue)
| Thrown (e : Exception).
Arguments Parsed {A} a.
Arguments ZodError {A} first rest.
Arguments Thrown {A} e.

Section Schemas.

(** The library's message for a required key that is [undefined], and for
    a string outside an enum. *)
Variable zodRequired : string.
Variable zodInvalidEnum : string -> string.

(** [new Date(val)] followed by [date.toISOString()]; [None] when
    [isNaN(date.getTime())]. *)
Variable toISOString : string -> option string.

(** The Prisma branches of [createGoal] and [updateGoal]. *)
Variable createGoalInDatabase : string -> GoalData.t -> Date -> M GoalResponse.t.
Variable updateGoalInDatabase :
  string -> string -> GoalUpdate.t -> Date -> M GoalResponse.t.

(** [z.string().min(1, message)] on a required key. *)
Definition stringMin1 (path : list string) (message : string)
           (value : option string) : list ZodIssue :=
  match value with
  | None => [mkIssue path zodRequired]
  | Some s => if (String.length s <? 1)%nat then [mkIssue path message]
              else []
  end.

(** The same under [.partial()]: [undefined] passes. *)
Definition optionalStringMin1 (path : list string) (message : string)
           (value : option string) : list ZodIssue :=
  match value with
  | None => []
  | Some s => if (String.length s <? 1)%nat then [mkIssue path message]
              else []
  end.

Definition prioritySchema (value : string) : option Priority :=
  if String.eqb value "HIGH" then Some HIGH
  else if String.eqb value "MEDIUM" then Some MEDIUM
  else if String.eqb value "LOW" then Some LOW
  else None.

Definition statusSchema (value : string) : option Status :=
  if String.eqb value "ACTIVE" then Some ACTIVE
  else if String.eqb value "COMPLETED" then Some COMPLETED
  else if String.eqb value "PAUSED" then Some PAUSED
  else if String.eqb value "CANCELLED" then Some CANCELLED
  else None.

(** An optional enum key: the parsed value when there is one, and the
    issues. *)
Definition enumKey {E} (schema : string -> option E) (path : list string)
           (value : option string) : option E * list ZodIssue :=
  match value with
  | None => (None, [])
  | Some s =>
      match schema s with
      | Some e => (Some e, [])
      | None => (None, [mkIssue path (zodInvalidEnum s)])
      end
  end.

(** The [transform] of [dueDate]: [inl] is what it throws. *)
Definition dueDateTransform (val : option string)
  : Exception + option string :=
  match val with
  | None => inr None
  | Some s =>
      if String.eqb s "" then inr None
      else match toISOString s with
           | None => inl (Error "Invalid date format")
           | Some iso => inr (Some iso)
           end
  end.

Definition subtaskSchema (index : nat) (body : SubtaskBody.t)
  : SubtaskData.t * list ZodIssue :=
  (SubtaskData.mk (SubtaskBody.id body)
                  (orKeep (SubtaskBody.title body) "")
                  (SubtaskBody.description body)
                  (orKeep (SubtaskBody.completed body) false),
   stringMin1 ["subtasks"; numbered "" index; "title"]
              "Subtask title is required" (SubtaskBody.title body)).

Fixpoint subtasksSchema (index : nat) (bodies : list SubtaskBody.t)
  : list SubtaskData.t * list ZodIssue :=
  match bodies with
  | [] => ([], [])
  | body :: r =>
      let '(data, issues) := subtaskSchema index body in
      let '(datas, issues') := subtasksSchema (S index) r in
      (data :: datas, issues ++ issues')
  end.

Definition finish {A} (issues : list ZodIssue) (a : A) : Parse A :=
  match issues with
  | [] => Parsed a
  | first :: rest => ZodError first rest
  end.

(** [goalSchema.parse(goalData)]: the keys are visited in the order of the
    schema; the [transform] of [dueDate] runs, and may throw, when its
    turn comes. *)
Definition goalSchema (goalData : GoalBody.t) : Parse GoalData.t :=
  let title := stringMin1 ["title"] "Goal title is required"
                          (GoalBody.title goalData) in
  let '(priority, priorityIssues) :=
    enumKey prioritySchema ["priority"] (GoalBody.priority goalData) in
  let '(status, statusIssues) :=
    enumKey statusSchema ["status"] (GoalBody.status goalData) in
  match dueDateTransform (GoalBody.dueDate goalData) with
  | inl e => Thrown e
  | inr dueDate =>
      let '(subtasks, subtaskIssues) :=
        subtasksSchema 0 (orKeep (GoalBody.subtasks goalData) []) in
      finish (title ++ priorityIssues ++ statusIssues ++ subtaskIssues)
        (GoalData.mk (orKeep (GoalBody.title goalData) "")
                     (GoalBody.description goalData)
                     (orKeep priority MEDIUM)
                     (orKeep status ACTIVE)
                     dueDate
                     (GoalBody.projectId goalData)
                     (orKeep (GoalBody.platformTags goalData) [])
                     (orKeep (GoalBody.teamMembers goalData) [])
                     subtasks)
  end.

(** [updateGoalSchema.parse(updateData)], with [updateGoalSchema =
    goalSchema.partial()]: an [undefined] key stays [undefined], neither
    the defaults nor the [transform] run on it. *)
Definition updateGoalSchema (updateData : GoalBody.t) : Parse GoalUpdate.t :=
  let title := optionalStringMin1 ["title"] "Goal title is required"
                                  (GoalBody.title updateData) in
  let '(priority, priorityIssues) :=
    enumKey prioritySchema ["priority"] (GoalBody.priority updateData) in
  let '(status, statusIssues) :=
    enumKey statusSchema ["status"] (GoalBody.status updateData) in
  match dueDateTransform (GoalBody.dueDate updateData) with
  | inl e => Thrown e
  | inr dueDate =>
      let '(subtasks, subtaskIssues) :=
        match GoalBody.subtasks updateData with
        | None => (None, [])
        | Some bodies =>
            let '(datas, issues) := subtasksSchema 0 bodies in
            (Some datas, issues)
        end in
      finish (title ++ priorityIssues ++ statusIssues ++ subtaskIssues)
        (GoalUpdate.mk (GoalBody.title updateData)
                       (GoalBody.description updateData)
                       priority status dueDate
                       (GoalBody.projectId updateData)
                       (GoalBody.platformTags updateData)
                       (GoalBody.teamMembers updateData)
                       subtasks)
  end.

(** [const validatedData = schema.parse(data)] inside the [try] of the
    service methods, whose [catch] rethrows a [ZodError] as
    [new Error(error.errors[0].message)]. *)
Definition validated {A} (p : Parse A) : M A :=
  match p with
  | Parsed a => ret a
  | ZodError first _ => throw (Error (message first))
  | Thrown e => throw e
  end.

Definition createGoal (userId : string) (goalData : GoalBody.t) (now : Date)
  : M GoalResponse.t :=
  validatedData <- validated (goalSchema goalData) ;;
  svc <- this ;;
  if negb (GoalService.isDatabaseAvailable svc) then
    InMemory.createGoalInMemory userId validatedData now
  else createGoalInDatabase userId validatedData now.

Definition updateGoal (userId goalId : string) (updateData : GoalBody.t)
           (now : Date) : M GoalResponse.t :=
  validatedData <- validated (updateGoalSchema updateData) ;;
  svc <- this ;;
  if negb (GoalService.isDatabaseAvailable svc) then
    InMemory.updateGoalInMemory userId goalId validatedData now
  else updateGoalInDatabase userId goalId validatedData now.

(** The Prisma branches of [getUserGoals] and [deleteGoal]. *)
Variable getUserGoalsInDatabase : string -> Filters.t -> M (list GoalResponse.t).
Variable deleteGoalInDatabase : string -> string -> M string.

Definition getUserGoals (userId : string) (filters : Filters.t)
  : M (list GoalResponse.t) :=
  svc <- this ;;
  if negb (GoalService.isDatabaseAvailable svc) then
    InMemory.getUserGoalsInMemory userId filters
  else getUserGoalsInDatabase userId filters.

Definition deleteGoal (userId goalId : string) : M string :=
  svc <- this ;;
  if negb (GoalService.isDatabaseAvailable svc) then
    InMemory.deleteGoalInMemory userId goalId
  else deleteGoalInDatabase userId goalId.

(** [GoalController.getGoal]: the goals of the caller, searched for the
    identifier; its [catch] answers 500. *)
Definition getGoalHandler (userId id : string) : Handler GoalResponse.t :=
  fun svc =>
    match getUserGoals userId Filters.none svc with
    | (Return goals, svc') =>
        match find (fun g => String.eqb (Goal.id (GoalResponse.goal g)) id)
                   goals with
        | None => (mkResponse 404 (Failure "Goal not found"), svc')
        | Some goal => (mkResponse 200 (Success None goal), svc')
        end
    | (Throw (Error m), svc') => (mkResponse 500 (Failure m), svc')
    end.

(** [GoalController.deleteGoal]: the message of the response is the one that
    the service returns. *)
Definition deleteGoalHandler (userId id : string) : Handler unit :=
  fun svc =>
    match deleteGoal userId id svc with
    | (Return message, svc') => (mkResponse 200 (Success (Some message) tt), svc')
    | (Throw (Error m), svc') => (mkResponse 400 (Failure m), svc')
    end.

(** [GoalController.createGoal] and [GoalController.updateGoal]. *)
Definition createGoalHandler (userId : string) (body : GoalBody.t)
           (now : Date) : Handler GoalResponse.t :=
  respond 201 "Goal created successfully" (createGoal userId body now).

Definition updateGoalHandler (userId id : string) (body : GoalBody.t)
           (now : Date) : Handler GoalResponse.t :=
  respond 200 "Goal updated successfully" (updateGoal userId id body now).

End Schemas.

(** JS [String.prototype.trim] on the ASCII white space: space, tab, line
    feed, vertical tab, form feed, carriage return. *)
Definition isWhiteSpace (c : ascii) : bool :=
  let n := nat_of_ascii c in
  (n =? 32)%nat || ((9 <=? n)%nat && (n <=? 13)%nat).

Fixpoint trimStart (s : string) : string :=
  match s with
  | String c r => if isWhiteSpace c then trimStart r else s
  | EmptyString => EmptyString
  end.

Fixpoint reverse (s : string) : string :=
  match s with
  | EmptyString => EmptyString
  | String c r => reverse r ++ String c EmptyString
  end.

Definition trim (s : string) : string :=
  reverse (trimStart (reverse (trimStart s))).

(* ------------------------------------------------------------------ *)
(** ** The rule-based subtask suggestion of [LLMService] *)

Module LLM.

(** [String.prototype.toLowerCase] on the letters [A]-[Z]; the keywords
    searched below are made of the letters [a]-[z] only. *)
Definition lowerChar (c : ascii) : ascii :=
  let n := nat_of_ascii c in
  if ((65 <=? n) && (n <=? 90))%nat then ascii_of_nat (n + 32) else c.

Fixpoint toLowerCase (s : string) : string :=
  match s with
  | EmptyString => EmptyString
  | String c r => String (lowerChar c) (toLowerCase r)
  end.

(** [s.includes(searchString)]. *)
Fixpoint includes (s searchString : string) : bool :=
  String.prefix searchString s
  || match s with
     | EmptyString => false
     | String _ r => includes r searchString
     end.

(** A [context] object whose keys carry the JSON types of the schema: a
    number under [teamSize] and strings under the other keys.  A key that
    the caller leaves out is [None]. *)
Record Context := mkContext {
  priority : option string;
  dueDate : option string;
  project : option string;
  teamSize : option JsNumber;
  skillLevel : option string;
  budget : option string;
  complexity : option string
}.

(** [{}]. *)
Definition emptyContext : Context :=
  mkContext None None None None None None None.

(** What a caller passes as [context]: nothing ([undefined]), [null], a
    value that is no object (a number, a string, a boolean) or an array,
    none of which has any of the keys of a context, or a context object. *)
Inductive ContextArgument :=
| Undefined
| Null
| NotAnObject
| Object (context : Context).

(** The [TypeError]s of the fallback, named after the expression that
    throws: the destructuring of [context] and the call of
    [goalDescription.toLowerCase].  Their messages are the engine's. *)
Inductive TypeError :=
| Destructuring
| ToLowerCase.

Record Task := mkTask {
  title : string;
  description : string;
  estimatedHours : Z;
  taskPriority : Priority;
  dependencies : list string;
  skills : list string;
  category : string
}.

Record Suggestion := mkSuggestion {
  success : bool;
  subtasks : list Task;
  reasoning : string;
  estimatedTotalHours : Z;
  criticalPath : list string;
  tips : list string;
  generatedBy : string
}.

(** [array.slice(-1)]. *)
Definition sliceLast {A} (l : list A) : list A :=
  skipn (List.length l - 1) l.

(** [array.slice(0, n)]. *)
Definition slice0 {A} (n : nat) (l : list A) : list A := firstn n l.

(** [teamSize > 1]. *)
Definition greaterThanOne (teamSize : JsNumber) : bool :=
  match teamSize with
  | Finite q => negb (Qle_bool q 1)
  | Infinity negative => negb negative
  end.

Definition scopeTask (goalDescription : string) : Task :=
  mkTask "Define project scope and requirements"
         ("Clearly outline what needs to be accomplished for: "
            ++ goalDescription)
         3 HIGH [] ["planning"; "analysis"] "planning".

Definition setupTask : Task :=
  mkTask "Set up development environment"
         "Prepare all necessary tools and configurations"
         2 HIGH ["Define project scope and requirements"]
         ["technical setup"] "execution".

Definition implementTask : Task :=
  mkTask "Implement core functionality"
         "Build the main features and components"
         12 HIGH ["Set up development environment"]
         ["development"; "coding"] "execution".

Definition testingTask : Task :=
  mkTask "Conduct thorough testing"
         "Test all functionality and edge cases"
         4 HIGH ["Implement core functionality"]
         ["testing"; "qa"] "review".

Definition deploymentTask : Task :=
  mkTask "Prepare for deployment"
         "Set up production environment and deployment pipeline"
         3 MEDIUM ["Conduct thorough testing"]
         ["devops"; "deployment"] "execution".

Definition coordinationTask : Task :=
  mkTask "Coordinate team activities"
         "Regular check-ins and progress updates with team members"
         2 MEDIUM [] ["communication"; "project management"]
         "communication".

Definition reviewTask (subtasks : list Task) : Task :=
  mkTask "Final review and documentation"
         "Review completed work and create necessary documentation"
         2 MEDIUM (List.map title (sliceLast subtasks))
         ["documentation"; "review"] "review".

(** The three keyword tests. *)
Definition mentionsBuild (words : string) : bool :=
  includes words "develop" || includes words "build"
  || includes words "create".

Definition mentionsTest (words : string) : bool :=
  includes words "test" || includes words "qa" || includes words "quality".

Definition mentionsDeploy (words : string) : bool :=
  includes words "deploy" || includes words "launch"
  || includes words "release".

(** [subtasks] as it stands after the last [push]. *)
Definition allSubtasks (goalDescription : string) (context : Context)
  : list Task :=
  let teamSize := orKeep (teamSize context) (Finite 1) in
  let words := toLowerCase goalDescription in
  let subtasks := [scopeTask goalDescription] in
  let subtasks :=
    if mentionsBuild words then subtasks ++ [setupTask; implementTask]
    else subtasks in
  let subtasks :=
    if mentionsTest words then subtasks ++ [testingTask] else subtasks in
  let subtasks :=
    if mentionsDeploy words then subtasks ++ [deploymentTask]
    else subtasks in
  let subtasks :=
    if greaterThanOne teamSize then subtasks ++ [coordinationTask]
    else subtasks in
  subtasks ++ [reviewTask subtasks].

(** What a call of the fallback does. *)
Inductive Fallback :=
| Returns (suggestion : Suggestion)
| Throws (error : TypeError).

(** The default parameter [context = {}] followed by
    [const { priority = 'MEDIUM', teamSize = 1 } = context]: the object
    whose keys are read, or nothing when the destructuring throws.  The
    default parameter replaces [undefined] only, and [null] cannot be
    destructured. *)
Definition destructured (context : ContextArgument) : option Context :=
  match context with
  | Undefined => Some emptyContext
  | Null => None
  | NotAnObject => Some emptyContext
  | Object context => Some context
  end.

(** [generateSubtasksFallback(goalDescription, context = {})].  The
    description is the value that the caller passes, [None] for
    [undefined]; only a string has a [toLowerCase] to call. *)
Definition generateSubtasksFallback (goalDescription : option JsValue)
           (context : ContextArgument) : Fallback :=
  match destructured context with
  | None => Throws Destructuring
  | Some context =>
      match goalDescription with
      | Some (JsString goalDescription) =>
          let subtasks := allSubtasks goalDescription context in
          let totalHours :=
            fold_left (fun sum task => (sum + estimatedHours task)%Z)
                      subtasks 0%Z in
          Returns
            (mkSuggestion
               true
               (slice0 6 subtasks)
               "Tasks generated using keyword analysis and best practices for goal completion"
               totalHours
               (List.map title (slice0 3 subtasks))
               [ "Break down large tasks into smaller, manageable chunks";
                 "Set clear deadlines for each subtask";
                 "Review progress regularly and adjust as needed" ]
               "fallback-algorithm")
      | _ => Throws ToLowerCase
      end
  end.

Definition withTeamSize (n : Q) : Context :=
  mkContext None None None (Some (Finite n)) None None None.

(** The four triggers all fire: seven tasks are generated. *)
Definition allTriggers (goalDescription : string)
           (context : ContextArgument) : bool :=
  let words := toLowerCase goalDescription in
  mentionsBuild words && mentionsTest words && mentionsDeploy words
  && greaterThanOne
       (orKeep (teamSize (orKeep (destructured context) emptyContext))
               (Finite 1)).

Definition titles (s : Suggestion) : list string :=
  List.map title (subtasks s).

End LLM.

(* ------------------------------------------------------------------ *)
(** ** Observations and sample stores *)

(** What a caller can read back from the in-memory store. *)
Definition goalStatus (goalId : string) (svc : GoalService.t)
  : option Status :=
  option_map Goal.status (JsMap.get goalId (GoalService.inMemoryGoals svc)).

Definition subtaskCompleted (subtaskId : string) (svc : GoalService.t)
  : option JsValue :=
  option_map Subtask.completed
             (JsMap.get subtaskId (GoalService.inMemorySubtasks svc)).

(** [subtasks.every(subtask => subtask.completed)] over the subtasks of a
    goal. *)
Definition allCompleted (goalId : string) (svc : GoalService.t) : bool :=
  forallb (fun subtask => truthy (Subtask.completed subtask))
          (InMemory.subtasksOf goalId svc).

(** The subtask object after [toggleSubtaskInMemory] has written to it. *)
Definition toggled (now : Date) (subtask : Subtask.t) : Subtask.t :=
  Subtask.set_updatedAt now
    (Subtask.set_completed
       (JsBool (negb (truthy (Subtask.completed subtask)))) subtask).

(** The status that [InMemory.recompute] leaves. *)
Definition recomputedStatus (allDone : bool) (st : Status) : Status :=
  if allDone then COMPLETED
  else match st with COMPLETED => ACTIVE | _ => st end.

(** The service as its constructor leaves it when no database is
    configured, before and after [seedDemoData]. *)
Definition emptyService : GoalService.t :=
  GoalService.mk (Database.mk [] []) false JsMap.empty JsMap.empty 1 1.

Definition demoService : GoalService.t :=
  snd (InMemory.seedDemoData 0 emptyService).

(** The demo rows in the tables of a configured database. *)
Definition demoDatabaseService : GoalService.t :=
  GoalService.mk
    (Database.mk (JsMap.values (GoalService.inMemoryGoals demoService))
                 (JsMap.values (GoalService.inMemorySubtasks demoService)))
    true JsMap.empty JsMap.empty 1 1.

(** Stand-ins for what the service takes from outside: the messages of the
    validation library, a date parser that accepts every string as it is,
    and Prisma branches for a service that has no database. *)
Definition sampleRequired : string := "Required".
Definition sampleInvalidEnum (received : string) : string :=
  "Invalid enum value, received " ++ received.
Definition sampleToISOString (val : string) : option string := Some val.
Definition noDatabase {A} : M A := throw (Error "No database configured").

(** Request bodies: a goal whose title is three spaces, an update that
    supplies a priority and nothing else, and a goal with a title and one
    subtask. *)
Definition blankTitleBody : GoalBody.t :=
  GoalBody.mk (Some "   ") None None None None None None None None.

Definition priorityOnlyBody : GoalBody.t :=
  GoalBody.mk None None (Some "LOW") None None None None None None.

Definition launchBody : GoalBody.t :=
  GoalBody.mk (Some "Launch MVP") None (Some "HIGH") None None None None None
    (Some [SubtaskBody.mk None (Some "Design") None None]).

(** Where a created subtask is kept: under its identifier in the map, or as
    the last row of the table. *)
Definition storedIn (svc svc' : GoalService.t) (subtask : Subtask.t) : Prop :=
  if GoalService.isDatabaseAvailable svc then
    Database.subtask (GoalService.prisma svc')
    = Database.subtask (GoalService.prisma svc) ++ [subtask]
  else
    JsMap.get (Subtask.id subtask) (GoalService.inMemorySubtasks svc')
    = Some subtask.

(** The map and the tables hold the same rows, every row under its own
    identifier. *)
Definition keyed {V} (rowId : V -> string) (m : JsMap.t V) : Prop :=
  Forall (fun entry => rowId (snd entry) = fst entry) m.

Definition sameRows (memory database : GoalService.t) : Prop :=
  Database.goal (GoalService.prisma database)
  = JsMap.values (GoalService.inMemoryGoals memory)
  /\ Database.subtask (GoalService.prisma database)
     = JsMap.values (GoalService.inMemorySubtasks memory).

Definition wellKeyed (memory : GoalService.t) : Prop :=
  keyed Goal.id (GoalService.inMemoryGoals memory)
  /\ keyed Subtask.id (GoalService.inMemorySubtasks memory)
  /\ JsMap.wf (GoalService.inMemorySubtasks memory).

(** The demo store after [user-1] has created a goal as [PAUSED] with one
    open subtask; the new goal is [goal-3] and its subtask [subtask-6]. *)
Definition pausedBody : GoalBody.t :=
  GoalBody.mk (Some "Launch MVP") None (Some "HIGH") (Some "PAUSED") None None
    None None (Some [SubtaskBody.mk None (Some "Design") None None]).

Definition pausedService : GoalService.t :=
  snd (createGoalHandler sampleRequired sampleInvalidEnum sampleToISOString
         (fun _ _ _ => noDatabase) "user-1" pausedBody 0 demoService).


(* ------------------------------------------------------------------ *)
(** ** The shape of a well-formed in-memory store *)

From Stdlib Require DecimalNat.

(** Every subtask refers to a goal that is in the store. *)
Definition referential (svc : GoalService.t) : Prop :=
  forall k subtask,
    In (k, subtask) (GoalService.inMemorySubtasks svc) ->
    JsMap.get (Subtask.goalId subtask) (GoalService.inMemoryGoals svc)
    <> None.

(** The identifiers that the counters have yet to hand out are not in
    use. *)
Definition freshIds (svc : GoalService.t) : Prop :=
  (forall n, (GoalService.goalIdCounter svc <= n)%nat ->
             JsMap.get (numbered "goal-" n) (GoalService.inMemoryGoals svc)
             = None)
  /\ (forall n, (GoalService.subtaskIdCounter svc <= n)%nat ->
                JsMap.get (numbered "subtask-" n)
                          (GoalService.inMemorySubtasks svc) = None).

Definition consistent (svc : GoalService.t) : Prop :=
  keyed Goal.id (GoalService.inMemoryGoals svc)
  /\ keyed Subtask.id (GoalService.inMemorySubtasks svc)
  /\ JsMap.wf (GoalService.inMemoryGoals svc)
  /\ JsMap.wf (GoalService.inMemorySubtasks svc)
  /\ referential svc
  /\ freshIds svc.

(** The subtask objects that [createGoalInMemory] makes for a goal, the
    first of them under the identifier with number [counter]. *)
Fixpoint newSubtasks (goalId : string) (now : Date) (counter : nat)
         (datas : list SubtaskData.t) : list Subtask.t :=
  match datas with
  | [] => []
  | data :: r =>
      Subtask.mk (numbered "subtask-" counter) (SubtaskData.title data)
                 (SubtaskData.description data)
                 (JsBool (SubtaskData.completed data))
                 None None None None goalId now now
      :: newSubtasks goalId now (S counter) r
  end.

(** The goal object that [createGoalInMemory] makes. *)
Definition newGoal (userId : string) (data : GoalData.t) (now : Date)
           (counter : nat) : Goal.t :=
  Goal.mk (numbered "goal-" counter) (GoalData.title data)
          (GoalData.description data) (GoalData.priority data)
          (GoalData.status data) (GoalData.dueDate data)
          (GoalData.projectId data) userId now now None None None.

(** The subtask object that [addSubtaskInMemory] makes. *)
Definition addedSubtask (goalId : string) (data : NewSubtask.t) (now : Date)
           (counter : nat) : Subtask.t :=
  Subtask.mk (numbered "subtask-" counter) (NewSubtask.title data)
             (NewSubtask.description data) (JsBool false)
             (NewSubtask.estimatedHours data) (NewSubtask.category data)
             (Some (orKeep (NewSubtask.skills data) []))
             (Some (orKeep (NewSubtask.dependencies data) []))
             goalId now now.

(** The goals of a user as [getUserGoalsInMemory] lists them without
    filters. *)
Definition goalsOf (userId : string) (svc : GoalService.t)
  : list GoalResponse.t :=
  List.map (InMemory.withSubtasks svc)
    (filter (fun goal => String.eqb (Goal.ownerId goal) userId)
            (JsMap.values (GoalService.inMemoryGoals svc))).

(** [subtasks.forEach(subtask => map.set(subtask.id, subtask))]. *)
Definition setAll (subtasks : list Subtask.t) (m : JsMap.t Subtask.t)
  : JsMap.t Subtask.t :=
  fold_left (fun m subtask => JsMap.set (Subtask.id subtask) subtask m)
            subtasks m.

(** A response that reports a failure. *)
Definition isFailure {A} (r : Response A) : bool :=
  match json r with
  | Failure _ => true
  | Success _ _ => false
  end.

(** [goal.status === filters.status] and [goal.priority ===
    filters.priority] when the filter is set. *)
Definition passes (filters : Filters.t) (goal : Goal.t) : bool :=
  match Filters.status filters with
  | Some st => Status_eqb (Goal.status goal) st
  | None => true
  end
  && match Filters.priority filters with
     | Some p => Priority_eqb (Goal.priority goal) p
     | None => true
     end.

(** A handler that leaves the service as it was when it reports a
    failure. *)
Definition unchangedOnFailure {A} (svc : GoalService.t)
           (result : Response A * GoalService.t) : Prop :=
  isFailure (fst result) = true -> snd result = svc.

(* ------------------------------------------------------------------ *)
(** ** The goal routes *)

(** A call of one of the mutating methods of the in-memory store on behalf
    of a user. *)
Inductive Call :=
| CallCreateGoal (data : GoalData.t) (now : Date)
| CallUpdateGoal (goalId : string) (data : GoalUpdate.t) (now : Date)
| CallToggleSubtask (subtaskId : string) (now : Date)
| CallAddSubtask (goalId : string) (data : NewSubtask.t) (now : Date)
| CallUpdateSubtask (goalId subtaskId : string) (data : SubtaskUpdate.t)
                    (now : Date)
| CallCheckCompletion (goalId : string) (now : Date)
| CallDeleteGoal (goalId : string).

(** The store that a call leaves, whether it returns or throws. *)
Definition perform (userId : string) (call : Call) (svc : GoalService.t)
  : GoalService.t :=
  match call with
  | CallCreateGoal data now =>
      snd (InMemory.createGoalInMemory userId data now svc)
  | CallUpdateGoal goalId data now =>
      snd (InMemory.updateGoalInMemory userId goalId data now svc)
  | CallToggleSubtask subtaskId now =>
      snd (InMemory.toggleSubtaskInMemory userId subtaskId now svc)
  | CallAddSubtask goalId data now =>
      snd (InMemory.addSubtaskInMemory userId goalId data now svc)
  | CallUpdateSubtask goalId subtaskId data now =>
      snd (InMemory.updateSubtaskInMemory userId goalId subtaskId data now
                                          svc)
  | CallCheckCompletion goalId now =>
      snd (InMemory.checkAndUpdateGoalCompletionInMemory userId goalId now
                                                         svc)
  | CallDeleteGoal goalId =>
      snd (InMemory.deleteGoalInMemory userId goalId svc)
  end.

Definition performAll (userId : string) (calls : list Call)
           (svc : GoalService.t) : GoalService.t :=
  fold_left (fun svc call => perform userId call svc) calls svc.

(** The payload of a token. *)
Module Claims.
Record t := mk {
  userId : string;
  type : string
}.
End Claims.

(** The routes of [routes/goals.js] whose handlers are modelled, with the
    parameters of the path and the body. *)
Inductive Route :=
| PostGoal (body : GoalBody.t)
| GetGoal (id : string)
| PutGoal (id : string) (body : GoalBody.t)
| DeleteGoal (id : string)
| PostSubtask (id : string) (body : AddSubtaskBody.t)
| PutSubtask (goalId subtaskId : string) (body : SubtaskUpdate.t)
| PutSubtaskToggle (subtaskId : string).

(** A request: its [Authorization] header and its route, with the reading
    of the clock when it is served and the key that the database would
    give to a new row. *)
Module Request.
Record t := mk {
  authorization : option string;
  route : Route;
  now : Date;
  newId : string
}.
End Request.

Section Router.

(** [jwt.verify(token, config.jwt.secret)]; [None] when it throws. *)
Variable jwtVerify : string -> option Claims.t.

Variable zodRequired : string.
Variable zodInvalidEnum : string -> string.
Variable toISOString : string -> option string.
Variable createGoalInDatabase : string -> GoalData.t -> Date -> M GoalResponse.t.
Variable updateGoalInDatabase :
  string -> string -> GoalUpdate.t -> Date -> M GoalResponse.t.
Variable getUserGoalsInDatabase : string -> Filters.t -> M (list GoalResponse.t).
Variable deleteGoalInDatabase : string -> string -> M string.

(** [authService.verifyToken]: its [catch] replaces whatever was thrown. *)
Definition verifyToken (token type : string) : Exception + Claims.t :=
  match jwtVerify token with
  | Some decoded =>
      if negb (String.eqb (Claims.type decoded) type)
      then inl (Error "Invalid or expired token")
      else inr decoded
  | None => inl (Error "Invalid or expired token")
  end.

(** The [authenticate] middleware: the status and the error of the response
    that it sends, or the [req.userId] with which it calls [next()]. *)
Definition authenticate (authorization : option string)
  : (nat * string) + string :=
  match authorization with
  | None => inl (401%nat, "Access token required")
  | Some authHeader =>
      if negb (String.prefix "Bearer " authHeader)
      then inl (401%nat, "Access token required")
      else
        let token :=
          String.substring 7 (String.length authHeader - 7) authHeader in
        match verifyToken token "access" with
        | inl _ => inl (401%nat, "Invalid or expired token")
        | inr decoded => inr (Claims.userId decoded)
        end
  end.

(** The status of a response and the service that the handler leaves. *)
Definition answered {A} (result : Response A * GoalService.t)
  : nat * GoalService.t :=
  (code (fst result), snd result).

(** [router.use(authenticate)] followed by the handler of the route. *)
Definition serve (request : Request.t) (svc : GoalService.t)
  : nat * GoalService.t :=
  match authenticate (Request.authorization request) with
  | inl (status, _) => (status, svc)
  | inr userId =>
      let now := Request.now request in
      match Request.route request with
      | PostGoal body =>
          answered (createGoalHandler zodRequired zodInvalidEnum toISOString
                      createGoalInDatabase userId body now svc)
      | GetGoal id =>
          answered (getGoalHandler getUserGoalsInDatabase userId id svc)
      | PutGoal id body =>
          answered (updateGoalHandler zodRequired zodInvalidEnum toISOString
                      updateGoalInDatabase userId id body now svc)
      | DeleteGoal id =>
          answered (deleteGoalHandler deleteGoalInDatabase userId id svc)
      | PostSubtask id body =>
          answered (GoalController.addSubtask userId id body
                      (Request.newId request) now svc)
      | PutSubtask goalId subtaskId body =>
          answered (GoalController.updateSubtask userId goalId subtaskId body
                                                 now svc)
      | PutSubtaskToggle subtaskId =>
          answered (GoalController.toggleSubtask userId subtaskId now svc)
      end
  end.

(** The service after a sequence of requests. *)
Definition serveAll (requests : list Request.t) (svc : GoalService.t)
  : GoalService.t :=
  fold_left (fun svc request => snd (serve request svc)) requests svc.

End Router.

(** A stand-in for the verification of tokens: a token reads
    [access:<user>] or [refresh:<user>]. *)
Definition sampleJwtVerify (token : string) : option Claims.t :=
  if String.prefix "access:" token then
    Some (Claims.mk (String.substring 7 (String.length token - 7) token)
                    "access")
  else if String.prefix "refresh:" token then
    Some (Claims.mk (String.substring 8 (String.length token - 8) token)
                    "refresh")
  else None.

Definition sampleServe : Request.t -> GoalService.t -> nat * GoalService.t :=
  serve sampleJwtVerify sampleRequired sampleInvalidEnum sampleToISOString
        (fun _ _ _ => noDatabase) (fun _ _ _ _ => noDatabase)
        (fun _ _ => noDatabase) (fun _ _ => noDatabase).

Definition sampleServeAll : list Request.t -> GoalService.t -> GoalService.t :=
  serveAll sampleJwtVerify sampleRequired sampleInvalidEnum sampleToISOString
           (fun _ _ _ => noDatabase) (fun _ _ _ _ => noDatabase)
           (fun _ _ => noDatabase) (fun _ _ => noDatabase).

(** Every dependency of a task is the title of a task that comes before it
    in the list. *)
Fixpoint resolved (earlier : list string) (tasks : list LLM.Task) : bool :=
  match tasks with
  | [] => true
  | task :: rest =>
      forallb (fun dependency => existsb (String.eqb dependency) earlier)
              (LLM.dependencies task)
      && resolved (earlier ++ [LLM.title task]) rest
  end.

(** The sum of the estimates of a list of tasks. *)
Definition hours (tasks : list LLM.Task) : Z :=
  fold_right (fun task sum => (LLM.estimatedHours task + sum)%Z) 0%Z tasks.

(** An identifier that the counter has passed: no later goal, or subtask,
    will be given it. *)
Definition spentGoalId (id : string) (svc : GoalService.t) : Prop :=
  forall n, (GoalService.goalIdCounter svc <= n)%nat ->
            id <> numbered "goal-" n.

Definition spentSubtaskId (id : string) (svc : GoalService.t) : Prop :=
  forall n, (GoalService.subtaskIdCounter svc <= n)%nat ->
            id <> numbered "subtask-" n.

(** No goal under the identifier, and none to come. *)
Definition goalGone (id : string) (svc : GoalService.t) : Prop :=
  consistent svc
  /\ JsMap.get id (GoalService.inMemoryGoals svc) = None
  /\ spentGoalId id svc.

Definition subtaskGone (id : string) (svc : GoalService.t) : Prop :=
  consistent svc
  /\ JsMap.get id (GoalService.inMemorySubtasks svc) = None
  /\ spentSubtaskId id svc.

(* ------------------------------------------------------------------ *)
(** ** The priority suggestion of the LLM controller *)

Module LLMController.

Record PrioritySuggestion := mkPrioritySuggestion {
  suggestedPriority : Priority;
  reasoning : string;
  alternatives : list (Priority * string)
}.

Definition priorityAlternatives : list (Priority * string) :=
  [ (HIGH, "If this goal has urgent business impact");
    (MEDIUM, "For regular planned work");
    (LOW, "For future considerations or nice-to-have features") ].

Definition urgent (description : string) : bool :=
  LLM.includes description "urgent"
  || LLM.includes description "deadline"
  || LLM.includes description "critical"
  || LLM.includes description "asap"
  || LLM.includes description "emergency".

Definition deferred (description : string) : bool :=
  LLM.includes description "someday"
  || LLM.includes description "eventually"
  || LLM.includes description "nice to have"
  || LLM.includes description "future".

(** [!goalDescription] on the value under the key, [None] for a body
    without the key. *)
Definition falsy (goalDescription : option JsValue) : bool :=
  match goalDescription with
  | None => true
  | Some value => negb (truthy value)
  end.

(** [goalDescription.toLowerCase()]: only a string has the method, on any
    other value the call throws a [TypeError] ([None]). *)
Definition toLowerCase (goalDescription : option JsValue) : option string :=
  match goalDescription with
  | Some (JsString s) => Some (LLM.toLowerCase s)
  | _ => None
  end.

(** [suggestPriority]: [goalDescription] is the value under that key of
    the body; the [context] of the body is not read.  What is thrown
    inside the [try] is answered by the [catch] with status 500. *)
Definition suggestPriority (goalDescription : option JsValue)
  : Response PrioritySuggestion :=
  if falsy goalDescription then
    mkResponse 400 (Failure "Goal description is required")
  else
    match toLowerCase goalDescription with
    | None => mkResponse 500 (Failure "Priority suggestion failed")
    | Some description =>
        let '(priority, reasoning) :=
          if urgent description then (HIGH, "Contains urgency indicators")
          else if deferred description then
            (LOW, "Contains low-urgency indicators")
          else
            (MEDIUM,
             "No specific urgency indicators found, assigned medium priority")
        in
        mkResponse 200
          (Success None
             (mkPrioritySuggestion priority reasoning priorityAlternatives))
    end.

(** The priority of a response, when it has one. *)
Definition suggested (response : Response PrioritySuggestion)
  : option Priority :=
  match json response with
  | Success _ suggestion => Some (suggestedPriority suggestion)
  | Failure _ => None
  end.

End LLMController.

(* ------------------------------------------------------------------ *)
(** ** The frontend: conversions and the local store *)

Module FrontendStatus.
Inductive t := pending | in_progress | completed.
End FrontendStatus.

Module FrontendPriority.
Inductive t := High | Medium | Low.
End FrontendPriority.

(** [ApiSubtask] and [ApiGoal] of [types.ts]: what the frontend expects of
    the backend. *)
Module ApiSubtask.
Record t := mk {
  id : string;
  title : string;
  description : option string;
  completed : bool;
  goalId : string;
  estimatedHours : option Q;
  category : option string;
  skills : option (list string);
  dependencies : option (list string);
  createdAt : string;
  updatedAt : string
}.
End ApiSubtask.

Module ApiGoal.
Record t := mk {
  id : string;
  title : string;
  description : option string;
  priority : Priority;
  dueDate : string;
  status : Status;
  project : option string;
  platformTags : option (list string);
  team : option (list string);
  userId : string;
  subtasks : list ApiSubtask.t;
  createdAt : string;
  updatedAt : string
}.
End ApiGoal.

(** [Subtask] and [Goal] of [types.ts]. *)
Module FrontSubtask.
Record t := mk {
  id : string;
  title : string;
  done : bool;
  description : option string;
  estimatedHours : option Q;
  category : option string;
  skills : option (list string);
  dependencies : option (list string);
  completed : option bool
}.
Definition set_done (b : bool) (s : t) : t :=
  mk (id s) (title s) b (description s) (estimatedHours s) (category s)
     (skills s) (dependencies s) (completed s).
End FrontSubtask.

Module FrontGoal.
Record t := mk {
  id : string;
  title : string;
  project : option string;
  priority : FrontendPriority.t;
  platformTags : option (list string);
  dueDate : string;
  team : option (list string);
  subtasks : list FrontSubtask.t;
  description : option string;
  status : option FrontendStatus.t
}.
Definition set_subtasks (l : list FrontSubtask.t) (g : t) : t :=
  mk (id g) (title g) (project g) (priority g) (platformTags g) (dueDate g)
     (team g) l (description g) (status g).
End FrontGoal.

(** The objects that [goalToApiGoal] and [subtaskToApiSubtask] build. *)
Module PartialApiGoal.
Record t := mk {
  title : string;
  description : option string;
  priority : Priority;
  dueDate : string;
  project : option string;
  platformTags : option (list string);
  team : option (list string);
  status : Status
}.
End PartialApiGoal.

Module PartialApiSubtask.
Record t := mk {
  title : string;
  description : option string;
  completed : bool;
  estimatedHours : option Q;
  category : option string;
  skills : option (list string);
  dependencies : option (list string)
}.
End PartialApiSubtask.

Module GoalUtils.

Definition frontendToBackendStatus (status : FrontendStatus.t) : Status :=
  match status with
  | FrontendStatus.pending => ACTIVE
  | FrontendStatus.in_progress => ACTIVE
  | FrontendStatus.completed => COMPLETED
  end.

Definition backendToFrontendStatus (status : Status) : FrontendStatus.t :=
  match status with
  | ACTIVE => FrontendStatus.in_progress
  | COMPLETED => FrontendStatus.completed
  | PAUSED => FrontendStatus.pending
  | CANCELLED => FrontendStatus.pending
  end.

Definition frontendToBackendPriority (priority : FrontendPriority.t)
  : Priority :=
  match priority with
  | FrontendPriority.High => HIGH
  | FrontendPriority.Medium => MEDIUM
  | FrontendPriority.Low => LOW
  end.

Definition backendToFrontendPriority (priority : Priority)
  : FrontendPriority.t :=
  match priority with
  | HIGH => FrontendPriority.High
  | MEDIUM => FrontendPriority.Medium
  | LOW => FrontendPriority.Low
  end.

Definition apiSubtaskToSubtask (apiSubtask : ApiSubtask.t)
  : FrontSubtask.t :=
  FrontSubtask.mk (ApiSubtask.id apiSubtask)
                  (ApiSubtask.title apiSubtask)
                  (ApiSubtask.completed apiSubtask)
                  (ApiSubtask.description apiSubtask)
                  (ApiSubtask.estimatedHours apiSubtask)
                  (ApiSubtask.category apiSubtask)
                  (ApiSubtask.skills apiSubtask)
                  (ApiSubtask.dependencies apiSubtask)
                  (Some (ApiSubtask.completed apiSubtask)).

Definition apiGoalToGoal (apiGoal : ApiGoal.t) : FrontGoal.t :=
  FrontGoal.mk (ApiGoal.id apiGoal)
               (ApiGoal.title apiGoal)
               (ApiGoal.project apiGoal)
               (backendToFrontendPriority (ApiGoal.priority apiGoal))
               (Some (orKeep (ApiGoal.platformTags apiGoal) []))
               (ApiGoal.dueDate apiGoal)
               (Some (orKeep (ApiGoal.team apiGoal) []))
               (List.map apiSubtaskToSubtask (ApiGoal.subtasks apiGoal))
               (ApiGoal.description apiGoal)
               (Some (backendToFrontendStatus (ApiGoal.status apiGoal))).

Definition goalToApiGoal (goal : FrontGoal.t) : PartialApiGoal.t :=
  PartialApiGoal.mk
    (FrontGoal.title goal)
    (FrontGoal.description goal)
    (frontendToBackendPriority (FrontGoal.priority goal))
    (FrontGoal.dueDate goal)
    (FrontGoal.project goal)
    (FrontGoal.platformTags goal)
    (FrontGoal.team goal)
    (frontendToBackendStatus
       (orKeep (FrontGoal.status goal) FrontendStatus.pending)).

(** [subtask.done || subtask.completed || false]. *)
Definition subtaskToApiSubtask (subtask : FrontSubtask.t)
  : PartialApiSubtask.t :=
  PartialApiSubtask.mk
    (FrontSubtask.title subtask)
    (FrontSubtask.description subtask)
    (FrontSubtask.done subtask
     || orKeep (FrontSubtask.completed subtask) false)
    (FrontSubtask.estimatedHours subtask)
    (FrontSubtask.category subtask)
    (FrontSubtask.skills subtask)
    (FrontSubtask.dependencies subtask).

End GoalUtils.

(** The local branches of [useGoals], on the object [goalsByDate]: the
    object that they persist. *)
Module UseGoals.

Definition GoalsByDate : Type := JsMap.t (list FrontGoal.t).

(** [list[existingIdx] = goal] at the first goal with the identifier. *)
Fixpoint replaceFirst (goal : FrontGoal.t) (goals : list FrontGoal.t)
  : option (list FrontGoal.t) :=
  match goals with
  | [] => None
  | g :: r =>
      if String.eqb (FrontGoal.id g) (FrontGoal.id goal) then Some (goal :: r)
      else option_map (cons g) (replaceFirst goal r)
  end.

Definition upsertLocal (dateKey : string) (goal : FrontGoal.t)
           (goalsByDate : GoalsByDate) : GoalsByDate :=
  let goals := orKeep (JsMap.get dateKey goalsByDate) [] in
  let goals :=
    match replaceFirst goal goals with
    | Some replaced => replaced
    | None => goal :: goals
    end in
  JsMap.set dateKey goals goalsByDate.

Definition removeLocal (dateKey goalId : string) (goalsByDate : GoalsByDate)
  : GoalsByDate :=
  JsMap.set dateKey
    (filter (fun g => negb (String.eqb (FrontGoal.id g) goalId))
            (orKeep (JsMap.get dateKey goalsByDate) []))
    goalsByDate.

Definition toggleSubtaskLocal (dateKey goalId subtaskId : string)
           (goalsByDate : GoalsByDate) : GoalsByDate :=
  let updated :=
    List.map
      (fun g =>
         if negb (String.eqb (FrontGoal.id g) goalId) then g
         else
           FrontGoal.set_subtasks
             (List.map
                (fun s =>
                   if String.eqb (FrontSubtask.id s) subtaskId
                   then FrontSubtask.set_done (negb (FrontSubtask.done s)) s
                   else s)
                (FrontGoal.subtasks g))
             g)
      (orKeep (JsMap.get dateKey goalsByDate) []) in
  JsMap.set dateKey updated goalsByDate.

End UseGoals.
(* ------------------------------------------------------------------ *)
(** ** Generating subtasks with the language model *)

(** The body of [POST /api/llm/generate-subtasks] as [generateSubtasks]
    reads it: the value under [goalDescription], [None] when the body has
    no such key, and what the body has under [context]. *)
Module GenerateInput.
Record t := mk {
  goalDescription : option JsValue;
  context : LLM.ContextArgument
}.
End GenerateInput.

(** [z.enum(values).optional()] on an optional string. *)
Definition optionalEnum (values : list string) (value : option string)
  : bool :=
  match value with
  | None => true
  | Some s => existsb (String.eqb s) values
  end.

(** [z.number().min(1).max(20).optional()]. *)
Definition optionalTeamSize (value : option JsNumber) : bool :=
  match value with
  | None => true
  | Some (Finite n) => Qle_bool 1 n && Qle_bool n 20
  | Some (Infinity _) => false
  end.

(** [generateSubtasksSchema.parse(input)]: the validated description and
    context, or nothing when it throws. *)
Definition generateSubtasksSchema (input : GenerateInput.t)
  : option (string * option LLM.Context) :=
  match GenerateInput.goalDescription input with
  | Some (JsString goalDescription) =>
      if (1 <=? String.length goalDescription)%nat then
        match GenerateInput.context input with
        | LLM.Undefined => Some (goalDescription, None)
        | LLM.Object context =>
            if optionalEnum ["HIGH"; "MEDIUM"; "LOW"] (LLM.priority context)
               && optionalTeamSize (LLM.teamSize context)
               && optionalEnum ["beginner"; "intermediate"; "advanced"]
                               (LLM.skillLevel context)
               && optionalEnum ["low"; "medium"; "high"; "unlimited"]
                               (LLM.budget context)
               && optionalEnum ["simple"; "moderate"; "complex"]
                               (LLM.complexity context)
            then Some (goalDescription, Some context)
            else None
        | LLM.Null => None
        | LLM.NotAnObject => None
        end
      else None
  | _ => None
  end.

(** What [generateSubtasks] resolves to: the parsed answer of the model or
    the rule-based suggestion; or it rejects with the [TypeError] that the
    fallback throws. *)
Inductive Generation (R : Type) :=
| FromModel (answer : R)
| FromFallback (suggestion : LLM.Suggestion)
| Rejected (error : LLM.TypeError).
Arguments FromModel {R} answer.
Arguments FromFallback {R} suggestion.
Arguments Rejected {R} error.

(** [return this.generateSubtasksFallback(...)] outside a [try]. *)
Definition returned {R} (call : LLM.Fallback) : Generation R :=
  match call with
  | LLM.Returns suggestion => FromFallback suggestion
  | LLM.Throws error => Rejected error
  end.

(** The default [context = {}] of a destructuring. *)
Definition contextOrEmpty (context : LLM.ContextArgument)
  : LLM.ContextArgument :=
  match context with
  | LLM.Undefined => LLM.Object LLM.emptyContext
  | _ => context
  end.

Section GenerateSubtasks.

(** The answer that [parseSubtasksResponse] builds. *)
Variable R : Type.

(** [this.isGeminiAvailable], as the constructor left it. *)
Variable isGeminiAvailable : bool.

(** [buildSubtaskPrompt], the call of the model followed by
    [response.text()], and [parseSubtasksResponse]; [None] when they
    throw or reject. *)
Variable buildSubtaskPrompt : string -> LLM.Context -> string.
Variable generateContent : string -> option string.
Variable parseSubtasksResponse : string -> option R.

(** The [catch] of [generateSubtasks], on the input as it came. *)
Definition generateSubtasksCatch (input : GenerateInput.t) : Generation R :=
  returned
    (LLM.generateSubtasksFallback
       (GenerateInput.goalDescription input)
       (contextOrEmpty (GenerateInput.context input))).

Definition generateSubtasks (input : GenerateInput.t) : Generation R :=
  match generateSubtasksSchema input with
  | None => generateSubtasksCatch input
  | Some (goalDescription, context) =>
      let context := orKeep context LLM.emptyContext in
      if negb isGeminiAvailable then
        match LLM.generateSubtasksFallback
                (Some (JsString goalDescription)) (LLM.Object context) with
        | LLM.Returns suggestion => FromFallback suggestion
        | LLM.Throws _ => generateSubtasksCatch input
        end
      else
        match generateContent (buildSubtaskPrompt goalDescription context)
        with
        | None => generateSubtasksCatch input
        | Some text =>
            match parseSubtasksResponse text with
            | Some answer => FromModel answer
            | None => generateSubtasksCatch input
            end
        end
  end.

(** [LLMController.generateSubtasks]: the status of its response. *)
Definition generateSubtasksHandler (body : GenerateInput.t) : nat :=
  match generateSubtasks body with
  | Rejected _ => 400%nat
  | _ => 200%nat
  end.

End GenerateSubtasks.

(* ------------------------------------------------------------------ *)
(** ** The in-memory accounts of the authentication service *)

Module User.
Record t := mk {
  id : string;
  email : string;
  passwordHash : string;
  firstName : option string;
  lastName : option string;
  createdAt : Date
}.
End User.

(** [const { passwordHash, ...userWithoutPassword } = user]. *)
Module UserWithoutPassword.
Record t := mk {
  id : string;
  email : string;
  firstName : option string;
  lastName : option string;
  createdAt : Date
}.
End UserWithoutPassword.

Module Tokens.
Record t := mk {
  accessToken : string;
  refreshToken : string
}.
End Tokens.

Module Session.
Record t := mk {
  user : UserWithoutPassword.t;
  tokens : Tokens.t
}.
End Session.

(** Validated data of [registerSchema] and [loginSchema]. *)
Module RegisterData.
Record t := mk {
  email : string;
  password : string;
  firstName : option string;
  lastName : option string
}.
End RegisterData.

Module LoginData.
Record t := mk {
  email : string;
  password : string
}.
End LoginData.

Module AuthService.
Record t := mk {
  inMemoryUsers : JsMap.t User.t;
  userIdCounter : nat
}.

(** The service as its constructor leaves it. *)
Definition initial : t := mk JsMap.empty 1.
End AuthService.

Section Accounts.

(** [bcrypt.hash(password, rounds)], which draws a salt, and
    [bcrypt.compare(password, hash)]. *)
Variable hashPassword : string -> string -> string.
Variable comparePassword : string -> string -> bool.

(** [jwt.sign(payload, secret, options)] at a reading of the clock. *)
Variable jwtSign : Claims.t -> Date -> string.

Definition generateTokens (userId : string) (now : Date) : Tokens.t :=
  Tokens.mk (jwtSign (Claims.mk userId "access") now)
            (jwtSign (Claims.mk userId "refresh") now).

Definition withoutPassword (user : User.t) : UserWithoutPassword.t :=
  UserWithoutPassword.mk (User.id user) (User.email user)
                         (User.firstName user) (User.lastName user)
                         (User.createdAt user).

(** [registerInMemory], for one call at a time; [salt] is the salt that the
    hash draws. *)
Definition registerInMemory (validatedData : RegisterData.t) (salt : string)
           (now : Date) (auth : AuthService.t)
  : Outcome Session.t * AuthService.t :=
  if existsb (fun user => String.eqb (User.email user)
                                      (RegisterData.email validatedData))
             (JsMap.values (AuthService.inMemoryUsers auth))
  then (Throw (Error "User with this email already exists"), auth)
  else
    let hashedPassword :=
      hashPassword (RegisterData.password validatedData) salt in
    let userId := numbered "user-" (AuthService.userIdCounter auth) in
    let user :=
      User.mk userId (RegisterData.email validatedData) hashedPassword
              (RegisterData.firstName validatedData)
              (RegisterData.lastName validatedData) now in
    (Return (Session.mk (withoutPassword user)
                        (generateTokens (User.id user) now)),
     AuthService.mk
       (JsMap.set userId user (AuthService.inMemoryUsers auth))
       (S (AuthService.userIdCounter auth))).

Definition loginInMemory (validatedData : LoginData.t) (now : Date)
           (auth : AuthService.t) : Outcome Session.t * AuthService.t :=
  match find (fun user => String.eqb (User.email user)
                                     (LoginData.email validatedData))
             (JsMap.values (AuthService.inMemoryUsers auth)) with
  | None => (Throw (Error "Invalid email or password"), auth)
  | Some user =>
      if negb (comparePassword (LoginData.password validatedData)
                               (User.passwordHash user))
      then (Throw (Error "Invalid email or password"), auth)
      else (Return (Session.mk (withoutPassword user)
                               (generateTokens (User.id user) now)),
            auth)
  end.

End Accounts.

(* ================================================================== *)
(** * Properties *)

(** ** The map *)

Module JsMapFacts.

Lemma get_set_same {V} (k : string) (v : V) (m : JsMap.t V) :
  JsMap.get k (JsMap.set k v m) = Some v.
Proof.
  induction m as [|[k' v'] r IH]; simpl.
  - now rewrite String.eqb_refl.
  - destruct (String.eqb k' k) eqn:E; simpl.
    + now rewrite String.eqb_refl.
    + now rewrite E.
Qed.

Lemma get_set_other {V} (k k' : string) (v : V) (m : JsMap.t V) :
  k <> k' -> JsMap.get k' (JsMap.set k v m) = JsMap.get k' m.
Proof.
  intros Hne. induction m as [|[k0 v0] r IH]; simpl.
  - destruct (String.eqb k k') eqn:E; [|reflexivity].
    apply String.eqb_eq in E. contradiction.
  - destruct (String.eqb k0 k) eqn:E; simpl.
    + apply String.eqb_eq in E. subst k0.
      destruct (String.eqb k k') eqn:E'; [|reflexivity].
      apply String.eqb_eq in E'. contradiction.
    + now rewrite IH.
Qed.

Lemma get_delete_same {V} (k : string) (m : JsMap.t V) :
  JsMap.get k (JsMap.delete k m) = None.
Proof.
  unfold JsMap.delete.
  induction m as [|[k' v'] r IH]; simpl; [reflexivity|].
  destruct (String.eqb k' k) eqn:E; simpl; [assumption|].
  now rewrite E.
Qed.

Lemma get_delete_other {V} (k k' : string) (m : JsMap.t V) :
  k <> k' -> JsMap.get k' (JsMap.delete k m) = JsMap.get k' m.
Proof.
  intros Hne. unfold JsMap.delete.
  induction m as [|[k0 v0] r IH]; simpl; [reflexivity|].
  destruct (String.eqb k0 k) eqn:E; simpl.
  - apply String.eqb_eq in E. subst k0.
    destruct (String.eqb k k') eqn:E'; [|assumption].
    apply String.eqb_eq in E'. contradiction.
  - now rewrite IH.
Qed.

Lemma get_In {V} (k : string) (v : V) (m : JsMap.t V) :
  JsMap.get k m = Some v -> In (k, v) m.
Proof.
  induction m as [|[k' v'] r IH]; simpl; [discriminate|].
  destruct (String.eqb k' k) eqn:E.
  - apply String.eqb_eq in E. intros [= ->]. subst. now left.
  - intros H. right. now apply IH.
Qed.

Lemma In_values {V} (k : string) (v : V) (m : JsMap.t V) :
  In (k, v) m -> In v (JsMap.values m).
Proof.
  intros H. unfold JsMap.values.
  change v with (snd (k, v)). now apply in_map.
Qed.

Lemma In_get {V} (k : string) (v : V) (m : JsMap.t V) :
  In (k, v) m -> exists v', JsMap.get k m = Some v'.
Proof.
  induction m as [|[k' v'] r IH]; simpl; [contradiction|].
  intros [H|H].
  - injection H as -> ->. rewrite String.eqb_refl. eauto.
  - destruct (String.eqb k' k); eauto.
Qed.

(** Deleting a key leaves the other entries where they are. *)
Lemma In_delete {V} (k k' : string) (v : V) (m : JsMap.t V) :
  In (k', v) (JsMap.delete k m) <-> In (k', v) m /\ k' <> k.
Proof.
  unfold JsMap.delete. rewrite filter_In. simpl.
  rewrite negb_true_iff, String.eqb_neq. tauto.
Qed.

Lemma keys_set {V} (k : string) (v : V) (m : JsMap.t V) :
  forall k', In k' (JsMap.keys (JsMap.set k v m)) <->
             k' = k \/ In k' (JsMap.keys m).
Proof.
  induction m as [|[k0 v0] r IH]; simpl; intros k'.
  - intuition congruence.
  - destruct (String.eqb k0 k) eqn:E; simpl.
    + apply String.eqb_eq in E. subst. intuition congruence.
    + rewrite IH. intuition congruence.
Qed.

Lemma wf_set {V} (k : string) (v : V) (m : JsMap.t V) :
  JsMap.wf m -> JsMap.wf (JsMap.set k v m).
Proof.
  unfold JsMap.wf. induction m as [|[k0 v0] r IH]; simpl; intros H.
  - constructor; [intros []|constructor].
  - inversion H as [|? ? Hnotin Hr]; subst.
    destruct (String.eqb k0 k) eqn:E; simpl.
    + apply String.eqb_eq in E. subst. now constructor.
    + constructor; [|now apply IH].
      rewrite keys_set. intros [->|Hin]; [|contradiction].
      now rewrite String.eqb_refl in E.
Qed.

Lemma wf_delete {V} (k : string) (m : JsMap.t V) :
  JsMap.wf m -> JsMap.wf (JsMap.delete k m).
Proof.
  unfold JsMap.wf, JsMap.delete, JsMap.keys.
  induction m as [|[k0 v0] r IH]; simpl; intros H; [constructor|].
  inversion H as [|? ? Hnotin Hr]; subst.
  destruct (String.eqb k0 k); simpl; [now apply IH|].
  constructor; [|now apply IH].
  intros Hin. apply Hnotin.
  apply in_map_iff in Hin as [[k1 v1] [Hk Hin]]. simpl in Hk. subst k1.
  apply filter_In in Hin as [Hin _].
  apply in_map_iff. now exists (k0, v1).
Qed.

End JsMapFacts.

(** ** Running the in-memory methods *)

Module InMemoryFacts.

Import InMemory.

Lemma toggleSubtaskInMemory_run (userId subtaskId : string) (now : Date)
      (svc : GoalService.t) :
  toggleSubtaskInMemory userId subtaskId now svc =
  match JsMap.get subtaskId (GoalService.inMemorySubtasks svc) with
  | None => (Throw (Error "Subtask not found"), svc)
  | Some subtask =>
      if notOwned (JsMap.get (Subtask.goalId subtask)
                             (GoalService.inMemoryGoals svc)) userId
      then (Throw (Error "Access denied"), svc)
      else (Return (toggled now subtask),
            GoalService.set_inMemorySubtasks
              (JsMap.set subtaskId (toggled now subtask)
                         (GoalService.inMemorySubtasks svc)) svc)
  end.
Proof.
  unfold toggleSubtaskInMemory, bind, this. simpl.
  destruct (JsMap.get subtaskId _); [|reflexivity].
  destruct (notOwned _ _); reflexivity.
Qed.

Lemma updateSubtaskInMemory_run (userId goalId subtaskId : string)
      (data : SubtaskUpdate.t) (now : Date) (svc : GoalService.t) :
  updateSubtaskInMemory userId goalId subtaskId data now svc =
  match JsMap.get subtaskId (GoalService.inMemorySubtasks svc) with
  | None => (Throw (Error "Subtask not found"), svc)
  | Some subtask =>
      if negb (String.eqb (Subtask.goalId subtask) goalId)
      then (Throw (Error "Subtask not found"), svc)
      else if notOwned (JsMap.get goalId (GoalService.inMemoryGoals svc))
                       userId
      then (Throw (Error "Access denied"), svc)
      else (Return (assignSubtask data now subtask),
            GoalService.set_inMemorySubtasks
              (JsMap.set subtaskId (assignSubtask data now subtask)
                         (GoalService.inMemorySubtasks svc)) svc)
  end.
Proof.
  unfold updateSubtaskInMemory, bind, this. simpl.
  destruct (JsMap.get subtaskId _); [|reflexivity].
  destruct (negb _); [reflexivity|].
  destruct (notOwned _ _); reflexivity.
Qed.

Lemma checkAndUpdateGoalCompletionInMemory_run (userId goalId : string)
      (now : Date) (svc : GoalService.t) :
  checkAndUpdateGoalCompletionInMemory userId goalId now svc =
  match JsMap.get goalId (GoalService.inMemoryGoals svc) with
  | None => (Throw (Error "Goal not found or access denied"), svc)
  | Some goal =>
      if negb (String.eqb (Goal.ownerId goal) userId)
      then (Throw (Error "Goal not found or access denied"), svc)
      else
        (Return tt,
         if (0 <? List.length (subtasksOf goalId svc))%nat then
           match recompute (allCompleted goalId svc) now goal with
           | Some goal' =>
               GoalService.set_inMemoryGoals
                 (JsMap.set goalId goal' (GoalService.inMemoryGoals svc)) svc
           | None => svc
           end
         else svc)
  end.
Proof.
  unfold checkAndUpdateGoalCompletionInMemory, bind, this, allCompleted.
  simpl.
  destruct (JsMap.get goalId _) as [goal|]; simpl; [|reflexivity].
  destruct (negb _); [reflexivity|].
  destruct (0 <? _)%nat; [|reflexivity].
  destruct (recompute _ _ _); reflexivity.
Qed.

Lemma recompute_status (allDone : bool) (now : Date) (goal : Goal.t) :
  Goal.status (match recompute allDone now goal with
               | Some goal' => goal'
               | None => goal
               end)
  = recomputedStatus allDone (Goal.status goal).
Proof.
  unfold recompute, recomputedStatus.
  destruct allDone, (Goal.status goal) eqn:E; simpl; congruence.
Qed.

Lemma recompute_None (allDone : bool) (now : Date) (goal : Goal.t) :
  recompute allDone now goal = None <->
  recomputedStatus allDone (Goal.status goal) = Goal.status goal.
Proof.
  unfold recompute, recomputedStatus.
  destruct allDone, (Goal.status goal) eqn:E; simpl;
    split; congruence.
Qed.

End InMemoryFacts.

(** ** The completion rule *)

Module CompletionRule.

Import InMemory InMemoryFacts.

Lemma nonempty_length {A} (l : list A) :
  l <> [] -> (0 <? List.length l)%nat = true.
Proof. destruct l; [congruence|reflexivity]. Qed.

(** What the completion check does to a goal of the caller that has
    subtasks. *)
Lemma recompute_result (userId goalId : string) (now : Date)
      (svc : GoalService.t) (goal : Goal.t) :
  JsMap.get goalId (GoalService.inMemoryGoals svc) = Some goal ->
  Goal.ownerId goal = userId ->
  subtasksOf goalId svc <> [] ->
  exists svc',
    checkAndUpdateGoalCompletionInMemory userId goalId now svc
      = (Return tt, svc')
    /\ GoalService.inMemorySubtasks svc' = GoalService.inMemorySubtasks svc
    /\ goalStatus goalId svc'
       = Some (recomputedStatus (allCompleted goalId svc) (Goal.status goal))
    /\ (recomputedStatus (allCompleted goalId svc) (Goal.status goal)
        = Goal.status goal -> svc' = svc).
Proof.
  intros Hget Hown Hne.
  rewrite checkAndUpdateGoalCompletionInMemory_run, Hget.
  rewrite <- Hown, String.eqb_refl. simpl.
  rewrite (nonempty_length _ Hne).
  pose proof (recompute_status (allCompleted goalId svc) now goal) as Hst.
  pose proof (recompute_None (allCompleted goalId svc) now goal) as Hnone.
  destruct (recompute (allCompleted goalId svc) now goal) as [goal'|].
  - eexists. split; [reflexivity|]. split; [reflexivity|]. split.
    + unfold goalStatus. simpl. rewrite JsMapFacts.get_set_same. simpl.
      now rewrite Hst.
    + intros Heq. apply Hnone in Heq. discriminate.
  - exists svc. split; [reflexivity|]. split; [reflexivity|]. split.
    + unfold goalStatus. rewrite Hget. simpl. now f_equal.
    + reflexivity.
Qed.

(** [every(subtask => subtask.completed)] holds when the value of every
    subtask is truthy; for booleans that is being [true]. *)
Lemma allCompleted_iff (goalId : string) (svc : GoalService.t) :
  allCompleted goalId svc = true
  <-> forall subtask, In subtask (subtasksOf goalId svc) ->
        truthy (Subtask.completed subtask) = true.
Proof. unfold allCompleted. apply forallb_forall. Qed.

Lemma truthy_boolean (value : JsValue) :
  (exists b, value = JsBool b) ->
  truthy value = true <-> value = JsBool true.
Proof.
  intros [b ->]. simpl. split; [now intros ->|now intros [= ->]].
Qed.

(** C1 (as amended).  For a goal of the caller that has at least one
    subtask, the completion check returns normally, leaves the subtasks as
    they are, and leaves the goal COMPLETED exactly when the [completed] of
    every one of its subtasks is truthy, whatever the status was before;
    when these values are booleans, that is exactly when every one of them
    is [true].  A goal that is not COMPLETED (ACTIVE, PAUSED or CANCELLED)
    is left untouched while some subtask is open, and any goal, PAUSED and
    CANCELLED included, is COMPLETED once all its subtasks are. *)
Theorem recompute_completed_iff_all_done (userId goalId : string) (now : Date)
        (svc : GoalService.t) (goal : Goal.t) :
  JsMap.get goalId (GoalService.inMemoryGoals svc) = Some goal ->
  Goal.ownerId goal = userId ->
  subtasksOf goalId svc <> [] ->
  let result := checkAndUpdateGoalCompletionInMemory userId goalId now svc in
  fst result = Return tt
  /\ subtasksOf goalId (snd result) = subtasksOf goalId svc
  /\ (goalStatus goalId (snd result) = Some COMPLETED
      <-> forall subtask, In subtask (subtasksOf goalId (snd result)) ->
            truthy (Subtask.completed subtask) = true)
  /\ ((forall subtask, In subtask (subtasksOf goalId svc) ->
         exists b, Subtask.completed subtask = JsBool b) ->
      (goalStatus goalId (snd result) = Some COMPLETED
       <-> forall subtask, In subtask (subtasksOf goalId (snd result)) ->
             Subtask.completed subtask = JsBool true))
  /\ (allCompleted goalId svc = false -> Goal.status goal <> COMPLETED ->
      snd result = svc)
  /\ (allCompleted goalId svc = true ->
      goalStatus goalId (snd result) = Some COMPLETED).
Proof.
  intros Hget Hown Hne result.
  destruct (recompute_result userId goalId now svc goal Hget Hown Hne)
    as (svc' & Hrun & Hsub & Hst & Hsame).
  subst result. rewrite Hrun. simpl.
  assert (Hof : subtasksOf goalId svc' = subtasksOf goalId svc).
  { unfold subtasksOf. now rewrite Hsub. }
  assert (Hiff : Some (recomputedStatus (allCompleted goalId svc)
                                        (Goal.status goal)) = Some COMPLETED
                 <-> allCompleted goalId svc = true).
  { unfold recomputedStatus. destruct (allCompleted goalId svc); [tauto|].
    split; [|discriminate].
    destruct (Goal.status goal); intros H; try discriminate H;
      injection H as H; discriminate H. }
  split; [reflexivity|]. split; [exact Hof|].
  rewrite Hst, Hof. split.
  { rewrite Hiff. apply allCompleted_iff. }
  split.
  { intros Hbool. rewrite Hiff, allCompleted_iff.
    split; intros H subtask Hin.
    - now apply truthy_boolean; [apply Hbool|apply H].
    - now apply truthy_boolean; [apply Hbool|apply H]. }
  unfold recomputedStatus in *.
  destruct (allCompleted goalId svc).
  - split; [discriminate|]. reflexivity.
  - split; [|discriminate].
    intros _ Hnc. apply Hsame.
    destruct (Goal.status goal); congruence.
Qed.

Lemma recompute_completed_iff_all_done_witness :
  let result :=
    checkAndUpdateGoalCompletionInMemory "user-1" "goal-1" 1 demoService in
  fst result = Return tt
  /\ subtasksOf "goal-1" (snd result) = subtasksOf "goal-1" demoService
  /\ (goalStatus "goal-1" (snd result) = Some COMPLETED
      <-> forall subtask, In subtask (subtasksOf "goal-1" (snd result)) ->
            truthy (Subtask.completed subtask) = true)
  /\ ((forall subtask, In subtask (subtasksOf "goal-1" demoService) ->
         exists b, Subtask.completed subtask = JsBool b) ->
      (goalStatus "goal-1" (snd result) = Some COMPLETED
       <-> forall subtask, In subtask (subtasksOf "goal-1" (snd result)) ->
             Subtask.completed subtask = JsBool true))
  /\ (allCompleted "goal-1" demoService = false -> ACTIVE <> COMPLETED ->
      snd result = demoService)
  /\ (allCompleted "goal-1" demoService = true ->
      goalStatus "goal-1" (snd result) = Some COMPLETED).
Proof.
  apply (recompute_completed_iff_all_done "user-1" "goal-1" 1 demoService
           (Goal.mk "goal-1" "Launch Product MVP"
              (Some "Complete and launch the minimum viable product")
              HIGH ACTIVE (Some "2025-10-30T00:00:00.000Z") None "user-1" 0 0
              None None None)).
  - reflexivity.
  - reflexivity.
  - vm_compute. discriminate.
Defined.

(** C1, counterexample.  In the demo store [user-1] creates a goal as PAUSED
    with one open subtask and toggles that subtask: the request succeeds and
    the completion check turns the PAUSED goal into a COMPLETED one. *)
Lemma paused_goal_completed_by_toggle :
  goalStatus "goal-3" pausedService = Some PAUSED
  /\ subtaskCompleted "subtask-6" pausedService = Some (JsBool false)
  /\ code (fst (GoalController.toggleSubtask "user-1" "subtask-6" 1
                  pausedService)) = 200%nat
  /\ goalStatus "goal-3"
       (snd (GoalController.toggleSubtask "user-1" "subtask-6" 1
               pausedService)) = Some COMPLETED.
Proof. vm_compute. repeat split. Qed.

End CompletionRule.

(** ** Toggling a subtask *)

Module Toggle.

Import InMemory InMemoryFacts.

Lemma set_set {V} (k : string) (v1 v2 : V) (m : JsMap.t V) :
  JsMap.set k v2 (JsMap.set k v1 m) = JsMap.set k v2 m.
Proof.
  induction m as [|[k' v'] r IH]; simpl.
  - now rewrite String.eqb_refl.
  - destruct (String.eqb k' k) eqn:E; simpl.
    + now rewrite String.eqb_refl.
    + now rewrite E, IH.
Qed.

(** Writing back an object with the same goal and an equally truthy
    [completed] leaves the completion check of every goal as it was. *)
Lemma every_set_same (goalId k : string) (v v' : Subtask.t)
      (m : JsMap.t Subtask.t) :
  JsMap.get k m = Some v ->
  Subtask.goalId v' = Subtask.goalId v ->
  truthy (Subtask.completed v') = truthy (Subtask.completed v) ->
  forallb (fun s => truthy (Subtask.completed s))
    (filter (fun s => String.eqb (Subtask.goalId s) goalId)
            (JsMap.values (JsMap.set k v' m)))
  = forallb (fun s => truthy (Subtask.completed s))
      (filter (fun s => String.eqb (Subtask.goalId s) goalId)
              (JsMap.values m)).
Proof.
  intros Hget Hg Hc.
  induction m as [|[k0 v0] r IH]; simpl in *; [discriminate|].
  destruct (String.eqb k0 k) eqn:E; simpl.
  - injection Hget as ->. rewrite Hg.
    destruct (String.eqb (Subtask.goalId v) goalId); simpl; [|reflexivity].
    now rewrite Hc.
  - destruct (String.eqb (Subtask.goalId v0) goalId); simpl;
      now rewrite (IH Hget).
Qed.

Lemma allCompleted_ext (goalId : string) (a b : GoalService.t) :
  GoalService.inMemorySubtasks a = GoalService.inMemorySubtasks b ->
  allCompleted goalId a = allCompleted goalId b.
Proof. unfold allCompleted, subtasksOf. now intros ->. Qed.

(** A stored subtask is among the subtasks of its goal. *)
Lemma In_subtasksOf (k : string) (v : Subtask.t) (svc : GoalService.t) :
  JsMap.get k (GoalService.inMemorySubtasks svc) = Some v ->
  In v (subtasksOf (Subtask.goalId v) svc).
Proof.
  intros Hget. unfold subtasksOf. apply filter_In. split.
  - eapply JsMapFacts.In_values, JsMapFacts.get_In, Hget.
  - apply String.eqb_refl.
Qed.

Lemma allCompleted_get (k : string) (v : Subtask.t) (svc : GoalService.t) :
  JsMap.get k (GoalService.inMemorySubtasks svc) = Some v ->
  allCompleted (Subtask.goalId v) svc = true ->
  truthy (Subtask.completed v) = true.
Proof.
  intros Hget Hall. unfold allCompleted in Hall.
  rewrite forallb_forall in Hall.
  apply (Hall v). eapply In_subtasksOf, Hget.
Qed.

(** Without a database the service methods are the in-memory ones. *)
Lemma toggleSubtask_inMemory (userId subtaskId : string) (now : Date)
      (svc : GoalService.t) :
  GoalService.isDatabaseAvailable svc = false ->
  Service.toggleSubtask userId subtaskId now svc
  = toggleSubtaskInMemory userId subtaskId now svc.
Proof.
  intros Hdb. unfold Service.toggleSubtask, bind, this. now rewrite Hdb.
Qed.

Lemma checkAndUpdateGoalCompletion_inMemory (userId goalId : string)
      (now : Date) (svc : GoalService.t) :
  GoalService.isDatabaseAvailable svc = false ->
  Service.checkAndUpdateGoalCompletion userId goalId now svc
  = checkAndUpdateGoalCompletionInMemory userId goalId now svc.
Proof.
  intros Hdb. unfold Service.checkAndUpdateGoalCompletion, bind, this.
  now rewrite Hdb.
Qed.

Lemma updateSubtask_inMemory (userId goalId subtaskId : string)
      (data : SubtaskUpdate.t) (now : Date) (svc : GoalService.t) :
  GoalService.isDatabaseAvailable svc = false ->
  Service.updateSubtask userId goalId subtaskId data now svc
  = updateSubtaskInMemory userId goalId subtaskId data now svc.
Proof.
  intros Hdb. unfold Service.updateSubtask, bind, this. now rewrite Hdb.
Qed.

Lemma toggleSubtaskInMemory_isDatabaseAvailable (userId subtaskId : string)
      (now : Date) (svc : GoalService.t) :
  GoalService.isDatabaseAvailable
    (snd (toggleSubtaskInMemory userId subtaskId now svc))
  = GoalService.isDatabaseAvailable svc.
Proof.
  rewrite toggleSubtaskInMemory_run.
  destruct (JsMap.get subtaskId _); [|reflexivity].
  destruct (notOwned _ _); reflexivity.
Qed.

(** The handler on the in-memory store, in terms of the two service
    methods. *)
Lemma toggleSubtask_handler_run (userId subtaskId : string) (now : Date)
      (svc : GoalService.t) :
  GoalService.isDatabaseAvailable svc = false ->
  GoalController.toggleSubtask userId subtaskId now svc =
  match toggleSubtaskInMemory userId subtaskId now svc with
  | (Return subtask, svc1) =>
      match checkAndUpdateGoalCompletionInMemory
              userId (Subtask.goalId subtask) now svc1 with
      | (Return _, svc2) =>
          (mkResponse 200 (Success (Some "Subtask updated successfully") subtask),
           svc2)
      | (Throw (Error m), svc2) => (mkResponse 400 (Failure m), svc2)
      end
  | (Throw (Error m), svc1) => (mkResponse 400 (Failure m), svc1)
  end.
Proof.
  intros Hdb.
  unfold GoalController.toggleSubtask, respond.
  unfold bind at 1 2. unfold ret.
  rewrite (toggleSubtask_inMemory _ _ _ _ Hdb).
  pose proof (toggleSubtaskInMemory_isDatabaseAvailable
                userId subtaskId now svc) as Hdb1.
  destruct (toggleSubtaskInMemory userId subtaskId now svc)
    as [[subtask|[m]] svc1]; [|reflexivity].
  simpl in Hdb1. rewrite Hdb in Hdb1.
  rewrite (checkAndUpdateGoalCompletion_inMemory _ _ _ _ Hdb1).
  destruct (checkAndUpdateGoalCompletionInMemory _ _ _ _) as [[u|[m]] svc2];
    reflexivity.
Qed.

(** A successful toggle request: the subtask object is flipped in place and
    the goal gets the status that the completion check computes from the
    flipped subtasks. *)
Lemma toggleSubtask_flow (userId subtaskId : string) (now : Date)
      (svc : GoalService.t) (subtask : Subtask.t) (goal : Goal.t) :
  GoalService.isDatabaseAvailable svc = false ->
  JsMap.get subtaskId (GoalService.inMemorySubtasks svc) = Some subtask ->
  JsMap.get (Subtask.goalId subtask) (GoalService.inMemoryGoals svc)
    = Some goal ->
  Goal.ownerId goal = userId ->
  exists svc' goal',
    GoalController.toggleSubtask userId subtaskId now svc
      = (mkResponse 200 (Success (Some "Subtask updated successfully")
                                 (toggled now subtask)), svc')
    /\ GoalService.isDatabaseAvailable svc' = false
    /\ GoalService.inMemorySubtasks svc'
       = JsMap.set subtaskId (toggled now subtask)
                   (GoalService.inMemorySubtasks svc)
    /\ JsMap.get (Subtask.goalId subtask) (GoalService.inMemoryGoals svc')
       = Some goal'
    /\ Goal.ownerId goal' = userId
    /\ Goal.status goal'
       = recomputedStatus (allCompleted (Subtask.goalId subtask) svc')
                          (Goal.status goal).
Proof.
  intros Hdb Hsub Hgoal Hown.
  rewrite (toggleSubtask_handler_run _ _ _ _ Hdb).
  rewrite toggleSubtaskInMemory_run, Hsub, Hgoal. simpl.
  rewrite <- Hown, String.eqb_refl. simpl.
  rewrite checkAndUpdateGoalCompletionInMemory_run. simpl.
  rewrite Hgoal, String.eqb_refl. simpl.
  set (svc1 := GoalService.set_inMemorySubtasks _ svc).
  assert (Hin : In (toggled now subtask)
                   (subtasksOf (Subtask.goalId subtask) svc1)).
  { apply (In_subtasksOf subtaskId (toggled now subtask) svc1).
    subst svc1. simpl. apply JsMapFacts.get_set_same. }
  assert (Hlen : (0 <? List.length
                         (subtasksOf (Subtask.goalId subtask) svc1))%nat
                 = true).
  { destruct (subtasksOf _ svc1); [contradiction|reflexivity]. }
  rewrite Hlen.
  pose proof (recompute_status (allCompleted (Subtask.goalId subtask) svc1)
                               now goal) as Hst.
  destruct (recompute _ now goal) as [goal'|] eqn:Hre.
  - exists (GoalService.set_inMemoryGoals
              (JsMap.set (Subtask.goalId subtask) goal'
                         (GoalService.inMemoryGoals svc1)) svc1), goal'.
    repeat split; try assumption.
    + simpl. apply JsMapFacts.get_set_same.
    + unfold recompute in Hre.
      destruct (_ && _) in Hre; [injection Hre as <-; reflexivity|].
      destruct (_ && _) in Hre; [injection Hre as <-; reflexivity|].
      discriminate.
  - exists svc1, goal. repeat split; assumption.
Qed.

(** After a successful toggle request the goal of the subtask is
    COMPLETED exactly when all its subtasks are completed. *)
Lemma toggleSubtask_request_completed_iff (userId subtaskId : string)
      (now : Date) (svc : GoalService.t) (subtask : Subtask.t)
      (goal : Goal.t) :
  GoalService.isDatabaseAvailable svc = false ->
  JsMap.get subtaskId (GoalService.inMemorySubtasks svc) = Some subtask ->
  JsMap.get (Subtask.goalId subtask) (GoalService.inMemoryGoals svc)
    = Some goal ->
  Goal.ownerId goal = userId ->
  let result := GoalController.toggleSubtask userId subtaskId now svc in
  code (fst result) = 200%nat
  /\ (goalStatus (Subtask.goalId subtask) (snd result) = Some COMPLETED
      <-> allCompleted (Subtask.goalId subtask) (snd result) = true).
Proof.
  intros Hdb Hsub Hgoal Hown result.
  destruct (toggleSubtask_flow userId subtaskId now svc subtask goal
              Hdb Hsub Hgoal Hown)
    as (svc' & goal' & Hrun & _ & _ & Hgoal' & _ & Hst).
  subst result. rewrite Hrun. simpl. split; [reflexivity|].
  unfold goalStatus. rewrite Hgoal'. simpl. rewrite Hst.
  unfold recomputedStatus.
  destruct (allCompleted _ svc'); [tauto|].
  destruct (Goal.status goal); split; intros H; try discriminate H;
    injection H as H; discriminate H.
Qed.

(** The same after an update request that sets [completed], to a boolean
    or to any other value. *)
Lemma updateSubtask_request_completed_iff (userId goalId subtaskId : string)
      (title description : option string) (completed : JsValue) (now : Date)
      (svc : GoalService.t) (subtask : Subtask.t) (goal : Goal.t) :
  GoalService.isDatabaseAvailable svc = false ->
  JsMap.get subtaskId (GoalService.inMemorySubtasks svc) = Some subtask ->
  Subtask.goalId subtask = goalId ->
  JsMap.get goalId (GoalService.inMemoryGoals svc) = Some goal ->
  Goal.ownerId goal = userId ->
  let result :=
    GoalController.updateSubtask userId goalId subtaskId
      (SubtaskUpdate.mk title description (Some completed)) now svc in
  code (fst result) = 200%nat
  /\ subtaskCompleted subtaskId (snd result) = Some completed
  /\ (goalStatus goalId (snd result) = Some COMPLETED
      <-> allCompleted goalId (snd result) = true).
Proof.
  intros Hdb Hsub Hg Hgoal Hown result. subst result.
  unfold GoalController.updateSubtask, respond. simpl SubtaskUpdate.completed.
  unfold bind, ret.
  rewrite (updateSubtask_inMemory _ _ _ _ _ _ Hdb).
  rewrite updateSubtaskInMemory_run, Hsub, Hg, String.eqb_refl, Hgoal.
  simpl. rewrite <- Hown, String.eqb_refl. simpl.
  set (subtask' := assignSubtask _ now subtask).
  set (svc1 := GoalService.set_inMemorySubtasks _ svc).
  assert (Hdb1 : GoalService.isDatabaseAvailable svc1 = false) by exact Hdb.
  rewrite (checkAndUpdateGoalCompletion_inMemory _ _ _ _ Hdb1).
  assert (Hsub1 : JsMap.get subtaskId (GoalService.inMemorySubtasks svc1)
                  = Some subtask')
    by apply JsMapFacts.get_set_same.
  assert (Hne : subtasksOf goalId svc1 <> []).
  { pose proof (In_subtasksOf subtaskId subtask' svc1 Hsub1) as Hin.
    change (Subtask.goalId subtask') with (Subtask.goalId subtask) in Hin.
    rewrite Hg in Hin. intros E. now rewrite E in Hin. }
  destruct (CompletionRule.recompute_result (Goal.ownerId goal) goalId now
              svc1 goal Hgoal eq_refl Hne)
    as (svc2 & Hrun & Hsubs & Hst & _).
  rewrite Hrun. simpl. split; [reflexivity|]. split.
  { unfold subtaskCompleted. now rewrite Hsubs, Hsub1. }
  rewrite Hst, (allCompleted_ext goalId svc2 svc1 Hsubs).
  unfold recomputedStatus.
  destruct (allCompleted goalId svc1); [tauto|].
  destruct (Goal.status goal); split; intros H; try discriminate H;
    injection H as H; discriminate H.
Qed.

Lemma restore_iff (a0 a1 : bool) (st : Status) :
  ~ (a0 = true /\ a1 = true) ->
  Some (recomputedStatus a0 (recomputedStatus a1 st)) = Some st
  <-> ((st = COMPLETED <-> a0 = true) /\ (a1 = true -> st = ACTIVE)).
Proof.
  intros Hexcl.
  destruct a0, a1, st; simpl;
    try (exfalso; apply Hexcl; split; reflexivity);
    intuition (try congruence; try discriminate).
Qed.

(** C3 (as amended).  Two successive toggle requests of the owner on the
    same subtask both succeed.  The first leaves the negation of the
    subtask's [completed] and the second the boolean that the original value
    counts as: [completed] is restored exactly when it was a boolean.  The
    requests restore the goal's status exactly when, before the first
    request, the goal was COMPLETED if and only if all its subtasks were
    completed and, in case the first request completes the last open
    subtask, the goal was ACTIVE. *)
Theorem toggle_twice (userId subtaskId : string) (t1 t2 : Date)
        (svc : GoalService.t) (subtask : Subtask.t) (goal : Goal.t) :
  GoalService.isDatabaseAvailable svc = false ->
  JsMap.get subtaskId (GoalService.inMemorySubtasks svc) = Some subtask ->
  JsMap.get (Subtask.goalId subtask) (GoalService.inMemoryGoals svc)
    = Some goal ->
  Goal.ownerId goal = userId ->
  let goalId := Subtask.goalId subtask in
  let first := GoalController.toggleSubtask userId subtaskId t1 svc in
  let second := GoalController.toggleSubtask userId subtaskId t2 (snd first) in
  code (fst first) = 200%nat
  /\ code (fst second) = 200%nat
  /\ subtaskCompleted subtaskId (snd first)
     = Some (JsBool (negb (truthy (Subtask.completed subtask))))
  /\ subtaskCompleted subtaskId (snd second)
     = Some (JsBool (truthy (Subtask.completed subtask)))
  /\ (subtaskCompleted subtaskId (snd second)
      = subtaskCompleted subtaskId svc
      <-> exists b, Subtask.completed subtask = JsBool b)
  /\ (goalStatus goalId (snd second) = goalStatus goalId svc
      <-> ((Goal.status goal = COMPLETED <-> allCompleted goalId svc = true)
           /\ (allCompleted goalId (snd first) = true ->
               Goal.status goal = ACTIVE))).
Proof.
  intros Hdb Hsub Hgoal Hown goalId first second.
  destruct (toggleSubtask_flow userId subtaskId t1 svc subtask goal
              Hdb Hsub Hgoal Hown)
    as (svc1 & goal1 & Hrun1 & Hdb1 & Hsubs1 & Hgoal1 & Hown1 & Hst1).
  assert (Hsub1 : JsMap.get subtaskId (GoalService.inMemorySubtasks svc1)
                  = Some (toggled t1 subtask)).
  { rewrite Hsubs1. apply JsMapFacts.get_set_same. }
  destruct (toggleSubtask_flow userId subtaskId t2 svc1 (toggled t1 subtask)
              goal1 Hdb1 Hsub1 Hgoal1 Hown1)
    as (svc2 & goal2 & Hrun2 & Hdb2 & Hsubs2 & Hgoal2 & Hown2 & Hst2).
  subst second first. rewrite Hrun1. simpl. rewrite Hrun2. simpl.
  change (Subtask.goalId (toggled t1 subtask)) with goalId in *.
  fold goalId in Hst1, Hgoal1, Hgoal.
  (* The subtasks after the second request look like the original ones. *)
  assert (Hall2 : allCompleted goalId svc2 = allCompleted goalId svc).
  { unfold allCompleted, subtasksOf.
    rewrite Hsubs2, Hsubs1, set_set.
    apply (every_set_same goalId subtaskId subtask _ _ Hsub);
      [reflexivity|].
    simpl. apply negb_involutive. }
  (* The subtask cannot be completed both before and after a toggle. *)
  assert (Hexcl : allCompleted goalId svc = true ->
                  allCompleted goalId svc1 = true -> False).
  { intros H0 H1.
    pose proof (allCompleted_get subtaskId subtask svc Hsub H0) as Hc0.
    pose proof (allCompleted_get subtaskId (toggled t1 subtask) svc1
                                 Hsub1 H1) as Hc1.
    simpl in Hc1. rewrite Hc0 in Hc1. discriminate. }
  assert (Hc2 : subtaskCompleted subtaskId svc2
                = Some (JsBool (truthy (Subtask.completed subtask)))).
  { unfold subtaskCompleted. rewrite Hsubs2, JsMapFacts.get_set_same.
    simpl. now rewrite negb_involutive. }
  split; [reflexivity|]. split; [reflexivity|]. split.
  { unfold subtaskCompleted. now rewrite Hsub1. }
  split; [exact Hc2|]. split.
  { rewrite Hc2. unfold subtaskCompleted. rewrite Hsub. simpl. split.
    - intros [= H]. now exists (truthy (Subtask.completed subtask)).
    - intros [b ->]. reflexivity. }
  unfold goalStatus. rewrite Hgoal2, Hgoal. simpl.
  rewrite Hst2, Hst1, Hall2.
  apply restore_iff. intros [H0 H1]. exact (Hexcl H0 H1).
Qed.

Lemma toggle_twice_witness :
  let first := GoalController.toggleSubtask "user-1" "subtask-1" 1
                                            demoService in
  let second := GoalController.toggleSubtask "user-1" "subtask-1" 2
                                             (snd first) in
  code (fst first) = 200%nat
  /\ code (fst second) = 200%nat
  /\ subtaskCompleted "subtask-1" (snd first) = Some (JsBool false)
  /\ subtaskCompleted "subtask-1" (snd second) = Some (JsBool true)
  /\ (subtaskCompleted "subtask-1" (snd second)
      = subtaskCompleted "subtask-1" demoService
      <-> exists b, JsBool true = JsBool b)
  /\ (goalStatus "goal-1" (snd second) = goalStatus "goal-1" demoService
      <-> ((ACTIVE = COMPLETED <-> allCompleted "goal-1" demoService = true)
           /\ (allCompleted "goal-1" (snd first) = true ->
               ACTIVE = ACTIVE))).
Proof.
  apply (toggle_twice "user-1" "subtask-1" 1 2 demoService
           (Subtask.mk "subtask-1" "Finalize landing page" None
                       (JsBool true) None None None None "goal-1" 0 0)
           (Goal.mk "goal-1" "Launch Product MVP"
              (Some "Complete and launch the minimum viable product")
              HIGH ACTIVE (Some "2025-10-30T00:00:00.000Z") None "user-1" 0 0
              None None None));
    reflexivity.
Defined.

(** A value that is not a boolean counts as completed when it is truthy:
    once the two subtasks of [goal-2] have been updated with the string
    "false" for [completed], the goal is COMPLETED although no subtask has
    [completed] equal to [true]. *)
Lemma truthy_string_completes_goal :
  let body := SubtaskUpdate.mk None None (Some (JsString "false")) in
  let first :=
    GoalController.updateSubtask "user-1" "goal-2" "subtask-4" body 1
                                 demoService in
  let second :=
    GoalController.updateSubtask "user-1" "goal-2" "subtask-5" body 2
                                 (snd first) in
  code (fst first) = 200%nat
  /\ code (fst second) = 200%nat
  /\ subtaskCompleted "subtask-4" (snd second) = Some (JsString "false")
  /\ subtaskCompleted "subtask-5" (snd second) = Some (JsString "false")
  /\ goalStatus "goal-2" (snd second) = Some COMPLETED.
Proof. vm_compute. repeat split. Qed.

(** A value that is not a boolean is not restored by two toggles: a [null]
    that an update has stored is [true] after the first toggle and [false]
    after the second. *)
Lemma toggle_twice_replaces_null :
  let stored :=
    snd (GoalController.updateSubtask "user-1" "goal-1" "subtask-2"
           (SubtaskUpdate.mk None None (Some JsNull)) 1 demoService) in
  let first := GoalController.toggleSubtask "user-1" "subtask-2" 2 stored in
  let second :=
    GoalController.toggleSubtask "user-1" "subtask-2" 3 (snd first) in
  subtaskCompleted "subtask-2" stored = Some JsNull
  /\ subtaskCompleted "subtask-2" (snd first) = Some (JsBool true)
  /\ subtaskCompleted "subtask-2" (snd second) = Some (JsBool false).
Proof. vm_compute. repeat split. Qed.

(** C3, counterexample.  On the goal that [user-1] created as PAUSED with
    one open subtask, two successive toggles of that subtask both succeed
    and restore the subtask, but leave the goal ACTIVE, not PAUSED. *)
Lemma toggle_twice_loses_paused :
  let first := GoalController.toggleSubtask "user-1" "subtask-6" 1
                                            pausedService in
  let second := GoalController.toggleSubtask "user-1" "subtask-6" 2
                                             (snd first) in
  goalStatus "goal-3" pausedService = Some PAUSED
  /\ code (fst first) = 200%nat
  /\ code (fst second) = 200%nat
  /\ subtaskCompleted "subtask-6" (snd second)
     = subtaskCompleted "subtask-6" pausedService
  /\ goalStatus "goal-3" (snd second) = Some ACTIVE.
Proof. vm_compute. repeat split. Qed.

End Toggle.

(** ** Ownership checks *)

Module Ownership.

Import InMemory InMemoryFacts.

(** The goal operations of the in-memory store answer a goal that does not
    exist and a goal of another user alike, and leave the store as it is. *)
Lemma updateGoalInMemory_notOwned (userId goalId : string)
      (data : GoalUpdate.t) (now : Date) (svc : GoalService.t) :
  notOwned (JsMap.get goalId (GoalService.inMemoryGoals svc)) userId = true ->
  updateGoalInMemory userId goalId data now svc
  = (Throw (Error "Goal not found or access denied"), svc).
Proof.
  intros H. unfold updateGoalInMemory, bind, this. now rewrite H.
Qed.

Lemma deleteGoalInMemory_notOwned (userId goalId : string)
      (svc : GoalService.t) :
  notOwned (JsMap.get goalId (GoalService.inMemoryGoals svc)) userId = true ->
  deleteGoalInMemory userId goalId svc
  = (Throw (Error "Goal not found or access denied"), svc).
Proof.
  intros H. unfold deleteGoalInMemory, bind, this. now rewrite H.
Qed.

Lemma addSubtaskInMemory_notOwned (userId goalId : string)
      (data : NewSubtask.t) (now : Date) (svc : GoalService.t) :
  notOwned (JsMap.get goalId (GoalService.inMemoryGoals svc)) userId = true ->
  addSubtaskInMemory userId goalId data now svc
  = (Throw (Error "Goal not found or access denied"), svc).
Proof.
  intros H. unfold addSubtaskInMemory, bind, this. now rewrite H.
Qed.

Lemma getUserGoalsInMemory_owned (userId : string) (filters : Filters.t)
      (svc : GoalService.t) :
  exists goals,
    getUserGoalsInMemory userId filters svc = (Return goals, svc)
    /\ forall g, In g goals ->
                 In (GoalResponse.goal g)
                    (JsMap.values (GoalService.inMemoryGoals svc))
                 /\ Goal.ownerId (GoalResponse.goal g) = userId.
Proof.
  unfold getUserGoalsInMemory, bind, this, ret. simpl.
  eexists. split; [reflexivity|].
  intros g Hin. apply in_map_iff in Hin as (goal & <- & Hin). simpl.
  assert (Howned : In goal
            (filter (fun goal => String.eqb (Goal.ownerId goal) userId)
                    (JsMap.values (GoalService.inMemoryGoals svc)))).
  { destruct (Filters.priority filters), (Filters.status filters);
      [ apply filter_In in Hin as [Hin _]; apply filter_In in Hin as [Hin _]
      | apply filter_In in Hin as [Hin _]
      | apply filter_In in Hin as [Hin _]
      | ]; exact Hin. }
  apply filter_In in Howned as [Hin' Ho].
  split; [assumption|]. now apply String.eqb_eq.
Qed.

(** Fetching a goal answers 404 "Goal not found" whenever the caller owns no
    goal with that identifier, be it that no such goal exists or that it
    belongs to somebody else. *)
Lemma getGoalHandler_notOwned
      (getUserGoalsInDatabase : string -> Filters.t -> M (list GoalResponse.t))
      (userId id : string) (svc : GoalService.t) :
  GoalService.isDatabaseAvailable svc = false ->
  (forall goal, In goal (JsMap.values (GoalService.inMemoryGoals svc)) ->
                Goal.id goal = id -> Goal.ownerId goal <> userId) ->
  getGoalHandler getUserGoalsInDatabase userId id svc
  = (mkResponse 404 (Failure "Goal not found"), svc).
Proof.
  intros Hdb Hnone. unfold getGoalHandler, getUserGoals, bind, this.
  cbv beta iota. rewrite Hdb. change (negb false) with true. cbv beta iota.
  destruct (getUserGoalsInMemory_owned userId Filters.none svc)
    as (goals & Hrun & Howned).
  rewrite Hrun.
  destruct (find _ goals) as [g|] eqn:Hfind; [|reflexivity].
  exfalso. apply find_some in Hfind as [Hin Hid].
  apply String.eqb_eq in Hid.
  destruct (Howned g Hin) as [Hstored Howner].
  exact (Hnone _ Hstored Hid Howner).
Qed.

(** Updating and deleting a goal answer 400 with one message in both
    cases. *)
Lemma goal_requests_notOwned
      (zodRequired : string) (zodInvalidEnum : string -> string)
      (toISOString : string -> option string)
      (updateGoalInDatabase :
         string -> string -> GoalUpdate.t -> Date -> M GoalResponse.t)
      (deleteGoalInDatabase : string -> string -> M string)
      (userId id : string) (body : GoalBody.t) (data : GoalUpdate.t)
      (now : Date) (svc : GoalService.t) :
  GoalService.isDatabaseAvailable svc = false ->
  notOwned (JsMap.get id (GoalService.inMemoryGoals svc)) userId = true ->
  updateGoalSchema zodRequired zodInvalidEnum toISOString body = Parsed data ->
  updateGoalHandler zodRequired zodInvalidEnum toISOString
                    updateGoalInDatabase userId id body now svc
  = (mkResponse 400 (Failure "Goal not found or access denied"), svc)
  /\ deleteGoalHandler deleteGoalInDatabase userId id svc
     = (mkResponse 400 (Failure "Goal not found or access denied"), svc).
Proof.
  intros Hdb Hnot Hparse. split.
  - unfold updateGoalHandler, updateGoal, respond, bind, validated, this.
    rewrite Hparse. unfold ret. cbv beta iota. rewrite Hdb. change (negb false) with true.
    cbv beta iota.
    now rewrite (updateGoalInMemory_notOwned _ _ _ _ _ Hnot).
  - unfold deleteGoalHandler, deleteGoal, bind, this.
    cbv beta iota. rewrite Hdb. change (negb false) with true. cbv beta iota.
    now rewrite (deleteGoalInMemory_notOwned _ _ _ Hnot).
Qed.

(** On the Prisma-backed store a failed toggle says the same thing whether
    the subtask is missing or belongs to a goal of another user. *)
Lemma toggleSubtask_database_failure (userId subtaskId : string) (now : Date)
      (svc svc' : GoalService.t) (m : string) :
  GoalService.isDatabaseAvailable svc = true ->
  Service.toggleSubtask userId subtaskId now svc = (Throw (Error m), svc') ->
  m = "Subtask not found or access denied" /\ svc' = svc.
Proof.
  intros Hdb. unfold Service.toggleSubtask, bind, this. rewrite Hdb. simpl.
  destruct (Prisma.subtask_findFirst _ _) as [row|] eqn:Hfind.
  - unfold Prisma.subtask_findFirst in Hfind.
    apply find_some in Hfind as [Hin Hrow].
    apply andb_true_iff in Hrow as [Hid _].
    unfold Service.withDatabase, bind, this, Prisma.subtask_update.
    destruct (find (fun row0 => String.eqb (Subtask.id row0) subtaskId)
                   (Database.subtask (GoalService.prisma svc))) eqn:Hfind'.
    + simpl. discriminate.
    + exfalso. apply (find_none _ _ Hfind') in Hin. congruence.
  - simpl. intros [= <- <-]. split; reflexivity.
Qed.

(** C4, at the failing input.  In the demo store [subtask-1] belongs to
    [goal-1] of [user-1] and no subtask is called [subtask-404].  To the
    requests of [user-2] the in-memory store answers "Access denied" for the
    first and "Subtask not found" for the second, for a toggle and for an
    update alike; the Prisma-backed store answers both with one message. *)
Theorem toggle_tells_foreign_from_absent :
  option_map Subtask.goalId
    (JsMap.get "subtask-1" (GoalService.inMemorySubtasks demoService))
  = Some "goal-1"
  /\ option_map Goal.ownerId
       (JsMap.get "goal-1" (GoalService.inMemoryGoals demoService))
     = Some "user-1"
  /\ JsMap.get "subtask-404" (GoalService.inMemorySubtasks demoService) = None
  /\ GoalController.toggleSubtask "user-2" "subtask-1" 1 demoService
     = (mkResponse 400 (Failure "Access denied"), demoService)
  /\ GoalController.toggleSubtask "user-2" "subtask-404" 1 demoService
     = (mkResponse 400 (Failure "Subtask not found"), demoService)
  /\ GoalController.updateSubtask "user-2" "goal-1" "subtask-1"
       (SubtaskUpdate.mk None None (Some (JsBool true))) 1 demoService
     = (mkResponse 400 (Failure "Access denied"), demoService)
  /\ GoalController.updateSubtask "user-2" "goal-1" "subtask-404"
       (SubtaskUpdate.mk None None (Some (JsBool true))) 1 demoService
     = (mkResponse 400 (Failure "Subtask not found"), demoService)
  /\ fst (GoalController.toggleSubtask "user-2" "subtask-1" 1
                                       demoDatabaseService)
     = fst (GoalController.toggleSubtask "user-2" "subtask-404" 1
                                         demoDatabaseService).
Proof. vm_compute. repeat split. Qed.

(** C2, at the failing input.  The two stores hold the same demo rows.  A
    toggle of [subtask-1] by its owner gets the same answer from both; a
    toggle by [user-2] gets "Access denied" from the in-memory store and
    "Subtask not found or access denied" from the Prisma-backed one, and a
    toggle of the missing [subtask-404] gets "Subtask not found" from the
    in-memory store and again "Subtask not found or access denied" from the
    Prisma-backed one. *)
Theorem stores_answer_toggle_differently :
  fst (GoalController.toggleSubtask "user-1" "subtask-1" 1 demoService)
  = fst (GoalController.toggleSubtask "user-1" "subtask-1" 1
                                      demoDatabaseService)
  /\ fst (GoalController.toggleSubtask "user-2" "subtask-1" 1 demoService)
     = mkResponse 400 (Failure "Access denied")
  /\ fst (GoalController.toggleSubtask "user-2" "subtask-1" 1
                                       demoDatabaseService)
     = mkResponse 400 (Failure "Subtask not found or access denied")
  /\ fst (GoalController.toggleSubtask "user-1" "subtask-404" 1 demoService)
     = mkResponse 400 (Failure "Subtask not found")
  /\ fst (GoalController.toggleSubtask "user-1" "subtask-404" 1
                                       demoDatabaseService)
     = mkResponse 400 (Failure "Subtask not found or access denied").
Proof. vm_compute. repeat split. Qed.

End Ownership.

(** ** The two stores side by side *)

Module Stores.

Import InMemory InMemoryFacts.

Lemma get_find {V} (rowId : V -> string) (k : string) (m : JsMap.t V) :
  keyed rowId m ->
  JsMap.get k m = find (fun row => String.eqb (rowId row) k) (JsMap.values m).
Proof.
  induction m as [|[k0 v0] r IH]; simpl; intros Hkeyed; [reflexivity|].
  pose proof (Forall_inv Hkeyed) as Hk.
  pose proof (Forall_inv_tail Hkeyed) as Hr. simpl in Hk.
  rewrite Hk. destruct (String.eqb k0 k); [reflexivity|now apply IH].
Qed.

(** With distinct identifiers, writing one row through the map and
    rewriting the rows of that identifier in the table give the same rows. *)
Lemma values_set_updateRows {V} (rowId : V -> string) (k : string)
      (f : V -> V) (m : JsMap.t V) (v : V) :
  keyed rowId m -> JsMap.wf m ->
  JsMap.get k m = Some v ->
  JsMap.values (JsMap.set k (f v) m)
  = Prisma.updateRows rowId k f (JsMap.values m).
Proof.
  unfold JsMap.wf.
  induction m as [|[k0 v0] r IH]; simpl; intros Hkeyed Hwf Hget;
    [discriminate|].
  pose proof (Forall_inv Hkeyed) as Hk.
  pose proof (Forall_inv_tail Hkeyed) as Hr. simpl in Hk.
  apply NoDup_cons_iff in Hwf as [Hnotin Hnodup].
  rewrite Hk. destruct (String.eqb k0 k) eqn:E; simpl.
  - injection Hget as ->. apply String.eqb_eq in E. subst k0.
    f_equal. unfold Prisma.updateRows, JsMap.values.
    rewrite map_map. apply map_ext_in. intros [k1 v1] Hin. simpl.
    destruct (String.eqb (rowId v1) k) eqn:E1; [|reflexivity].
    exfalso. apply Hnotin. apply String.eqb_eq in E1.
    rewrite Forall_forall in Hr. specialize (Hr _ Hin). simpl in Hr.
    apply in_map_iff. exists (k1, v1). split; [simpl; congruence|assumption].
  - f_equal. now apply IH.
Qed.

Lemma find_and {V} (p q : V -> bool) (l : list V) (v : V) :
  find p l = Some v ->
  (forall w, In w l -> p w = true -> w = v) ->
  find (fun w => p w && q w) l = if q v then Some v else None.
Proof.
  induction l as [|w r IH]; simpl; [discriminate|].
  intros Hfind Huniq. destruct (p w) eqn:Ep; simpl.
  - injection Hfind as ->. destruct (q v) eqn:Eq; [reflexivity|].
    assert (Hnone : forall x, In x r -> (p x && q x) = false).
    { intros x Hin. destruct (p x) eqn:Epx; [|reflexivity].
      rewrite (Huniq x (or_intror Hin) Epx). simpl. exact Eq. }
    clear -Hnone. induction r as [|x r IH]; simpl; [reflexivity|].
    rewrite (Hnone x (or_introl eq_refl)). apply IH.
    intros y Hy. apply Hnone. now right.
  - apply IH; [assumption|]. intros x Hin. apply Huniq. now right.
Qed.

Lemma find_and_none {V} (p q : V -> bool) (l : list V) :
  find p l = None -> find (fun w => p w && q w) l = None.
Proof.
  induction l as [|w r IH]; simpl; [reflexivity|].
  destruct (p w); simpl; [discriminate|exact IH].
Qed.

(** In a map with distinct keys that holds every row under its identifier,
    a row is determined by its identifier. *)
Lemma keyed_unique {V} (rowId : V -> string) (k : string) (m : JsMap.t V)
      (v : V) :
  keyed rowId m -> JsMap.wf m ->
  JsMap.get k m = Some v ->
  forall w, In w (JsMap.values m) -> String.eqb (rowId w) k = true -> w = v.
Proof.
  unfold JsMap.wf.
  induction m as [|[k0 v0] r IH]; simpl; intros Hkeyed Hwf Hget w Hin Hw;
    [contradiction|].
  pose proof (Forall_inv Hkeyed) as Hk.
  pose proof (Forall_inv_tail Hkeyed) as Hr. simpl in Hk.
  apply NoDup_cons_iff in Hwf as [Hnotin Hnodup].
  apply String.eqb_eq in Hw.
  destruct (String.eqb k0 k) eqn:E.
  - injection Hget as ->. apply String.eqb_eq in E. subst k0.
    destruct Hin as [<-|Hin]; [reflexivity|].
    exfalso. apply Hnotin.
    apply in_map_iff in Hin as ([k1 v1] & Hv & Hin). simpl in Hv. subst v1.
    rewrite Forall_forall in Hr. specialize (Hr _ Hin). simpl in Hr.
    apply in_map_iff. exists (k1, w). split; [simpl; congruence|assumption].
  - destruct Hin as [<-|Hin].
    + apply String.eqb_neq in E. congruence.
    + apply (IH Hr Hnodup Hget w Hin). now apply String.eqb_eq.
Qed.

(** On stores that hold the same rows, a toggle succeeds in the in-memory
    store exactly when it succeeds in the Prisma-backed one; it then returns
    the same subtask and leaves the same rows.  When it fails, both stores
    are unchanged, and only the message differs. *)
Lemma toggleSubtask_same_rows (userId subtaskId : string) (now : Date)
      (memory database : GoalService.t) :
  GoalService.isDatabaseAvailable memory = false ->
  GoalService.isDatabaseAvailable database = true ->
  wellKeyed memory ->
  sameRows memory database ->
  match Service.toggleSubtask userId subtaskId now memory,
        Service.toggleSubtask userId subtaskId now database with
  | (Return a, memory'), (Return b, database') =>
      a = b /\ sameRows memory' database'
  | (Throw _, memory'), (Throw _, database') =>
      memory' = memory /\ database' = database
  | _, _ => False
  end.
Proof.
  intros Hmem Hdb (Hkg & Hks & Hwf) (Hgoals & Hsubs).
  rewrite (Toggle.toggleSubtask_inMemory _ _ _ _ Hmem).
  rewrite toggleSubtaskInMemory_run.
  unfold Service.toggleSubtask, bind, this. rewrite Hdb. simpl.
  unfold Prisma.subtask_findFirst. rewrite Hsubs.
  rewrite (get_find Subtask.id subtaskId _ Hks).
  destruct (find (fun row => String.eqb (Subtask.id row) subtaskId)
                 (JsMap.values (GoalService.inMemorySubtasks memory)))
    as [subtask|] eqn:Hfind.
  - assert (Hget : JsMap.get subtaskId (GoalService.inMemorySubtasks memory)
                   = Some subtask)
      by now rewrite (get_find Subtask.id subtaskId _ Hks).
    rewrite (find_and _ _ _ subtask Hfind
               (keyed_unique Subtask.id subtaskId _ subtask Hks Hwf Hget)).
    assert (Howner : Prisma.goalOwnedBy (GoalService.prisma database) userId
                                        subtask
                     = negb (notOwned
                               (JsMap.get (Subtask.goalId subtask)
                                  (GoalService.inMemoryGoals memory))
                               userId)).
    { unfold Prisma.goalOwnedBy, Prisma.goalOf, notOwned.
      rewrite Hgoals, <- (get_find Goal.id _ _ Hkg).
      destruct (JsMap.get (Subtask.goalId subtask)
                          (GoalService.inMemoryGoals memory));
        [|reflexivity].
      now rewrite negb_involutive. }
    rewrite Howner.
    destruct (notOwned _ _); simpl; [split; reflexivity|].
    unfold Service.withDatabase, bind, this, Prisma.subtask_update.
    rewrite Hsubs, Hfind. simpl. split; [reflexivity|].
    split; simpl; [exact Hgoals|].
    symmetry.
    apply (values_set_updateRows Subtask.id subtaskId
             (fun row => Subtask.set_updatedAt now
                (Subtask.set_completed
                   (JsBool (negb (truthy (Subtask.completed subtask))))
                   row))
             _ subtask Hks Hwf Hget).
  - rewrite (find_and_none _ _ _ Hfind). simpl. split; reflexivity.
Qed.

(** The demo store and the demo tables are such stores. *)
Lemma demo_same_rows :
  wellKeyed demoService /\ sameRows demoService demoDatabaseService.
Proof.
  split; [|split; reflexivity].
  split; [|split].
  - repeat constructor.
  - repeat constructor.
  - unfold JsMap.wf. vm_compute.
    repeat (constructor; [simpl; intuition discriminate|]). constructor.
Qed.

End Stores.

(** ** Deleting a goal *)

Module Delete.

Import InMemory InMemoryFacts.

Lemma In_deleteSubtasksOf (goalId : string)
      (snapshot : list (string * Subtask.t)) :
  forall (m : JsMap.t Subtask.t) (k : string) (v : Subtask.t),
    In (k, v) (deleteSubtasksOf goalId snapshot m) <->
    In (k, v) m
    /\ forall entry, In entry snapshot ->
                     Subtask.goalId (snd entry) = goalId -> fst entry <> k.
Proof.
  unfold deleteSubtasksOf.
  induction snapshot as [|[k0 v0] r IH]; intros m k v; simpl.
  - split; [intros H; split; [assumption|intros ? []]|tauto].
  - rewrite IH. destruct (String.eqb (Subtask.goalId v0) goalId) eqn:E.
    + apply String.eqb_eq in E. rewrite JsMapFacts.In_delete. split.
      * intros [[Hin Hne] Hr]. split; [assumption|].
        intros entry [<-|Hentry] Hg; simpl; [congruence|now apply Hr].
      * intros [Hin Hall]. split; [split; [assumption|]|].
        -- intros ->. apply (Hall (k0, v0)); [now left|assumption|reflexivity].
        -- intros entry Hentry. apply Hall. now right.
    + apply String.eqb_neq in E. split.
      * intros [Hin Hr]. split; [assumption|].
        intros entry [<-|Hentry] Hg; simpl in *; [congruence|now apply Hr].
      * intros [Hin Hall]. split; [assumption|].
        intros entry Hentry. apply Hall. now right.
Qed.

Lemma get_not_In {V} (k : string) (m : JsMap.t V) :
  (forall v, ~ In (k, v) m) -> JsMap.get k m = None.
Proof.
  intros H. destruct (JsMap.get k m) as [v|] eqn:E; [|reflexivity].
  exfalso. eapply H, JsMapFacts.get_In, E.
Qed.

Lemma deleteGoalInMemory_run (userId goalId : string) (svc : GoalService.t) :
  deleteGoalInMemory userId goalId svc =
  if notOwned (JsMap.get goalId (GoalService.inMemoryGoals svc)) userId
  then (Throw (Error "Goal not found or access denied"), svc)
  else (Return "Goal deleted successfully",
        GoalService.mk
          (GoalService.prisma svc) (GoalService.isDatabaseAvailable svc)
          (JsMap.delete goalId (GoalService.inMemoryGoals svc))
          (deleteSubtasksOf goalId (GoalService.inMemorySubtasks svc)
                            (GoalService.inMemorySubtasks svc))
          (GoalService.goalIdCounter svc)
          (GoalService.subtaskIdCounter svc)).
Proof.
  unfold deleteGoalInMemory, bind, this.
  destruct (notOwned _ _); reflexivity.
Qed.

(** C9.  When the owner deletes a goal, the call returns its
    acknowledgement, the goal is no longer in the store, no stored subtask
    has the goal as its parent, the identifier of every subtask that had it
    as its parent is no longer in the store, a later toggle of such a
    subtask by anyone is answered "Subtask not found", and the subtasks of
    the goal read as the empty list. *)
Theorem deleteGoal_removes_subtasks (userId goalId : string)
        (svc : GoalService.t) (goal : Goal.t) :
  JsMap.get goalId (GoalService.inMemoryGoals svc) = Some goal ->
  Goal.ownerId goal = userId ->
  let result := InMemory.deleteGoalInMemory userId goalId svc in
  fst result = Return "Goal deleted successfully"
  /\ JsMap.get goalId (GoalService.inMemoryGoals (snd result)) = None
  /\ (forall subtask,
        In subtask (JsMap.values (GoalService.inMemorySubtasks (snd result)))
        -> Subtask.goalId subtask <> goalId)
  /\ (forall subtaskId subtask,
        JsMap.get subtaskId (GoalService.inMemorySubtasks svc) = Some subtask
        -> Subtask.goalId subtask = goalId
        -> JsMap.get subtaskId (GoalService.inMemorySubtasks (snd result))
           = None
           /\ forall anyone now,
                fst (InMemory.toggleSubtaskInMemory anyone subtaskId now
                                                    (snd result))
                = Throw (Error "Subtask not found"))
  /\ InMemory.subtasksOf goalId (snd result) = [].
Proof.
  intros Hget Hown result. subst result.
  rewrite deleteGoalInMemory_run, Hget. simpl.
  rewrite <- Hown, String.eqb_refl. simpl.
  assert (Hnone : forall subtask,
            In subtask
               (JsMap.values
                  (deleteSubtasksOf goalId (GoalService.inMemorySubtasks svc)
                                    (GoalService.inMemorySubtasks svc)))
            -> Subtask.goalId subtask <> goalId).
  { intros subtask Hin Hg.
    apply in_map_iff in Hin as ([k v] & Hv & Hin). simpl in Hv. subst v.
    apply In_deleteSubtasksOf in Hin as [Hin Hall].
    now apply (Hall (k, subtask) Hin Hg). }
  split; [reflexivity|]. split; [apply JsMapFacts.get_delete_same|].
  split; [exact Hnone|]. split.
  - intros subtaskId subtask Hsub Hg.
    assert (Hgone : JsMap.get subtaskId
                      (deleteSubtasksOf goalId
                         (GoalService.inMemorySubtasks svc)
                         (GoalService.inMemorySubtasks svc)) = None).
    { apply get_not_In. intros v Hin.
      apply In_deleteSubtasksOf in Hin as [_ Hall].
      apply (Hall (subtaskId, subtask)); [|assumption|reflexivity].
      now apply JsMapFacts.get_In. }
    split; [exact Hgone|].
    intros anyone now. rewrite toggleSubtaskInMemory_run. simpl.
    now rewrite Hgone.
  - unfold subtasksOf. simpl.
    destruct (filter _ _) as [|subtask r] eqn:E; [reflexivity|].
    assert (Hin : In subtask (subtask :: r)) by now left.
    rewrite <- E in Hin. apply filter_In in Hin as [Hin Hg].
    apply String.eqb_eq in Hg. now apply Hnone in Hin.
Qed.

Lemma deleteGoal_removes_subtasks_witness :
  let result := InMemory.deleteGoalInMemory "user-1" "goal-1" demoService in
  fst result = Return "Goal deleted successfully"
  /\ JsMap.get "goal-1" (GoalService.inMemoryGoals (snd result)) = None
  /\ JsMap.keys (GoalService.inMemorySubtasks (snd result))
     = ["subtask-4"; "subtask-5"]
  /\ InMemory.subtasksOf "goal-1" (snd result) = [].
Proof.
  pose proof (deleteGoal_removes_subtasks "user-1" "goal-1" demoService
                (Goal.mk "goal-1" "Launch Product MVP"
                   (Some "Complete and launch the minimum viable product")
                   HIGH ACTIVE (Some "2025-10-30T00:00:00.000Z") None
                   "user-1" 0 0 None None None) eq_refl eq_refl)
    as (Hret & Hgoal & _ & _ & Hsubs).
  split; [exact Hret|]. split; [exact Hgoal|].
  split; [reflexivity|exact Hsubs].
Defined.

End Delete.

(** ** Adding a subtask *)

Module AddSubtask.

(** C10.  Whatever the body of an Add Subtask request holds, a subtask that
    the request creates is incomplete, in the response and in the store, on
    the in-memory store and on the Prisma-backed one; the response and the
    store depend on the [title] and the [description] of the body only, so
    that a [completed] that the caller supplies never reaches the store. *)
Theorem addSubtask_created_incomplete (userId goalId : string)
        (body : AddSubtaskBody.t) (newId : string) (now : Date)
        (svc : GoalService.t) :
  let result := GoalController.addSubtask userId goalId body newId now svc in
  match json (fst result) with
  | Success _ subtask =>
      code (fst result) = 201%nat
      /\ Subtask.completed subtask = JsBool false
      /\ storedIn svc (snd result) subtask
  | Failure _ => code (fst result) = 400%nat
  end
  /\ forall body' : AddSubtaskBody.t,
       AddSubtaskBody.title body' = AddSubtaskBody.title body ->
       AddSubtaskBody.description body' = AddSubtaskBody.description body ->
       GoalController.addSubtask userId goalId body' newId now svc = result.
Proof.
  intros result. subst result. split.
  - unfold GoalController.addSubtask, storedIn.
    destruct (GoalController.falsy _); [reflexivity|].
    unfold respond, Service.addSubtask, bind, this. simpl.
    destruct (GoalService.isDatabaseAvailable svc) eqn:Hdb; simpl.
    + destruct (Prisma.goal_findFirst _ _); simpl; [|reflexivity].
      repeat split.
    + unfold InMemory.addSubtaskInMemory, bind, this. simpl.
      destruct (InMemory.notOwned _ _); simpl; [reflexivity|].
      repeat split. apply JsMapFacts.get_set_same.
  - intros body' Ht Hd. unfold GoalController.addSubtask.
    now rewrite Ht, Hd.
Qed.

End AddSubtask.

(** ** Validation of goal input *)

Section Validation.

Variable zodRequired : string.
Variable zodInvalidEnum : string -> string.
Variable toISOString : string -> option string.
Variable createGoalInDatabase : string -> GoalData.t -> Date -> M GoalResponse.t.
Variable updateGoalInDatabase :
  string -> string -> GoalUpdate.t -> Date -> M GoalResponse.t.

Local Abbreviation parseGoal :=
  (goalSchema zodRequired zodInvalidEnum toISOString).
Local Abbreviation parseUpdate :=
  (updateGoalSchema zodRequired zodInvalidEnum toISOString).
Local Abbreviation create :=
  (createGoalHandler zodRequired zodInvalidEnum toISOString
                     createGoalInDatabase).
Local Abbreviation update :=
  (updateGoalHandler zodRequired zodInvalidEnum toISOString
                     updateGoalInDatabase).

(** A parse that reports an issue about the title does not return. *)
Lemma finish_issue {A} (first : ZodIssue) (rest : list ZodIssue) (a : A) :
  finish (first :: rest) a = ZodError first rest.
Proof. reflexivity. Qed.

Lemma goalSchema_rejects (body : GoalBody.t) :
  GoalBody.title body = None \/ GoalBody.title body = Some "" ->
  forall data, parseGoal body <> Parsed data.
Proof.
  intros Ht data. unfold goalSchema.
  destruct (enumKey _ _ _ (GoalBody.priority body)) as [p pi].
  destruct (enumKey _ _ _ (GoalBody.status body)) as [s si].
  destruct (dueDateTransform _ _); [discriminate|].
  destruct (subtasksSchema _ _ _) as [subs subi].
  destruct Ht as [-> | ->]; simpl; discriminate.
Qed.

Lemma updateGoalSchema_rejects (body : GoalBody.t) :
  GoalBody.title body = Some "" ->
  forall data, parseUpdate body <> Parsed data.
Proof.
  intros Ht data. unfold updateGoalSchema.
  destruct (enumKey _ _ _ (GoalBody.priority body)) as [p pi].
  destruct (enumKey _ _ _ (GoalBody.status body)) as [s si].
  destruct (dueDateTransform _ _); [discriminate|].
  destruct (GoalBody.subtasks body) as [bodies|];
    [destruct (subtasksSchema _ _ _) as [subs subi]|];
    rewrite Ht; simpl; discriminate.
Qed.

(** A rejected parse is answered 400 and leaves the service as it was. *)
Lemma validated_rejects {A B} (p : Parse A) (k : A -> M B) (ok : nat)
      (message : string) (svc : GoalService.t) :
  (forall a, p <> Parsed a) ->
  exists m,
    respond ok message (bind (validated p) k) svc
    = (mkResponse 400 (Failure m), svc).
Proof.
  intros Hp. unfold respond, bind, validated.
  destruct p as [a|first rest|[m]].
  - now destruct (Hp a).
  - eexists. reflexivity.
  - eexists. reflexivity.
Qed.

(** An accepted title is the string of the body, of length at least 1. *)
Lemma goalSchema_title (body : GoalBody.t) (data : GoalData.t) :
  parseGoal body = Parsed data ->
  GoalBody.title body = Some (GoalData.title data)
  /\ (1 <= String.length (GoalData.title data))%nat.
Proof.
  unfold goalSchema.
  destruct (enumKey _ _ _ (GoalBody.priority body)) as [p pi].
  destruct (enumKey _ _ _ (GoalBody.status body)) as [s si].
  destruct (dueDateTransform _ _); [discriminate|].
  destruct (subtasksSchema _ _ _) as [subs subi].
  destruct (GoalBody.title body) as [t|]; simpl; [|discriminate].
  destruct (String.length t <? 1)%nat eqn:E; simpl; [discriminate|].
  apply Nat.ltb_ge in E.
  destruct (pi ++ si ++ subi); simpl; [|discriminate].
  intros [= <-]. simpl. split; [reflexivity|assumption].
Qed.

Lemma updateGoalSchema_title (body : GoalBody.t) (data : GoalUpdate.t) :
  parseUpdate body = Parsed data ->
  GoalUpdate.title data = GoalBody.title body
  /\ forall t, GoalBody.title body = Some t -> (1 <= String.length t)%nat.
Proof.
  unfold updateGoalSchema.
  destruct (enumKey _ _ _ (GoalBody.priority body)) as [p pi].
  destruct (enumKey _ _ _ (GoalBody.status body)) as [s si].
  destruct (dueDateTransform _ _); [discriminate|].
  assert (Hgen : forall subs subi,
    finish (optionalStringMin1 ["title"] "Goal title is required"
                               (GoalBody.title body) ++ pi ++ si ++ subi)
      (GoalUpdate.mk (GoalBody.title body) (GoalBody.description body)
         p s o (GoalBody.projectId body) (GoalBody.platformTags body)
         (GoalBody.teamMembers body) subs) = Parsed data ->
    GoalUpdate.title data = GoalBody.title body
    /\ forall t, GoalBody.title body = Some t -> (1 <= String.length t)%nat).
  { intros subs subi.
    destruct (GoalBody.title body) as [t|]; simpl.
    - destruct (String.length t <? 1)%nat eqn:E; simpl; [discriminate|].
      apply Nat.ltb_ge in E.
      destruct (pi ++ si ++ subi); simpl; [|discriminate].
      intros [= <-]. simpl. split; [reflexivity|].
      now intros t' [= <-].
    - destruct (pi ++ si ++ subi); simpl; [|discriminate].
      intros [= <-]. simpl. split; [reflexivity|discriminate]. }
  destruct (GoalBody.subtasks body) as [bodies|];
    [destruct (subtasksSchema _ _ _) as [subs subi]|]; apply Hgen.
Qed.

(** Creating the subtasks of a goal does not touch the goals. *)
Lemma mapM_createSubtask (goalId : string) (now : Date)
      (datas : list SubtaskData.t) :
  forall svc, exists subtasks svc',
    InMemory.mapM (InMemory.createSubtask goalId now) datas svc
    = (Return subtasks, svc')
    /\ GoalService.inMemoryGoals svc' = GoalService.inMemoryGoals svc.
Proof.
  induction datas as [|data r IH]; intros svc; simpl.
  - exists [], svc. split; reflexivity.
  - unfold bind at 1. unfold InMemory.createSubtask at 1.
    unfold bind, this, modify, ret. simpl.
    match goal with
    | |- context [InMemory.mapM _ r ?s] =>
        destruct (IH s) as (subtasks & svc' & Hrun & Hgoals)
    end.
    unfold bind in Hrun. rewrite Hrun.
    eexists; eexists. split; [reflexivity|]. exact Hgoals.
Qed.

Lemma createGoalInMemory_stores (userId : string) (data : GoalData.t)
      (now : Date) (svc : GoalService.t) :
  exists r svc',
    InMemory.createGoalInMemory userId data now svc = (Return r, svc')
    /\ Goal.title (GoalResponse.goal r) = GoalData.title data
    /\ JsMap.get (Goal.id (GoalResponse.goal r))
                 (GoalService.inMemoryGoals svc')
       = Some (GoalResponse.goal r).
Proof.
  unfold InMemory.createGoalInMemory.
  unfold bind at 1 2 3 4. unfold this, modify. simpl.
  match goal with
  | |- context [InMemory.mapM ?f ?l ?s] =>
      destruct (mapM_createSubtask
                  (numbered "goal-" (GoalService.goalIdCounter svc)) now l s)
        as (subtasks & svc' & Hrun & Hgoals)
  end.
  rewrite Hrun. unfold ret.
  eexists; eexists. split; [reflexivity|]. simpl. split; [reflexivity|].
  rewrite Hgoals. simpl. apply JsMapFacts.get_set_same.
Qed.

Lemma updateGoalInMemory_stores (userId goalId : string)
      (data : GoalUpdate.t) (now : Date) (svc svc' : GoalService.t)
      (r : GoalResponse.t) :
  InMemory.updateGoalInMemory userId goalId data now svc = (Return r, svc') ->
  exists old,
    JsMap.get goalId (GoalService.inMemoryGoals svc) = Some old
    /\ GoalResponse.goal r = InMemory.assignDefined data now old
    /\ JsMap.get goalId (GoalService.inMemoryGoals svc')
       = Some (GoalResponse.goal r).
Proof.
  unfold InMemory.updateGoalInMemory, bind, this, modify, ret. simpl.
  destruct (InMemory.notOwned _ _); [discriminate|].
  destruct (JsMap.get goalId _) as [old|]; [|discriminate].
  simpl. intros [= <- <-]. exists old. simpl.
  split; [reflexivity|]. split; [reflexivity|].
  apply JsMapFacts.get_set_same.
Qed.

(** C6 (as amended).  [createGoal] rejects, with status 400 and the service
    unchanged, every body whose title is absent or the empty string;
    [updateGoal] rejects in the same way every body whose title is the empty
    string, and accepts a body without a title, which keeps the stored
    title.  Titles are not trimmed: an accepted title has at least one
    character, white space or not, and is stored exactly as supplied. *)
Theorem goal_title_validation (userId goalId : string) (body : GoalBody.t)
        (now : Date) (svc : GoalService.t) :
  (GoalBody.title body = None \/ GoalBody.title body = Some "" ->
   exists m, create userId body now svc = (mkResponse 400 (Failure m), svc))
  /\ (GoalBody.title body = Some "" ->
      exists m, update userId goalId body now svc
                = (mkResponse 400 (Failure m), svc))
  /\ (GoalService.isDatabaseAvailable svc = false ->
      forall c msg r svc',
        create userId body now svc = (mkResponse c (Success msg r), svc') ->
        exists t,
          GoalBody.title body = Some t
          /\ (1 <= String.length t)%nat
          /\ Goal.title (GoalResponse.goal r) = t
          /\ JsMap.get (Goal.id (GoalResponse.goal r))
                       (GoalService.inMemoryGoals svc')
             = Some (GoalResponse.goal r))
  /\ (GoalService.isDatabaseAvailable svc = false ->
      forall c msg r svc',
        update userId goalId body now svc
        = (mkResponse c (Success msg r), svc') ->
        exists old,
          JsMap.get goalId (GoalService.inMemoryGoals svc) = Some old
          /\ JsMap.get goalId (GoalService.inMemoryGoals svc')
             = Some (GoalResponse.goal r)
          /\ match GoalBody.title body with
             | Some t => (1 <= String.length t)%nat
                         /\ Goal.title (GoalResponse.goal r) = t
             | None => Goal.title (GoalResponse.goal r) = Goal.title old
             end).
Proof.
  split; [|split; [|split]].
  - intros Ht. unfold createGoalHandler, createGoal.
    apply validated_rejects. now apply goalSchema_rejects.
  - intros Ht. unfold updateGoalHandler, updateGoal.
    apply validated_rejects. now apply updateGoalSchema_rejects.
  - intros Hdb c msg r svc'.
    unfold createGoalHandler, createGoal, respond.
    unfold bind at 1. unfold validated.
    pose proof (goalSchema_title body) as Htitle.
    destruct (goalSchema zodRequired zodInvalidEnum toISOString body)
      as [data|first rest|[m]]; try discriminate.
    destruct (Htitle data eq_refl) as [Ht Hlen].
    unfold ret, bind, this. cbv beta iota. rewrite Hdb. simpl.
    destruct (createGoalInMemory_stores userId data now svc)
      as (r0 & svc0 & Hrun & Hr & Hstored).
    rewrite Hrun. intros [= _ _ <- <-].
    exists (GoalData.title data). repeat split; assumption.
  - intros Hdb c msg r svc'.
    unfold updateGoalHandler, updateGoal, respond.
    unfold bind at 1. unfold validated.
    pose proof (updateGoalSchema_title body) as Htitle.
    destruct (updateGoalSchema zodRequired zodInvalidEnum toISOString body)
      as [data|first rest|[m]]; try discriminate.
    destruct (Htitle data eq_refl) as [Ht Hlen].
    unfold ret, bind, this. cbv beta iota. rewrite Hdb. simpl.
    destruct (InMemory.updateGoalInMemory userId goalId data now svc)
      as [[r0|[m]] svc0] eqn:Hrun; [|discriminate].
    intros [= _ _ <- <-].
    destruct (updateGoalInMemory_stores _ _ _ _ _ _ _ Hrun)
      as (old & Hold & Hr & Hstored).
    exists old. split; [assumption|]. split; [assumption|].
    rewrite Hr. unfold InMemory.assignDefined. simpl. rewrite Ht.
    destruct (GoalBody.title body) as [t|]; simpl; [|reflexivity].
    split; [now apply Hlen|reflexivity].
Qed.

End Validation.

Lemma goal_title_validation_witness :
  (exists m,
     createGoalHandler sampleRequired sampleInvalidEnum sampleToISOString
                       (fun _ _ _ => noDatabase)
                       "user-1" priorityOnlyBody 0 demoService
     = (mkResponse 400 (Failure m), demoService))
  /\ (exists t,
        GoalBody.title launchBody = Some t
        /\ (1 <= String.length t)%nat
        /\ option_map Goal.title
             (JsMap.get "goal-3"
                (GoalService.inMemoryGoals
                   (snd (createGoalHandler sampleRequired sampleInvalidEnum
                           sampleToISOString (fun _ _ _ => noDatabase)
                           "user-1" launchBody 0 demoService))))
           = Some t).
Proof.
  split.
  - apply (goal_title_validation sampleRequired sampleInvalidEnum
             sampleToISOString (fun _ _ _ => noDatabase)
             (fun _ _ _ _ => noDatabase)
             "user-1" "goal-1" priorityOnlyBody 0 demoService).
    left. reflexivity.
  - pose (result := createGoalHandler sampleRequired sampleInvalidEnum
                      sampleToISOString (fun _ _ _ => noDatabase)
                      "user-1" launchBody 0 demoService).
    destruct (proj1 (proj2 (proj2
                (goal_title_validation sampleRequired sampleInvalidEnum
                   sampleToISOString (fun _ _ _ => noDatabase)
                   (fun _ _ _ _ => noDatabase)
                   "user-1" "goal-1" launchBody 0 demoService)))
              eq_refl 201%nat (Some "Goal created successfully")
              (match json (fst result) with
               | Success _ r => r
               | Failure _ => GoalResponse.mk
                                (Goal.mk "" "" None LOW ACTIVE None None ""
                                         0 0 None None None) [] [] []
               end)
              (snd result) eq_refl)
      as (t & Ht & Hlen & Htitle & Hstored).
    exists t. split; [exact Ht|]. split; [exact Hlen|].
    injection Ht as <-. reflexivity.
Defined.

(** C6, counterexample.  In the demo store a goal whose title is three
    spaces is created: the request is answered 201 and the store keeps the
    title as it came, under [goal-3], though nothing is left of it after
    trimming.  An update of [goal-1] without any title is answered 200. *)
Lemma blank_title_accepted :
  let result :=
    createGoalHandler sampleRequired sampleInvalidEnum sampleToISOString
                      (fun _ _ _ => noDatabase)
                      "user-1" blankTitleBody 0 demoService in
  GoalBody.title blankTitleBody = Some "   "
  /\ trim "   " = ""
  /\ code (fst result) = 201%nat
  /\ option_map Goal.title
       (JsMap.get "goal-3" (GoalService.inMemoryGoals (snd result)))
     = Some "   "
  /\ GoalBody.title priorityOnlyBody = None
  /\ code (fst (updateGoalHandler sampleRequired sampleInvalidEnum
                  sampleToISOString (fun _ _ _ _ => noDatabase)
                  "user-1" "goal-1" priorityOnlyBody 1 demoService))
     = 200%nat.
Proof. vm_compute. repeat split. Qed.

(** ** The rule-based suggestion *)

Module Fallback.

Import LLM.

(** The call returns for a string and a context that is not [null]. *)
Lemma fallback_returns (goalDescription : string)
      (context : ContextArgument) :
  context <> Null ->
  exists output,
    generateSubtasksFallback (Some (JsString goalDescription)) context
    = Returns output.
Proof.
  intros Hnull. unfold generateSubtasksFallback.
  destruct context; cbn [destructured]; solve [eexists; reflexivity | congruence].
Qed.

(** C5 (as amended).  The output holds at most six subtasks.  Its last
    element is the closing review task, "Final review and documentation",
    unless the description mentions building, testing and deploying and the
    team has more than one member: the seven generated tasks are then cut to
    the first six, which end with the coordination task and do not include
    the closing review task.  The call returns an output for every string
    and every context but [null]; a context object has a number under
    [teamSize], if it has the key. *)
Theorem fallback_at_most_six (goalDescription : string)
        (context : ContextArgument) :
  match generateSubtasksFallback (Some (JsString goalDescription)) context
  with
  | Throws _ => context = Null
  | Returns output =>
      (List.length (subtasks output) <= 6)%nat
      /\ if allTriggers goalDescription context then
           titles output
           = [ "Define project scope and requirements";
               "Set up development environment";
               "Implement core functionality";
               "Conduct thorough testing";
               "Prepare for deployment";
               "Coordinate team activities" ]
         else
           last (titles output) "" = "Final review and documentation"
  end.
Proof.
  unfold allTriggers, titles, generateSubtasksFallback, allSubtasks.
  destruct (destructured context) as [c|] eqn:Hc;
    [|now destruct context].
  cbv zeta. cbn [orKeep].
  destruct (mentionsBuild _), (mentionsTest _), (mentionsDeploy _),
    (greaterThanOne _); simpl; split; try reflexivity; lia.
Qed.

(** C5, counterexample.  For a team of two and a description that mentions
    building, testing and deploying, the output has six tasks, the last one
    is the coordination task, and the closing review task is not among
    them. *)
Lemma fallback_drops_review :
  exists output,
    generateSubtasksFallback
      (Some (JsString "Build, test and deploy the checkout flow"))
      (Object (withTeamSize 2))
    = Returns output
    /\ List.length (subtasks output) = 6%nat
    /\ last (titles output) "" = "Coordinate team activities"
    /\ existsb (String.eqb "Final review and documentation") (titles output)
       = false.
Proof. eexists. split; [reflexivity|]. vm_compute. repeat split. Qed.

(** The output depends on the description and on whether the team has more
    than one member, and on nothing else in the context. *)
Lemma fallback_reads_teamSize_only (goalDescription : option JsValue)
      (c1 c2 : Context) :
  greaterThanOne (orKeep (teamSize c1) (Finite 1))
  = greaterThanOne (orKeep (teamSize c2) (Finite 1)) ->
  generateSubtasksFallback goalDescription (Object c1)
  = generateSubtasksFallback goalDescription (Object c2).
Proof.
  intros H. unfold generateSubtasksFallback, allSubtasks. simpl.
  now rewrite H.
Qed.

(** C7, at the failing input.  The fallback throws when [context] is [null],
    whatever the description: the default parameter replaces [undefined]
    only.  It returns, reporting success, for every string and every other
    context (a context object has a number under [teamSize], if it has the
    key).  The body [{"goalDescription": "ship it", "context": null}] does
    not pass the schema, the [catch] of [generateSubtasks] hands the
    description and the [null] to the fallback, and the request is answered
    400 although the fallback is there to answer when validation or the
    model fails; without the [context] key the same description is answered
    200. *)
Theorem fallback_throws_on_null_context :
  generateSubtasksFallback (Some (JsString "ship it")) Null
  = Throws Destructuring
  /\ (forall goalDescription,
        generateSubtasksFallback goalDescription Null = Throws Destructuring)
  /\ (forall (goalDescription : string) context,
        match generateSubtasksFallback (Some (JsString goalDescription))
                                       context with
        | Returns output =>
            context <> Null
            /\ success output = true
            /\ generatedBy output = "fallback-algorithm"
            /\ hd_error (subtasks output) = Some (scopeTask goalDescription)
        | Throws error => context = Null /\ error = Destructuring
        end)
  /\ (forall (R : Type) isGeminiAvailable buildSubtaskPrompt generateContent
             (parseSubtasksResponse : string -> option R),
        generateSubtasksHandler R isGeminiAvailable buildSubtaskPrompt
          generateContent parseSubtasksResponse
          (GenerateInput.mk (Some (JsString "ship it")) Null)
        = 400%nat)
  /\ generateSubtasksHandler unit false (fun _ _ => "") (fun _ => None)
       (fun _ => None)
       (GenerateInput.mk (Some (JsString "ship it")) Undefined)
     = 200%nat.
Proof.
  split; [reflexivity|]. split; [reflexivity|]. split.
  { intros goalDescription context.
    unfold generateSubtasksFallback, allSubtasks.
    destruct context; cbn [destructured]; [| now split | |];
      (split; [discriminate|]); (split; [reflexivity|]);
      (split; [reflexivity|]); cbv zeta;
      destruct (mentionsBuild _), (mentionsTest _), (mentionsDeploy _),
        (greaterThanOne _); reflexivity. }
  split; [|reflexivity].
  intros R isGeminiAvailable buildSubtaskPrompt generateContent
         parseSubtasksResponse.
  reflexivity.
Qed.

(** C8.  For "build and test a checkout flow" and a team of one the output
    is, in this order, the scope task, the setup task, the implementation
    task, the testing task and the closing review task, which depends on
    the testing task; neither the deployment task nor the coordination task
    is in it. *)
Theorem fallback_checkout_flow :
  exists output,
    generateSubtasksFallback
      (Some (JsString "build and test a checkout flow"))
      (Object (withTeamSize 1))
    = Returns output
    /\ subtasks output
       = [ scopeTask "build and test a checkout flow";
           setupTask;
           implementTask;
           testingTask;
           reviewTask [testingTask] ]
    /\ titles output
       = [ "Define project scope and requirements";
           "Set up development environment";
           "Implement core functionality";
           "Conduct thorough testing";
           "Final review and documentation" ]
    /\ existsb (String.eqb (title deploymentTask)) (titles output) = false
    /\ existsb (String.eqb (title coordinationTask)) (titles output) = false.
Proof. eexists. split; [reflexivity|]. vm_compute. repeat split. Qed.

End Fallback.

(* ================================================================== *)
(** * Further properties of the in-memory store *)

(** ** More about the map *)

Module JsMapMore.

Lemma In_set {V} (k k' : string) (v v' : V) (m : JsMap.t V) :
  In (k', v') (JsMap.set k v m) -> (k', v') = (k, v) \/ In (k', v') m.
Proof.
  induction m as [|[k0 v0] r IH]; simpl.
  - intros [H|[]]. left. now symmetry.
  - destruct (String.eqb k0 k); simpl.
    + intros [H|H]; [left; now symmetry|right; now right].
    + intros [H|H]; [right; now left|].
      destruct (IH H) as [Heq|Hin]; [now left|right; now right].
Qed.

(** A new key goes last. *)
Lemma set_fresh {V} (k : string) (v : V) (m : JsMap.t V) :
  JsMap.get k m = None -> JsMap.set k v m = m ++ [(k, v)].
Proof.
  induction m as [|[k0 v0] r IH]; simpl; [reflexivity|].
  destruct (String.eqb k0 k); [discriminate|].
  intros H. now rewrite IH.
Qed.

(** An existing key keeps its place and the other entries stay. *)
Lemma keys_set_present {V} (k : string) (v v0 : V) (m : JsMap.t V) :
  JsMap.get k m = Some v0 -> JsMap.keys (JsMap.set k v m) = JsMap.keys m.
Proof.
  induction m as [|[k1 v1] r IH]; simpl; [discriminate|].
  destruct (String.eqb k1 k) eqn:E; simpl.
  - apply String.eqb_eq in E. now subst.
  - intros H. now rewrite (IH H).
Qed.

Lemma get_set_not_None {V} (k k' : string) (v : V) (m : JsMap.t V) :
  JsMap.get k' m <> None -> JsMap.get k' (JsMap.set k v m) <> None.
Proof.
  intros H. destruct (String.eqb k k') eqn:E.
  - apply String.eqb_eq in E. subst. now rewrite JsMapFacts.get_set_same.
  - apply String.eqb_neq in E. now rewrite JsMapFacts.get_set_other.
Qed.

Lemma get_delete_None {V} (k k' : string) (m : JsMap.t V) :
  JsMap.get k' m = None -> JsMap.get k' (JsMap.delete k m) = None.
Proof.
  intros H. destruct (String.eqb k k') eqn:E.
  - apply String.eqb_eq in E. subst. apply JsMapFacts.get_delete_same.
  - apply String.eqb_neq in E. now rewrite JsMapFacts.get_delete_other.
Qed.

Lemma keyed_set {V} (rowId : V -> string) (k : string) (v : V)
      (m : JsMap.t V) :
  keyed rowId m -> rowId v = k -> keyed rowId (JsMap.set k v m).
Proof.
  unfold keyed. intros Hm Hv. apply Forall_forall. intros [k' v'] Hin.
  apply In_set in Hin as [[= -> ->]|Hin]; [exact Hv|].
  rewrite Forall_forall in Hm. exact (Hm _ Hin).
Qed.

Lemma keyed_delete {V} (rowId : V -> string) (k : string) (m : JsMap.t V) :
  keyed rowId m -> keyed rowId (JsMap.delete k m).
Proof.
  unfold keyed, JsMap.delete. intros Hm. apply Forall_forall.
  intros entry Hin. apply filter_In in Hin as [Hin _].
  rewrite Forall_forall in Hm. exact (Hm _ Hin).
Qed.

(** In a map that holds every row under its identifier, the row found
    under a key has that identifier. *)
Lemma keyed_get {V} (rowId : V -> string) (k : string) (v : V)
      (m : JsMap.t V) :
  keyed rowId m -> JsMap.get k m = Some v -> rowId v = k.
Proof.
  unfold keyed. intros Hm Hget. rewrite Forall_forall in Hm.
  exact (Hm _ (JsMapFacts.get_In _ _ _ Hget)).
Qed.

(** With distinct keys an entry of the map is what [get] finds. *)
Lemma wf_In_get {V} (k : string) (v : V) (m : JsMap.t V) :
  JsMap.wf m -> In (k, v) m -> JsMap.get k m = Some v.
Proof.
  unfold JsMap.wf.
  induction m as [|[k0 v0] r IH]; simpl; intros Hwf Hin; [contradiction|].
  apply NoDup_cons_iff in Hwf as [Hnotin Hnodup].
  destruct Hin as [[= -> ->]|Hin].
  - now rewrite String.eqb_refl.
  - destruct (String.eqb k0 k) eqn:E; [|now apply IH].
    apply String.eqb_eq in E. subst k0. exfalso. apply Hnotin.
    apply in_map_iff. now exists (k, v).
Qed.

(** Writing under an existing key replaces that entry and no other. *)
Lemma values_set_present {V} (k : string) (v v0 : V) (m : JsMap.t V) :
  JsMap.get k m = Some v0 ->
  exists before after,
    m = before ++ (k, v0) :: after
    /\ JsMap.set k v m = before ++ (k, v) :: after
    /\ JsMap.get k before = None.
Proof.
  induction m as [|[k1 v1] r IH]; simpl; [discriminate|].
  destruct (String.eqb k1 k) eqn:E.
  - apply String.eqb_eq in E. subst k1. intros [= ->].
    exists [], r. repeat split.
  - intros H. destruct (IH H) as (before & after & Hm & Hset & Hnone).
    exists ((k1, v1) :: before), after. simpl. rewrite E.
    split; [now rewrite Hm at 1|]. split; [now rewrite Hset|exact Hnone].
Qed.

End JsMapMore.

(** ** Identifiers *)

Module Identifiers.

Lemma append_inj (prefix a b : string) :
  (prefix ++ a)%string = (prefix ++ b)%string -> a = b.
Proof.
  induction prefix as [|c r IH]; simpl; [now intros|].
  intros [= H]. now apply IH.
Qed.

(** Distinct counter values give distinct identifiers. *)
Lemma numbered_inj (prefix : string) (n m : nat) :
  numbered prefix n = numbered prefix m -> n = m.
Proof.
  unfold numbered. intros H. apply append_inj in H.
  apply DecimalNat.Unsigned.to_uint_inj.
  assert (Hs : NilEmpty.uint_of_string
                 (NilEmpty.string_of_uint (Nat.to_uint n))
               = NilEmpty.uint_of_string
                   (NilEmpty.string_of_uint (Nat.to_uint m)))
    by now rewrite H.
  rewrite !NilEmpty.usu in Hs. now injection Hs.
Qed.

End Identifiers.

(** ** Running the other in-memory methods *)

Module Runs.

Import InMemory InMemoryFacts.

Lemma addSubtaskInMemory_run (userId goalId : string) (data : NewSubtask.t)
      (now : Date) (svc : GoalService.t) :
  addSubtaskInMemory userId goalId data now svc =
  if notOwned (JsMap.get goalId (GoalService.inMemoryGoals svc)) userId
  then (Throw (Error "Goal not found or access denied"), svc)
  else
    let subtask :=
      addedSubtask goalId data now (GoalService.subtaskIdCounter svc) in
    (Return subtask,
     GoalService.mk
       (GoalService.prisma svc) (GoalService.isDatabaseAvailable svc)
       (GoalService.inMemoryGoals svc)
       (JsMap.set (Subtask.id subtask) subtask
                  (GoalService.inMemorySubtasks svc))
       (GoalService.goalIdCounter svc)
       (S (GoalService.subtaskIdCounter svc))).
Proof.
  unfold addSubtaskInMemory, bind, this. simpl.
  destruct (notOwned _ _); reflexivity.
Qed.

Lemma updateGoalInMemory_run (userId goalId : string) (data : GoalUpdate.t)
      (now : Date) (svc : GoalService.t) :
  updateGoalInMemory userId goalId data now svc =
  match JsMap.get goalId (GoalService.inMemoryGoals svc) with
  | None => (Throw (Error "Goal not found or access denied"), svc)
  | Some goal =>
      if negb (String.eqb (Goal.ownerId goal) userId)
      then (Throw (Error "Goal not found or access denied"), svc)
      else
        (Return (GoalResponse.mk (assignDefined data now goal)
                                 (subtasksOf goalId svc) [] []),
         GoalService.set_inMemoryGoals
           (JsMap.set goalId (assignDefined data now goal)
                      (GoalService.inMemoryGoals svc)) svc)
  end.
Proof.
  unfold updateGoalInMemory, bind, this. simpl.
  destruct (JsMap.get goalId _) as [goal|]; simpl; [|reflexivity].
  destruct (negb _); reflexivity.
Qed.

Lemma mapM_createSubtask_run (goalId : string) (now : Date)
      (datas : list SubtaskData.t) :
  forall svc,
    mapM (createSubtask goalId now) datas svc =
    (Return (newSubtasks goalId now (GoalService.subtaskIdCounter svc) datas),
     GoalService.mk
       (GoalService.prisma svc) (GoalService.isDatabaseAvailable svc)
       (GoalService.inMemoryGoals svc)
       (setAll (newSubtasks goalId now (GoalService.subtaskIdCounter svc)
                            datas)
               (GoalService.inMemorySubtasks svc))
       (GoalService.goalIdCounter svc)
       (GoalService.subtaskIdCounter svc + List.length datas)).
Proof.
  induction datas as [|data r IH]; intros svc; simpl.
  - rewrite Nat.add_0_r. now destruct svc.
  - unfold bind at 1. unfold createSubtask at 1.
    unfold bind, this, modify, ret. simpl.
    unfold bind in IH. rewrite IH. simpl.
    now rewrite Nat.add_succ_r.
Qed.

Lemma createGoalInMemory_run (userId : string) (data : GoalData.t)
      (now : Date) (svc : GoalService.t) :
  createGoalInMemory userId data now svc =
  let goal := newGoal userId data now (GoalService.goalIdCounter svc) in
  let subtasks :=
    newSubtasks (Goal.id goal) now (GoalService.subtaskIdCounter svc)
                (GoalData.subtasks data) in
  (Return (GoalResponse.mk goal subtasks [] []),
   GoalService.mk
     (GoalService.prisma svc) (GoalService.isDatabaseAvailable svc)
     (JsMap.set (Goal.id goal) goal (GoalService.inMemoryGoals svc))
     (setAll subtasks (GoalService.inMemorySubtasks svc))
     (S (GoalService.goalIdCounter svc))
     (GoalService.subtaskIdCounter svc
      + List.length (GoalData.subtasks data))).
Proof.
  unfold createGoalInMemory.
  unfold bind at 1 2 3 4. unfold this, modify. simpl.
  rewrite mapM_createSubtask_run. reflexivity.
Qed.

End Runs.

(** ** The shape of the store is kept *)

Module Shape.

Import InMemory InMemoryFacts Runs.

Lemma consistent_update_subtask (svc : GoalService.t) (k : string)
      (old new : Subtask.t) :
  consistent svc ->
  JsMap.get k (GoalService.inMemorySubtasks svc) = Some old ->
  Subtask.id new = Subtask.id old ->
  Subtask.goalId new = Subtask.goalId old ->
  consistent (GoalService.set_inMemorySubtasks
                (JsMap.set k new (GoalService.inMemorySubtasks svc)) svc).
Proof.
  intros (Hkg & Hks & Hwg & Hws & Hrefs & Hfg & Hfs) Hget Hid Hgoal.
  pose proof (JsMapMore.keyed_get _ _ _ _ Hks Hget) as Hold.
  repeat split; simpl; try assumption.
  - apply JsMapMore.keyed_set; [assumption|congruence].
  - now apply JsMapFacts.wf_set.
  - intros k' s Hin. apply JsMapMore.In_set in Hin as [[= -> ->]|Hin].
    + rewrite Hgoal. exact (Hrefs _ _ (JsMapFacts.get_In _ _ _ Hget)).
    + exact (Hrefs _ _ Hin).
  - intros n Hn. rewrite JsMapFacts.get_set_other; [now apply Hfs|].
    intros ->. rewrite (Hfs n Hn) in Hget. discriminate.
Qed.

Lemma consistent_update_goal (svc : GoalService.t) (k : string)
      (old new : Goal.t) :
  consistent svc ->
  JsMap.get k (GoalService.inMemoryGoals svc) = Some old ->
  Goal.id new = Goal.id old ->
  consistent (GoalService.set_inMemoryGoals
                (JsMap.set k new (GoalService.inMemoryGoals svc)) svc).
Proof.
  intros (Hkg & Hks & Hwg & Hws & Hrefs & Hfg & Hfs) Hget Hid.
  pose proof (JsMapMore.keyed_get _ _ _ _ Hkg Hget) as Hold.
  repeat split; simpl; try assumption.
  - apply JsMapMore.keyed_set; [assumption|congruence].
  - now apply JsMapFacts.wf_set.
  - intros k' s Hin. apply JsMapMore.get_set_not_None.
    exact (Hrefs _ _ Hin).
  - intros n Hn. rewrite JsMapFacts.get_set_other; [now apply Hfg|].
    intros ->. rewrite (Hfg n Hn) in Hget. discriminate.
Qed.

Lemma consistent_new_subtask (svc : GoalService.t) (new : Subtask.t) :
  consistent svc ->
  Subtask.id new = numbered "subtask-" (GoalService.subtaskIdCounter svc) ->
  JsMap.get (Subtask.goalId new) (GoalService.inMemoryGoals svc) <> None ->
  consistent
    (GoalService.mk
       (GoalService.prisma svc) (GoalService.isDatabaseAvailable svc)
       (GoalService.inMemoryGoals svc)
       (JsMap.set (Subtask.id new) new (GoalService.inMemorySubtasks svc))
       (GoalService.goalIdCounter svc)
       (S (GoalService.subtaskIdCounter svc))).
Proof.
  intros (Hkg & Hks & Hwg & Hws & Hrefs & Hfg & Hfs) Hid Hgoal.
  repeat split; simpl; try assumption.
  - now apply JsMapMore.keyed_set.
  - now apply JsMapFacts.wf_set.
  - intros k' s Hin. apply JsMapMore.In_set in Hin as [[= -> ->]|Hin].
    + exact Hgoal.
    + exact (Hrefs _ _ Hin).
  - intros n Hn. rewrite JsMapFacts.get_set_other; [apply Hfs; lia|].
    rewrite Hid. intros H. apply Identifiers.numbered_inj in H. lia.
Qed.

Lemma consistent_new_goal (svc : GoalService.t) (new : Goal.t) :
  consistent svc ->
  Goal.id new = numbered "goal-" (GoalService.goalIdCounter svc) ->
  consistent
    (GoalService.mk
       (GoalService.prisma svc) (GoalService.isDatabaseAvailable svc)
       (JsMap.set (Goal.id new) new (GoalService.inMemoryGoals svc))
       (GoalService.inMemorySubtasks svc)
       (S (GoalService.goalIdCounter svc))
       (GoalService.subtaskIdCounter svc)).
Proof.
  intros (Hkg & Hks & Hwg & Hws & Hrefs & Hfg & Hfs) Hid.
  repeat split; simpl; try assumption.
  - now apply JsMapMore.keyed_set.
  - now apply JsMapFacts.wf_set.
  - intros k' s Hin. apply JsMapMore.get_set_not_None.
    exact (Hrefs _ _ Hin).
  - intros n Hn. rewrite JsMapFacts.get_set_other; [apply Hfg; lia|].
    rewrite Hid. intros H. apply Identifiers.numbered_inj in H. lia.
Qed.

(** Creating the subtasks of a goal that is in the store. *)
Lemma consistent_new_subtasks (goalId : string) (now : Date)
      (datas : list SubtaskData.t) :
  forall svc,
    consistent svc ->
    JsMap.get goalId (GoalService.inMemoryGoals svc) <> None ->
    consistent
      (GoalService.mk
         (GoalService.prisma svc) (GoalService.isDatabaseAvailable svc)
         (GoalService.inMemoryGoals svc)
         (setAll (newSubtasks goalId now (GoalService.subtaskIdCounter svc)
                              datas)
                 (GoalService.inMemorySubtasks svc))
         (GoalService.goalIdCounter svc)
         (GoalService.subtaskIdCounter svc + List.length datas)).
Proof.
  induction datas as [|data r IH]; intros svc Hc Hgoal; simpl.
  - rewrite Nat.add_0_r. now destruct svc.
  - set (new := Subtask.mk _ _ _ _ _ _ _ _ _ _ _).
    pose proof (consistent_new_subtask svc new Hc eq_refl Hgoal) as Hstep.
    specialize (IH _ Hstep Hgoal). simpl in IH.
    now rewrite Nat.add_succ_r.
Qed.

Lemma wf_deleteSubtasksOf (goalId : string)
      (snapshot : list (string * Subtask.t)) :
  forall m, JsMap.wf m -> JsMap.wf (deleteSubtasksOf goalId snapshot m).
Proof.
  unfold deleteSubtasksOf.
  induction snapshot as [|[k v] r IH]; intros m Hwf; simpl; [assumption|].
  apply IH. destruct (String.eqb _ _); [now apply JsMapFacts.wf_delete|].
  assumption.
Qed.

Lemma consistent_delete (svc : GoalService.t) (goalId : string) :
  consistent svc ->
  consistent
    (GoalService.mk
       (GoalService.prisma svc) (GoalService.isDatabaseAvailable svc)
       (JsMap.delete goalId (GoalService.inMemoryGoals svc))
       (deleteSubtasksOf goalId (GoalService.inMemorySubtasks svc)
                         (GoalService.inMemorySubtasks svc))
       (GoalService.goalIdCounter svc)
       (GoalService.subtaskIdCounter svc)).
Proof.
  intros (Hkg & Hks & Hwg & Hws & Hrefs & Hfg & Hfs).
  unfold consistent, referential, freshIds.
  repeat split;
    cbn [GoalService.inMemoryGoals GoalService.inMemorySubtasks
         GoalService.goalIdCounter GoalService.subtaskIdCounter].
  - now apply JsMapMore.keyed_delete.
  - unfold keyed in *. apply Forall_forall. intros [k v] Hin.
    apply Delete.In_deleteSubtasksOf in Hin as [Hin _].
    rewrite Forall_forall in Hks. exact (Hks _ Hin).
  - now apply JsMapFacts.wf_delete.
  - now apply wf_deleteSubtasksOf.
  - intros k s Hin. apply Delete.In_deleteSubtasksOf in Hin as [Hin Hall].
    assert (Hne : Subtask.goalId s <> goalId).
    { intros Hg. exact (Hall (k, s) Hin Hg eq_refl). }
    rewrite JsMapFacts.get_delete_other; [|congruence].
    exact (Hrefs _ _ Hin).
  - intros n Hn. apply JsMapMore.get_delete_None. now apply Hfg.
  - intros n Hn. apply Delete.get_not_In. intros v Hin.
    apply Delete.In_deleteSubtasksOf in Hin as [Hin _].
    specialize (Hfs n Hn).
    rewrite (JsMapMore.wf_In_get _ _ _ Hws Hin) in Hfs. discriminate.
Qed.

End Shape.

(** ** Every in-memory method keeps the shape of the store *)

Module ShapeKept.

Import InMemory InMemoryFacts Runs Shape.

Lemma demo_consistent : consistent demoService.
Proof.
  unfold consistent, referential, freshIds.
  split; [repeat constructor|]. split; [repeat constructor|].
  split.
  { unfold JsMap.wf. vm_compute.
    repeat (constructor; [simpl; intuition discriminate|]). constructor. }
  split.
  { unfold JsMap.wf. vm_compute.
    repeat (constructor; [simpl; intuition discriminate|]). constructor. }
  split.
  { intros k subtask Hin.
    repeat (destruct Hin as [[= <- <-]|Hin]; [vm_compute; discriminate|]).
    destruct Hin. }
  split; intros n Hn; change (GoalService.goalIdCounter demoService)
                       with 3%nat in *;
    change (GoalService.subtaskIdCounter demoService) with 6%nat in *.
  - destruct (JsMap.get _ _) eqn:E; [|reflexivity].
    apply JsMapFacts.get_In in E.
    let m := eval vm_compute in (GoalService.inMemoryGoals demoService) in
    change (GoalService.inMemoryGoals demoService) with m in E.
    repeat (destruct E as [E|E];
            [ apply (f_equal fst) in E; cbn [fst] in E;
              first [ apply (Identifiers.numbered_inj "goal-" 1 n) in E
                    | apply (Identifiers.numbered_inj "goal-" 2 n) in E ];
              lia |]).
    destruct E.
  - destruct (JsMap.get _ _) eqn:E; [|reflexivity].
    apply JsMapFacts.get_In in E.
    let m := eval vm_compute in (GoalService.inMemorySubtasks demoService) in
    change (GoalService.inMemorySubtasks demoService) with m in E.
    repeat (destruct E as [E|E];
            [ apply (f_equal fst) in E; cbn [fst] in E;
              first [ apply (Identifiers.numbered_inj "subtask-" 1 n) in E
                    | apply (Identifiers.numbered_inj "subtask-" 2 n) in E
                    | apply (Identifiers.numbered_inj "subtask-" 3 n) in E
                    | apply (Identifiers.numbered_inj "subtask-" 4 n) in E
                    | apply (Identifiers.numbered_inj "subtask-" 5 n) in E ];
              lia |]).
    destruct E.
Qed.

Lemma createGoalInMemory_keeps (svc : GoalService.t) (userId : string)
      (now : Date) (goalData : GoalData.t) :
  consistent svc ->
  consistent (snd (createGoalInMemory userId goalData now svc)).
Proof.
  intros Hc. rewrite createGoalInMemory_run. cbv zeta. cbn [snd].
  pose proof (consistent_new_goal svc
                (newGoal userId goalData now
                         (GoalService.goalIdCounter svc)) Hc eq_refl)
    as Hgoal.
  apply (consistent_new_subtasks _ now (GoalData.subtasks goalData) _ Hgoal).
  cbn [GoalService.inMemoryGoals]. now rewrite JsMapFacts.get_set_same.
Qed.

Lemma updateGoalInMemory_keeps (svc : GoalService.t)
      (userId goalId : string) (now : Date) (goalUpdate : GoalUpdate.t) :
  consistent svc ->
  consistent (snd (updateGoalInMemory userId goalId goalUpdate now svc)).
Proof.
  intros Hc. rewrite updateGoalInMemory_run.
  destruct (JsMap.get goalId _) as [goal|] eqn:Hget; [|exact Hc].
  destruct (negb _); [exact Hc|].
  now apply (consistent_update_goal svc goalId goal).
Qed.

Lemma toggleSubtaskInMemory_keeps (svc : GoalService.t)
      (userId subtaskId : string) (now : Date) :
  consistent svc ->
  consistent (snd (toggleSubtaskInMemory userId subtaskId now svc)).
Proof.
  intros Hc. rewrite toggleSubtaskInMemory_run.
  destruct (JsMap.get subtaskId _) as [subtask|] eqn:Hget; [|exact Hc].
  destruct (notOwned _ _); [exact Hc|].
  now apply (consistent_update_subtask svc subtaskId subtask).
Qed.

Lemma addSubtaskInMemory_keeps (svc : GoalService.t)
      (userId goalId : string) (now : Date) (newSubtask : NewSubtask.t) :
  consistent svc ->
  consistent (snd (addSubtaskInMemory userId goalId newSubtask now svc)).
Proof.
  intros Hc. rewrite addSubtaskInMemory_run.
  destruct (JsMap.get goalId (GoalService.inMemoryGoals svc))
    as [goal|] eqn:Hget; simpl notOwned; [|exact Hc].
  destruct (negb _); [exact Hc|].
  cbv zeta. cbn [snd].
  apply (consistent_new_subtask svc
           (addedSubtask goalId newSubtask now
                         (GoalService.subtaskIdCounter svc)) Hc eq_refl).
  cbn [Subtask.goalId addedSubtask]. now rewrite Hget.
Qed.

Lemma updateSubtaskInMemory_keeps (svc : GoalService.t)
      (userId goalId subtaskId : string) (now : Date)
      (subtaskUpdate : SubtaskUpdate.t) :
  consistent svc ->
  consistent (snd (updateSubtaskInMemory userId goalId subtaskId
                                         subtaskUpdate now svc)).
Proof.
  intros Hc. rewrite updateSubtaskInMemory_run.
  destruct (JsMap.get subtaskId _) as [subtask|] eqn:Hget; [|exact Hc].
  destruct (negb _); [exact Hc|].
  destruct (notOwned _ _); [exact Hc|].
  now apply (consistent_update_subtask svc subtaskId subtask).
Qed.

Lemma checkAndUpdateGoalCompletionInMemory_keeps (svc : GoalService.t)
      (userId goalId : string) (now : Date) :
  consistent svc ->
  consistent (snd (checkAndUpdateGoalCompletionInMemory userId goalId
                                                        now svc)).
Proof.
  intros Hc. rewrite checkAndUpdateGoalCompletionInMemory_run.
  destruct (JsMap.get goalId _) as [goal|] eqn:Hget; [|exact Hc].
  destruct (negb _); [exact Hc|]. cbn [snd].
  destruct (0 <? _)%nat; [|exact Hc].
  destruct (recompute _ now goal) as [goal'|] eqn:Hre; [|exact Hc].
  apply (consistent_update_goal svc goalId goal goal' Hc Hget).
  unfold recompute in Hre.
  destruct (_ && _) in Hre; [now injection Hre as <-|].
  destruct (_ && _) in Hre; [now injection Hre as <-|discriminate].
Qed.

Lemma deleteGoalInMemory_keeps (svc : GoalService.t)
      (userId goalId : string) :
  consistent svc ->
  consistent (snd (deleteGoalInMemory userId goalId svc)).
Proof.
  intros Hc. rewrite Delete.deleteGoalInMemory_run.
  destruct (notOwned _ _); [exact Hc|].
  now apply consistent_delete.
Qed.

(** X1.  In a store where every goal and subtask is kept under its own
    identifier, no identifier occurs twice, every subtask refers to a goal
    of the store and the identifiers that the counters will hand out are
    unused, each mutating method of the in-memory store leaves a store of
    the same kind, whether it returns or throws. *)
Theorem inMemory_methods_keep_shape
        (svc : GoalService.t) (userId goalId subtaskId : string)
        (now : Date) (goalData : GoalData.t) (goalUpdate : GoalUpdate.t)
        (newSubtask : NewSubtask.t) (subtaskUpdate : SubtaskUpdate.t) :
  consistent svc ->
  consistent (snd (createGoalInMemory userId goalData now svc))
  /\ consistent (snd (updateGoalInMemory userId goalId goalUpdate now svc))
  /\ consistent (snd (toggleSubtaskInMemory userId subtaskId now svc))
  /\ consistent (snd (addSubtaskInMemory userId goalId newSubtask now svc))
  /\ consistent (snd (updateSubtaskInMemory userId goalId subtaskId
                                            subtaskUpdate now svc))
  /\ consistent (snd (checkAndUpdateGoalCompletionInMemory userId goalId
                                                           now svc))
  /\ consistent (snd (deleteGoalInMemory userId goalId svc)).
Proof.
  intros Hc.
  split; [now apply createGoalInMemory_keeps|].
  split; [now apply updateGoalInMemory_keeps|].
  split; [now apply toggleSubtaskInMemory_keeps|].
  split; [now apply addSubtaskInMemory_keeps|].
  split; [now apply updateSubtaskInMemory_keeps|].
  split; [now apply checkAndUpdateGoalCompletionInMemory_keeps|].
  now apply deleteGoalInMemory_keeps.
Qed.

Lemma inMemory_methods_keep_shape_witness :
  consistent (snd (createGoalInMemory "user-2"
                     (GoalData.mk "Launch MVP" None HIGH ACTIVE None None
                        [] [] [SubtaskData.mk None "Design" None false])
                     1 demoService))
  /\ consistent (snd (deleteGoalInMemory "user-1" "goal-1" demoService)).
Proof.
  destruct (inMemory_methods_keep_shape demoService "user-2" "goal-1"
              "subtask-1" 1
              (GoalData.mk "Launch MVP" None HIGH ACTIVE None None
                 [] [] [SubtaskData.mk None "Design" None false])
              (GoalUpdate.mk None None None None None None None None None)
              (NewSubtask.mk "Test" None None None None None)
              (SubtaskUpdate.mk None None None) demo_consistent)
    as (Hcreate & _).
  destruct (inMemory_methods_keep_shape demoService "user-1" "goal-1"
              "subtask-1" 1
              (GoalData.mk "Launch MVP" None HIGH ACTIVE None None
                 [] [] [SubtaskData.mk None "Design" None false])
              (GoalUpdate.mk None None None None None None None None None)
              (NewSubtask.mk "Test" None None None None None)
              (SubtaskUpdate.mk None None None) demo_consistent)
    as (_ & _ & _ & _ & _ & _ & Hdelete).
  split; assumption.
Defined.

End ShapeKept.

(** ** Creating and listing goals *)

Module CreateAndList.

Import InMemory InMemoryFacts Runs Shape.

Lemma get_app_None {V} (k : string) (m m' : JsMap.t V) :
  JsMap.get k m = None -> JsMap.get k (m ++ m') = JsMap.get k m'.
Proof.
  induction m as [|[k0 v0] r IH]; simpl; [reflexivity|].
  destruct (String.eqb k0 k); [discriminate|exact IH].
Qed.

(** Under fresh identifiers the new subtasks go to the end of the map, in
    the order of the request. *)
Lemma setAll_fresh (goalId : string) (now : Date)
      (datas : list SubtaskData.t) :
  forall (counter : nat) (m : JsMap.t Subtask.t),
    (forall n, (counter <= n)%nat ->
               JsMap.get (numbered "subtask-" n) m = None) ->
    setAll (newSubtasks goalId now counter datas) m
    = m ++ List.map (fun subtask => (Subtask.id subtask, subtask))
                    (newSubtasks goalId now counter datas).
Proof.
  unfold setAll.
  induction datas as [|data r IH]; intros counter m Hfresh; simpl.
  - now rewrite app_nil_r.
  - rewrite JsMapMore.set_fresh by (apply Hfresh; lia).
    rewrite IH.
    + now rewrite <- app_assoc.
    + intros n Hn. rewrite get_app_None by (apply Hfresh; lia).
      cbn [JsMap.get Subtask.id].
      destruct (String.eqb _ _) eqn:E; [|reflexivity].
      apply String.eqb_eq, Identifiers.numbered_inj in E. lia.
Qed.

Lemma newSubtasks_goalId (goalId : string) (now : Date)
      (datas : list SubtaskData.t) :
  forall counter,
    filter (fun subtask => String.eqb (Subtask.goalId subtask) goalId)
           (newSubtasks goalId now counter datas)
    = newSubtasks goalId now counter datas.
Proof.
  induction datas as [|data r IH]; intros counter; simpl; [reflexivity|].
  now rewrite String.eqb_refl, IH.
Qed.

Lemma newSubtasks_other (goalId other : string) (now : Date)
      (datas : list SubtaskData.t) :
  other <> goalId ->
  forall counter,
    filter (fun subtask => String.eqb (Subtask.goalId subtask) other)
           (newSubtasks goalId now counter datas) = [].
Proof.
  intros Hne. induction datas as [|data r IH]; intros counter; simpl;
    [reflexivity|].
  destruct (String.eqb goalId other) eqn:E; [|apply IH].
  apply String.eqb_eq in E. congruence.
Qed.

Lemma newSubtasks_data (goalId : string) (now : Date)
      (datas : list SubtaskData.t) :
  forall counter,
    List.map (fun subtask => (Subtask.title subtask,
                              Subtask.description subtask,
                              Subtask.completed subtask))
             (newSubtasks goalId now counter datas)
    = List.map (fun data => (SubtaskData.title data,
                             SubtaskData.description data,
                             JsBool (SubtaskData.completed data))) datas.
Proof.
  induction datas as [|data r IH]; intros counter; simpl; [reflexivity|].
  now rewrite IH.
Qed.

Lemma getUserGoalsInMemory_none (userId : string) (svc : GoalService.t) :
  getUserGoalsInMemory userId Filters.none svc
  = (Return (goalsOf userId svc), svc).
Proof. reflexivity. Qed.

Lemma newSubtasks_fresh (goalId : string) (now : Date)
      (m : JsMap.t Subtask.t) (counter : nat)
      (datas : list SubtaskData.t) :
  (forall n, (counter <= n)%nat ->
             JsMap.get (numbered "subtask-" n) m = None) ->
  forall c, (counter <= c)%nat ->
    Forall (fun subtask =>
              Subtask.goalId subtask = goalId
              /\ JsMap.get (Subtask.id subtask) m = None)
           (newSubtasks goalId now c datas).
Proof.
  intros Hfresh.
  induction datas as [|d r IH]; intros c Hc; simpl; constructor.
  - split; [reflexivity|]. cbn [Subtask.id]. now apply Hfresh.
  - apply IH. lia.
Qed.

Lemma values_pairs (subtasks : list Subtask.t) :
  JsMap.values (List.map (fun subtask => (Subtask.id subtask, subtask))
                         subtasks) = subtasks.
Proof.
  unfold JsMap.values. rewrite map_map. simpl. apply map_id.
Qed.

Lemma In_values_inv {V} (v : V) (m : JsMap.t V) :
  In v (JsMap.values m) -> exists k, In (k, v) m.
Proof.
  unfold JsMap.values. intros H.
  apply in_map_iff in H as ([k v'] & Hv & Hin). simpl in Hv. subst v'.
  now exists k.
Qed.

Lemma filter_none {A} (f : A -> bool) (l : list A) :
  (forall a, In a l -> f a = false) -> filter f l = [].
Proof.
  induction l as [|a r IH]; simpl; intros H; [reflexivity|].
  rewrite (H a (or_introl eq_refl)). apply IH. intros b Hb. apply H.
  now right.
Qed.

(** The lists of goals after [createGoalInMemory]. *)
Lemma createGoalInMemory_goalsOf (userId : string) (data : GoalData.t)
      (now : Date) (svc : GoalService.t) :
  consistent svc ->
  let goal := newGoal userId data now (GoalService.goalIdCounter svc) in
  let subtasks :=
    newSubtasks (Goal.id goal) now (GoalService.subtaskIdCounter svc)
                (GoalData.subtasks data) in
  forall u,
    goalsOf u
      (GoalService.mk
         (GoalService.prisma svc) (GoalService.isDatabaseAvailable svc)
         (JsMap.set (Goal.id goal) goal (GoalService.inMemoryGoals svc))
         (setAll subtasks (GoalService.inMemorySubtasks svc))
         (S (GoalService.goalIdCounter svc))
         (GoalService.subtaskIdCounter svc
          + List.length (GoalData.subtasks data)))
    = goalsOf u svc
      ++ (if String.eqb userId u
          then [GoalResponse.mk goal subtasks [] []] else []).
Proof.
  intros (Hkg & Hks & Hwg & Hws & Hrefs & Hfg & Hfs) goal subtasks.
  assert (Hfresh : JsMap.get (Goal.id goal) (GoalService.inMemoryGoals svc)
                   = None) by (apply Hfg; apply Nat.le_refl).
  assert (Hold : forall g0,
            In g0 (JsMap.values (GoalService.inMemoryGoals svc)) ->
            Goal.id g0 <> Goal.id goal).
  { intros g0 Hin Heq. apply In_values_inv in Hin as [k Hin].
    pose proof (JsMapMore.wf_In_get _ _ _ Hwg Hin) as Hget.
    pose proof (JsMapMore.keyed_get _ _ _ _ Hkg Hget) as Hk.
    rewrite <- Hk, Heq, Hfresh in Hget. discriminate. }
  assert (Hnone : filter (fun subtask =>
                            String.eqb (Subtask.goalId subtask) (Goal.id goal))
                         (JsMap.values (GoalService.inMemorySubtasks svc))
                  = []).
  { apply filter_none. intros s Hin. apply String.eqb_neq. intros Heq.
    apply In_values_inv in Hin as [k Hin].
    apply (Hrefs _ _ Hin). now rewrite Heq. }
  intros u. unfold goalsOf, withSubtasks, subtasksOf.
  cbn [GoalService.inMemoryGoals GoalService.inMemorySubtasks].
  rewrite (JsMapMore.set_fresh _ _ _ Hfresh).
  subst subtasks. rewrite (setAll_fresh _ _ _ _ _ Hfs).
  unfold JsMap.values at 1 2. rewrite !map_app.
  fold (JsMap.values (GoalService.inMemoryGoals svc)).
  fold (JsMap.values (GoalService.inMemorySubtasks svc)).
  change (List.map snd
            (List.map (fun subtask => (Subtask.id subtask, subtask)) ?l))
    with (JsMap.values
            (List.map (fun subtask => (Subtask.id subtask, subtask)) l)).
  rewrite values_pairs. rewrite filter_app, map_app. f_equal.
  - apply map_ext_in. intros g0 Hin. apply filter_In in Hin as [Hin _].
    f_equal. rewrite filter_app.
    rewrite (newSubtasks_other (Goal.id goal) (Goal.id g0));
      [now rewrite app_nil_r|now apply Hold].
  - cbn [List.map snd filter]. change (Goal.ownerId goal) with userId.
    destruct (String.eqb userId u); [|reflexivity].
    cbn [List.map]. cbv beta. do 2 f_equal.
    rewrite filter_app, Hnone. cbn [app].
    apply newSubtasks_goalId.
Qed.

(** X2.  In a well-formed store [createGoalInMemory] returns a goal under an
    identifier that was not in use, with exactly the subtasks of the
    request, in their order, each with the title, description and
    completion of the request and each attached to the new goal.  The
    owner's list of goals afterwards is the list before followed by the
    returned goal, and the list of every other user is as before. *)
Theorem createGoal_appends (userId : string) (data : GoalData.t)
        (now : Date) (svc : GoalService.t) :
  consistent svc ->
  exists created svc',
    createGoalInMemory userId data now svc = (Return created, svc')
    /\ JsMap.get (Goal.id (GoalResponse.goal created))
                 (GoalService.inMemoryGoals svc) = None
    /\ Goal.ownerId (GoalResponse.goal created) = userId
    /\ List.map (fun subtask => (Subtask.title subtask,
                                 Subtask.description subtask,
                                 Subtask.completed subtask))
                (GoalResponse.subtasks created)
       = List.map (fun d => (SubtaskData.title d,
                             SubtaskData.description d,
                             JsBool (SubtaskData.completed d)))
                  (GoalData.subtasks data)
    /\ Forall (fun subtask =>
                 Subtask.goalId subtask = Goal.id (GoalResponse.goal created)
                 /\ JsMap.get (Subtask.id subtask)
                              (GoalService.inMemorySubtasks svc) = None)
              (GoalResponse.subtasks created)
    /\ goalsOf userId svc' = goalsOf userId svc ++ [created]
    /\ forall other, other <> userId ->
                     goalsOf other svc' = goalsOf other svc.
Proof.
  intros Hc.
  pose proof Hc as (Hkg & Hks & Hwg & Hws & Hrefs & Hfg & Hfs).
  rewrite createGoalInMemory_run. cbv zeta.
  set (goal := newGoal userId data now (GoalService.goalIdCounter svc)).
  set (subtasks := newSubtasks (Goal.id goal) now
                     (GoalService.subtaskIdCounter svc)
                     (GoalData.subtasks data)).
  assert (Hfresh : JsMap.get (Goal.id goal) (GoalService.inMemoryGoals svc)
                   = None) by (apply Hfg; apply Nat.le_refl).
  eexists; eexists. split; [reflexivity|].
  cbn [GoalResponse.goal GoalResponse.subtasks].
  split; [exact Hfresh|]. split; [reflexivity|].
  split; [apply newSubtasks_data|]. split.
  { apply (newSubtasks_fresh _ _ _ _ _ Hfs). apply Nat.le_refl. }
  pose proof (createGoalInMemory_goalsOf userId data now svc Hc) as Hlist.
  cbv zeta in Hlist. fold goal subtasks in Hlist.
  split.
  - rewrite Hlist. now rewrite String.eqb_refl.
  - intros other Hne. rewrite Hlist.
    destruct (String.eqb userId other) eqn:E; [|now rewrite app_nil_r].
    apply String.eqb_eq in E. congruence.
Qed.

Lemma createGoal_appends_witness :
  exists created svc',
    createGoalInMemory "user-2"
      (GoalData.mk "Launch MVP" None HIGH ACTIVE None None [] []
                   [SubtaskData.mk None "Design" None false;
                    SubtaskData.mk None "Build" None true])
      1 demoService = (Return created, svc')
    /\ Goal.id (GoalResponse.goal created) = "goal-3"
    /\ List.map Subtask.id (GoalResponse.subtasks created)
       = ["subtask-6"; "subtask-7"]
    /\ goalsOf "user-2" svc' = [created]
    /\ goalsOf "user-1" svc' = goalsOf "user-1" demoService.
Proof.
  destruct (createGoal_appends "user-2"
              (GoalData.mk "Launch MVP" None HIGH ACTIVE None None [] []
                           [SubtaskData.mk None "Design" None false;
                            SubtaskData.mk None "Build" None true])
              1 demoService ShapeKept.demo_consistent)
    as (created & svc' & Hrun & _ & _ & _ & _ & Hmine & Hothers).
  exists created, svc'. split; [exact Hrun|].
  rewrite createGoalInMemory_run in Hrun. cbv zeta in Hrun.
  injection Hrun as <- _.
  split; [reflexivity|]. split; [reflexivity|].
  split; [exact Hmine|]. apply Hothers. discriminate.
Defined.

End CreateAndList.

(** ** Listing goals *)

Module Listing.

Import InMemory InMemoryFacts.

Lemma filter_filter_and {A} (f g : A -> bool) (l : list A) :
  filter g (filter f l) = filter (fun x => f x && g x) l.
Proof.
  induction l as [|a r IH]; simpl; [reflexivity|].
  destruct (f a); simpl; [|exact IH].
  destruct (g a); now rewrite IH.
Qed.

(** X3.  [getUserGoalsInMemory] does not change the store.  It returns, in
    the order of insertion, exactly the stored goals that belong to the
    caller and pass the status and priority filters, each with exactly the
    stored subtasks that refer to it; the [projectId] filter has no
    effect. *)
Theorem getUserGoals_isolated (userId : string) (filters : Filters.t)
        (svc : GoalService.t) :
  getUserGoalsInMemory userId filters svc
  = (Return (List.map (withSubtasks svc)
               (filter (fun goal => String.eqb (Goal.ownerId goal) userId
                                    && passes filters goal)
                       (JsMap.values (GoalService.inMemoryGoals svc)))),
     svc)
  /\ (forall listed,
        In listed (List.map (withSubtasks svc)
                     (filter (fun goal => String.eqb (Goal.ownerId goal) userId
                                          && passes filters goal)
                             (JsMap.values (GoalService.inMemoryGoals svc))))
        -> Goal.ownerId (GoalResponse.goal listed) = userId
           /\ forall subtask,
                In subtask (GoalResponse.subtasks listed) <->
                In subtask (JsMap.values (GoalService.inMemorySubtasks svc))
                /\ Subtask.goalId subtask
                   = Goal.id (GoalResponse.goal listed))
  /\ forall projectId,
       getUserGoalsInMemory userId
         (Filters.mk (Filters.status filters) (Filters.priority filters)
                     projectId) svc
       = getUserGoalsInMemory userId filters svc.
Proof.
  split; [|split].
  - unfold getUserGoalsInMemory, bind, this, ret, passes. cbv beta iota.
    do 2 f_equal.
    destruct (Filters.status filters) as [st|],
             (Filters.priority filters) as [p|];
      rewrite ?filter_filter_and; f_equal; apply filter_ext; intros g;
      destruct (String.eqb (Goal.ownerId g) userId); simpl;
      try reflexivity; now rewrite ?andb_true_r.
  - intros listed Hin. apply in_map_iff in Hin as (goal & <- & Hin).
    apply filter_In in Hin as [_ Hpass].
    apply andb_true_iff in Hpass as [Hown _]. apply String.eqb_eq in Hown.
    split; [exact Hown|]. intros subtask. simpl. unfold subtasksOf.
    rewrite filter_In, String.eqb_eq. tauto.
  - intros projectId. reflexivity.
Qed.

End Listing.

(** ** A request that fails changes nothing *)

Module Atomic.

Import InMemory InMemoryFacts Runs.

Lemma check_returns (userId goalId : string) (now : Date)
      (svc : GoalService.t) :
  notOwned (JsMap.get goalId (GoalService.inMemoryGoals svc)) userId = false ->
  fst (checkAndUpdateGoalCompletionInMemory userId goalId now svc)
  = Return tt.
Proof.
  intros Hown. rewrite checkAndUpdateGoalCompletionInMemory_run.
  destruct (JsMap.get goalId _) as [goal|]; [|discriminate].
  simpl in Hown. now rewrite Hown.
Qed.

Lemma updateSubtask_handler_run (userId goalId subtaskId : string)
      (body : SubtaskUpdate.t) (now : Date) (svc : GoalService.t) :
  GoalService.isDatabaseAvailable svc = false ->
  GoalController.updateSubtask userId goalId subtaskId body now svc =
  match updateSubtaskInMemory userId goalId subtaskId body now svc with
  | (Return subtask, svc1) =>
      match
        match SubtaskUpdate.completed body with
        | Some _ =>
            checkAndUpdateGoalCompletionInMemory userId goalId now svc1
        | None => (Return tt, svc1)
        end
      with
      | (Return _, svc2) =>
          (mkResponse 200 (Success (Some "Subtask updated successfully")
                                   subtask), svc2)
      | (Throw (Error m), svc2) => (mkResponse 400 (Failure m), svc2)
      end
  | (Throw (Error m), svc1) => (mkResponse 400 (Failure m), svc1)
  end.
Proof.
  intros Hdb. unfold GoalController.updateSubtask, respond.
  unfold bind, ret.
  rewrite (Toggle.updateSubtask_inMemory _ _ _ _ _ _ Hdb).
  rewrite updateSubtaskInMemory_run.
  destruct (JsMap.get subtaskId _) as [subtask|]; [|reflexivity].
  destruct (negb _); [reflexivity|].
  destruct (notOwned _ _); [reflexivity|].
  destruct (SubtaskUpdate.completed body); [|reflexivity].
  set (svc1 := GoalService.set_inMemorySubtasks _ svc).
  rewrite (Toggle.checkAndUpdateGoalCompletion_inMemory _ _ _ svc1 Hdb).
  destruct (checkAndUpdateGoalCompletionInMemory _ _ _ _) as [[u|[m]] svc2];
    reflexivity.
Qed.

(** X4.  On the in-memory store, a request to create, update or delete a
    goal or to add, update or toggle a subtask that is answered with a
    failure leaves the service exactly as it was. *)
Theorem failed_request_changes_nothing
        (zodRequired : string) (zodInvalidEnum : string -> string)
        (toISOString : string -> option string)
        (createGoalInDatabase :
           string -> GoalData.t -> Date -> M GoalResponse.t)
        (updateGoalInDatabase :
           string -> string -> GoalUpdate.t -> Date -> M GoalResponse.t)
        (deleteGoalInDatabase : string -> string -> M string)
        (userId goalId subtaskId newId : string) (now : Date)
        (goalBody : GoalBody.t) (subtaskBody : AddSubtaskBody.t)
        (subtaskUpdate : SubtaskUpdate.t) (svc : GoalService.t) :
  GoalService.isDatabaseAvailable svc = false ->
  unchangedOnFailure svc
    (createGoalHandler zodRequired zodInvalidEnum toISOString
               createGoalInDatabase userId goalBody now svc)
  /\ unchangedOnFailure svc
       (updateGoalHandler zodRequired zodInvalidEnum toISOString
                  updateGoalInDatabase userId goalId goalBody now svc)
  /\ unchangedOnFailure svc
       (deleteGoalHandler deleteGoalInDatabase userId goalId svc)
  /\ unchangedOnFailure svc
       (GoalController.addSubtask userId goalId subtaskBody newId
                                          now svc)
  /\ unchangedOnFailure svc
       (GoalController.updateSubtask userId goalId subtaskId
                                             subtaskUpdate now svc)
  /\ unchangedOnFailure svc
       (GoalController.toggleSubtask userId subtaskId now svc).
Proof.
  intros Hdb. unfold unchangedOnFailure.
  split; [|split; [|split; [|split; [|split]]]].
  - unfold createGoalHandler, createGoal, respond, bind, validated, this.
    destruct (goalSchema _ _ _ goalBody) as [data|first rest|[m]];
      unfold ret, throw; cbv beta iota; try reflexivity.
    rewrite Hdb. change (negb false) with true. cbv beta iota.
    rewrite createGoalInMemory_run. cbv zeta. discriminate.
  - unfold updateGoalHandler, updateGoal, respond, bind, validated, this.
    destruct (updateGoalSchema _ _ _ goalBody) as [data|first rest|[m]];
      unfold ret, throw; cbv beta iota; try reflexivity.
    rewrite Hdb. change (negb false) with true. cbv beta iota.
    rewrite updateGoalInMemory_run.
    destruct (JsMap.get goalId _) as [goal|]; [|reflexivity].
    destruct (negb _); [reflexivity|discriminate].
  - unfold deleteGoalHandler, deleteGoal, bind, this. cbv beta iota.
    rewrite Hdb. change (negb false) with true. cbv beta iota.
    rewrite Delete.deleteGoalInMemory_run.
    destruct (notOwned _ _); [reflexivity|discriminate].
  - unfold GoalController.addSubtask.
    destruct (GoalController.falsy _); [reflexivity|].
    unfold respond, Service.addSubtask, bind, this. cbv beta iota.
    rewrite Hdb. change (negb false) with true. cbv beta iota.
    rewrite addSubtaskInMemory_run.
    destruct (notOwned _ _); [reflexivity|discriminate].
  - rewrite (updateSubtask_handler_run _ _ _ _ _ _ Hdb).
    rewrite updateSubtaskInMemory_run.
    destruct (JsMap.get subtaskId _) as [subtask|]; [|reflexivity].
    destruct (negb _); [reflexivity|].
    destruct (notOwned _ _) eqn:Hown; [reflexivity|].
    destruct (SubtaskUpdate.completed subtaskUpdate); [|discriminate].
    set (svc1 := GoalService.set_inMemorySubtasks _ svc).
    pose proof (check_returns userId goalId now svc1 Hown) as Hret.
    destruct (checkAndUpdateGoalCompletionInMemory _ _ _ svc1)
      as [[u|e] svc2]; [discriminate|].
    simpl in Hret. discriminate.
  - rewrite (Toggle.toggleSubtask_handler_run _ _ _ _ Hdb).
    rewrite toggleSubtaskInMemory_run.
    destruct (JsMap.get subtaskId _) as [subtask|]; [|reflexivity].
    destruct (notOwned _ _) eqn:Hown; [reflexivity|].
    set (svc1 := GoalService.set_inMemorySubtasks _ svc).
    pose proof (check_returns userId (Subtask.goalId subtask) now svc1 Hown)
      as Hret.
    change (Subtask.goalId (toggled now subtask))
      with (Subtask.goalId subtask).
    destruct (checkAndUpdateGoalCompletionInMemory _ _ _ svc1)
      as [[u|e] svc2]; [discriminate|].
    simpl in Hret. discriminate.
Qed.

Lemma failed_request_changes_nothing_witness :
  isFailure (fst (GoalController.toggleSubtask "user-2" "subtask-1" 1
                                               demoService)) = true
  /\ snd (GoalController.toggleSubtask "user-2" "subtask-1" 1 demoService)
     = demoService.
Proof.
  split; [reflexivity|].
  apply (failed_request_changes_nothing
           sampleRequired sampleInvalidEnum sampleToISOString
           (fun _ _ _ => noDatabase) (fun _ _ _ _ => noDatabase)
           (fun _ _ => noDatabase)
           "user-2" "goal-1" "subtask-1" "" 1 priorityOnlyBody
           (AddSubtaskBody.mk None None None None None None None)
           (SubtaskUpdate.mk None None None) demoService eq_refl).
  reflexivity.
Defined.

End Atomic.

(** ** More about the completion check *)

Module Recompute.

Import InMemory InMemoryFacts.

Lemma recomputedStatus_idempotent (a : bool) (st : Status) :
  recomputedStatus a (recomputedStatus a st) = recomputedStatus a st.
Proof. destruct a, st; reflexivity. Qed.

(** X5.  The completion check settles at once: a second check right after
    a first one, whatever the clock shows, leaves the store as the first one
    left it.  A check on a goal without subtasks changes nothing at all, so
    the status of such a goal is never derived. *)
Theorem recompute_settles (userId goalId : string) (now later : Date)
        (svc : GoalService.t) :
  let once := checkAndUpdateGoalCompletionInMemory userId goalId now svc in
  checkAndUpdateGoalCompletionInMemory userId goalId later (snd once)
  = (fst once, snd once)
  /\ (subtasksOf goalId svc = [] -> snd once = svc).
Proof.
  cbv zeta. rewrite !checkAndUpdateGoalCompletionInMemory_run.
  destruct (JsMap.get goalId (GoalService.inMemoryGoals svc))
    as [goal|] eqn:Hget.
  2:{ cbn [fst snd]. rewrite Hget. split; reflexivity. }
  destruct (negb (String.eqb (Goal.ownerId goal) userId)) eqn:Hown.
  { cbn [fst snd]. rewrite Hget, Hown. split; reflexivity. }
  cbn [fst snd].
  destruct (0 <? List.length (subtasksOf goalId svc))%nat eqn:Hlen.
  2:{ rewrite Hget, Hown, Hlen. split; reflexivity. }
  split.
  2:{ intros Hnil. rewrite Hnil in Hlen. discriminate. }
  pose proof (recompute_status (allCompleted goalId svc) now goal) as Hst.
  pose proof (recompute_None (allCompleted goalId svc) later goal) as Hsame.
  destruct (recompute (allCompleted goalId svc) now goal) as [goal'|] eqn:Hre.
  - cbn [GoalService.inMemoryGoals GoalService.set_inMemoryGoals].
    rewrite JsMapFacts.get_set_same.
    assert (Hown' : Goal.ownerId goal' = Goal.ownerId goal).
    { unfold recompute in Hre.
      destruct (_ && _) in Hre; [now injection Hre as <-|].
      destruct (_ && _) in Hre; [now injection Hre as <-|discriminate]. }
    rewrite Hown', Hown.
    change (subtasksOf goalId (GoalService.set_inMemoryGoals _ svc))
      with (subtasksOf goalId svc).
    change (allCompleted goalId (GoalService.set_inMemoryGoals _ svc))
      with (allCompleted goalId svc).
    rewrite Hlen.
    assert (Hnone : recompute (allCompleted goalId svc) later goal' = None).
    { apply recompute_None. rewrite Hst.
      apply recomputedStatus_idempotent. }
    now rewrite Hnone.
  - rewrite Hget, Hown, Hlen.
    assert (Hnone : recompute (allCompleted goalId svc) later goal = None).
    { apply Hsame. now apply (recompute_None _ now). }
    now rewrite Hnone.
Qed.

Lemma recompute_settles_witness :
  let svc :=
    snd (createGoalInMemory "user-1"
           (GoalData.mk "Write report" None LOW COMPLETED None None [] [] [])
           1 demoService) in
  snd (checkAndUpdateGoalCompletionInMemory "user-1" "goal-3" 2 svc) = svc.
Proof.
  cbv zeta.
  apply (recompute_settles "user-1" "goal-3" 2 3). reflexivity.
Defined.

End Recompute.

(** ** What a request leaves alone *)

Module Frames.

Import InMemory InMemoryFacts Runs.

(** X6.  A successful toggle request writes to one subtask and to its goal
    and to nothing else: the subtask keeps every field but [completed],
    which is flipped, and [updatedAt]; the goal keeps every field but
    [status] and [updatedAt]; every other subtask and goal, the order of
    both maps and the two counters are as before. *)
Theorem toggle_touches_one_subtask_and_its_goal
        (userId subtaskId : string) (now : Date) (svc : GoalService.t)
        (subtask : Subtask.t) (goal : Goal.t) :
  GoalService.isDatabaseAvailable svc = false ->
  JsMap.get subtaskId (GoalService.inMemorySubtasks svc) = Some subtask ->
  JsMap.get (Subtask.goalId subtask) (GoalService.inMemoryGoals svc)
    = Some goal ->
  Goal.ownerId goal = userId ->
  let svc' := snd (GoalController.toggleSubtask userId subtaskId now svc) in
  JsMap.get subtaskId (GoalService.inMemorySubtasks svc')
  = Some (Subtask.set_updatedAt now
            (Subtask.set_completed
               (JsBool (negb (truthy (Subtask.completed subtask))))
               subtask))
  /\ (exists status updatedAt,
        JsMap.get (Subtask.goalId subtask) (GoalService.inMemoryGoals svc')
        = Some (Goal.set_updatedAt updatedAt (Goal.set_status status goal)))
  /\ (forall k, k <> subtaskId ->
        JsMap.get k (GoalService.inMemorySubtasks svc')
        = JsMap.get k (GoalService.inMemorySubtasks svc))
  /\ (forall k, k <> Subtask.goalId subtask ->
        JsMap.get k (GoalService.inMemoryGoals svc')
        = JsMap.get k (GoalService.inMemoryGoals svc))
  /\ JsMap.keys (GoalService.inMemorySubtasks svc')
     = JsMap.keys (GoalService.inMemorySubtasks svc)
  /\ JsMap.keys (GoalService.inMemoryGoals svc')
     = JsMap.keys (GoalService.inMemoryGoals svc)
  /\ GoalService.goalIdCounter svc' = GoalService.goalIdCounter svc
  /\ GoalService.subtaskIdCounter svc' = GoalService.subtaskIdCounter svc.
Proof.
  intros Hdb Hsub Hgoal Hown svc'. subst svc'.
  rewrite (Toggle.toggleSubtask_handler_run _ _ _ _ Hdb).
  rewrite toggleSubtaskInMemory_run, Hsub, Hgoal. simpl notOwned.
  rewrite <- Hown, String.eqb_refl. cbn [negb].
  rewrite checkAndUpdateGoalCompletionInMemory_run.
  cbn [GoalService.inMemoryGoals GoalService.set_inMemorySubtasks].
  change (Subtask.goalId (toggled now subtask))
    with (Subtask.goalId subtask).
  rewrite Hgoal, String.eqb_refl. cbn [negb snd].
  set (svc1 := GoalService.set_inMemorySubtasks _ svc).
  assert (Hgoal_eq : goal = Goal.set_updatedAt (Goal.updatedAt goal)
                              (Goal.set_status (Goal.status goal) goal))
    by now destruct goal.
  assert (Hcases :
    (if (0 <? List.length (subtasksOf (Subtask.goalId subtask) svc1))%nat
     then match recompute (allCompleted (Subtask.goalId subtask) svc1)
                          now goal with
          | Some goal' =>
              GoalService.set_inMemoryGoals
                (JsMap.set (Subtask.goalId subtask) goal'
                           (GoalService.inMemoryGoals svc)) svc1
          | None => svc1
          end
     else svc1) = svc1
    \/ exists status,
         (if (0 <? List.length (subtasksOf (Subtask.goalId subtask) svc1))%nat
          then match recompute (allCompleted (Subtask.goalId subtask) svc1)
                               now goal with
               | Some goal' =>
                   GoalService.set_inMemoryGoals
                     (JsMap.set (Subtask.goalId subtask) goal'
                                (GoalService.inMemoryGoals svc)) svc1
               | None => svc1
               end
          else svc1)
         = GoalService.set_inMemoryGoals
             (JsMap.set (Subtask.goalId subtask)
                        (Goal.set_updatedAt now (Goal.set_status status goal))
                        (GoalService.inMemoryGoals svc)) svc1).
  { destruct (0 <? _)%nat; [|now left].
    unfold recompute.
    destruct (_ && _); [right; now exists COMPLETED|].
    destruct (_ && _); [right; now exists ACTIVE|now left]. }
  destruct Hcases as [-> | [status ->]].
  - subst svc1. cbn [GoalService.inMemorySubtasks GoalService.inMemoryGoals
                     GoalService.set_inMemorySubtasks
                     GoalService.goalIdCounter GoalService.subtaskIdCounter].
    split; [apply JsMapFacts.get_set_same|]. split.
    { exists (Goal.status goal), (Goal.updatedAt goal).
      now rewrite <- Hgoal_eq. }
    split; [intros k Hk; apply JsMapFacts.get_set_other; congruence|].
    split; [reflexivity|].
    split; [apply (JsMapMore.keys_set_present _ _ _ _ Hsub)|].
    repeat split.
  - subst svc1. cbn [GoalService.inMemorySubtasks GoalService.inMemoryGoals
                     GoalService.set_inMemorySubtasks
                     GoalService.set_inMemoryGoals
                     GoalService.goalIdCounter GoalService.subtaskIdCounter].
    split; [apply JsMapFacts.get_set_same|]. split.
    { exists status, now. apply JsMapFacts.get_set_same. }
    split; [intros k Hk; apply JsMapFacts.get_set_other; congruence|].
    split; [intros k Hk; apply JsMapFacts.get_set_other; congruence|].
    split; [apply (JsMapMore.keys_set_present _ _ _ _ Hsub)|].
    split; [apply (JsMapMore.keys_set_present _ _ _ _ Hgoal)|].
    split; reflexivity.
Qed.

Lemma toggle_touches_one_subtask_and_its_goal_witness :
  let svc' := snd (GoalController.toggleSubtask "user-1" "subtask-2" 7
                                                demoService) in
  (forall k, k <> "subtask-2" ->
     JsMap.get k (GoalService.inMemorySubtasks svc')
     = JsMap.get k (GoalService.inMemorySubtasks demoService))
  /\ (forall k, k <> "goal-1" ->
        JsMap.get k (GoalService.inMemoryGoals svc')
        = JsMap.get k (GoalService.inMemoryGoals demoService)).
Proof.
  cbv zeta.
  destruct (toggle_touches_one_subtask_and_its_goal
              "user-1" "subtask-2" 7 demoService
              (Subtask.mk "subtask-2" "QA test checkout flow" None
                          (JsBool false)
                          None None None None "goal-1" 0 0)
              (Goal.mk "goal-1" "Launch Product MVP"
                 (Some "Complete and launch the minimum viable product")
                 HIGH ACTIVE (Some "2025-10-30T00:00:00.000Z") None "user-1"
                 0 0 None None None)
              eq_refl eq_refl eq_refl eq_refl)
    as (_ & _ & Hsubs & Hgoals & _).
  split; assumption.
Defined.

End Frames.

(** ** Adding a subtask to a goal *)

Module AddFrame.

Import InMemory Runs.

Lemma values_app {V} (m m' : JsMap.t V) :
  JsMap.values (m ++ m') = JsMap.values m ++ JsMap.values m'.
Proof. unfold JsMap.values. apply map_app. Qed.

Lemma addSubtask_inMemory (userId goalId : string) (data : NewSubtask.t)
      (newId : string) (now : Date) (svc : GoalService.t) :
  GoalService.isDatabaseAvailable svc = false ->
  Service.addSubtask userId goalId data newId now svc
  = addSubtaskInMemory userId goalId data now svc.
Proof.
  intros Hdb. unfold Service.addSubtask, bind, this. now rewrite Hdb.
Qed.

Lemma addSubtask_handler_run (userId goalId : string)
      (body : AddSubtaskBody.t) (newId : string) (now : Date)
      (svc : GoalService.t) (goal : Goal.t) :
  GoalService.isDatabaseAvailable svc = false ->
  JsMap.get goalId (GoalService.inMemoryGoals svc) = Some goal ->
  Goal.ownerId goal = userId ->
  GoalController.falsy (AddSubtaskBody.title body) = false ->
  let new :=
    addedSubtask goalId
      (NewSubtask.mk (orKeep (AddSubtaskBody.title body) "")
                     (AddSubtaskBody.description body) None None None None)
      now (GoalService.subtaskIdCounter svc) in
  GoalController.addSubtask userId goalId body newId now svc
  = (mkResponse 201 (Success (Some "Subtask added successfully") new),
     GoalService.mk
       (GoalService.prisma svc) (GoalService.isDatabaseAvailable svc)
       (GoalService.inMemoryGoals svc)
       (JsMap.set (Subtask.id new) new (GoalService.inMemorySubtasks svc))
       (GoalService.goalIdCounter svc)
       (S (GoalService.subtaskIdCounter svc))).
Proof.
  intros Hdb Hgoal Hown Htitle new.
  unfold GoalController.addSubtask. rewrite Htitle.
  unfold respond. rewrite (addSubtask_inMemory _ _ _ _ _ _ Hdb).
  rewrite addSubtaskInMemory_run, Hgoal. unfold notOwned.
  rewrite Hown, String.eqb_refl. reflexivity.
Qed.

(** X7.  On a well-formed in-memory store, an Add Subtask request with a
    title for a goal of the caller answers 201 with a new, incomplete
    subtask under an identifier that was not in use, puts it last in the
    list of the goal's subtasks, and leaves the subtasks of every other goal
    and the whole map of goals as they were.  The goal's status is not
    recomputed: a goal that was COMPLETED stays COMPLETED although not all
    of its subtasks are completed any more. *)
Theorem addSubtask_appends_and_keeps_status
        (userId goalId : string) (body : AddSubtaskBody.t) (newId : string)
        (now : Date) (svc : GoalService.t) (goal : Goal.t) :
  consistent svc ->
  GoalService.isDatabaseAvailable svc = false ->
  JsMap.get goalId (GoalService.inMemoryGoals svc) = Some goal ->
  Goal.ownerId goal = userId ->
  GoalController.falsy (AddSubtaskBody.title body) = false ->
  let result := GoalController.addSubtask userId goalId body newId now svc in
  exists new,
    fst result
    = mkResponse 201 (Success (Some "Subtask added successfully") new)
    /\ Subtask.completed new = JsBool false
    /\ Subtask.goalId new = goalId
    /\ JsMap.get (Subtask.id new) (GoalService.inMemorySubtasks svc) = None
    /\ subtasksOf goalId (snd result) = subtasksOf goalId svc ++ [new]
    /\ (forall other, other <> goalId ->
          subtasksOf other (snd result) = subtasksOf other svc)
    /\ GoalService.inMemoryGoals (snd result) = GoalService.inMemoryGoals svc
    /\ allCompleted goalId (snd result) = false.
Proof.
  intros Hcons Hdb Hgoal Hown Htitle result. subst result.
  rewrite (addSubtask_handler_run _ _ _ _ _ _ _ Hdb Hgoal Hown Htitle).
  cbv zeta. cbn [fst snd].
  set (new := addedSubtask goalId _ now _).
  destruct Hcons as (_ & _ & _ & _ & _ & _ & Hfresh).
  pose proof (Hfresh (GoalService.subtaskIdCounter svc) (le_n _)) as Hnone.
  change (numbered "subtask-" (GoalService.subtaskIdCounter svc))
    with (Subtask.id new) in Hnone.
  assert (Hof : forall g,
            subtasksOf g
              (GoalService.mk
                 (GoalService.prisma svc)
                 (GoalService.isDatabaseAvailable svc)
                 (GoalService.inMemoryGoals svc)
                 (JsMap.set (Subtask.id new) new
                            (GoalService.inMemorySubtasks svc))
                 (GoalService.goalIdCounter svc)
                 (S (GoalService.subtaskIdCounter svc)))
            = subtasksOf g svc
              ++ (if String.eqb goalId g then [new] else [])).
  { intros g. unfold subtasksOf. cbn [GoalService.inMemorySubtasks].
    rewrite (JsMapMore.set_fresh _ _ _ Hnone), values_app, filter_app.
    reflexivity. }
  exists new.
  split; [reflexivity|]. split; [reflexivity|]. split; [reflexivity|].
  split; [exact Hnone|].
  split; [now rewrite Hof, String.eqb_refl|].
  split.
  { intros other Hother. rewrite Hof.
    destruct (String.eqb goalId other) eqn:E.
    - apply String.eqb_eq in E. congruence.
    - apply app_nil_r. }
  split; [reflexivity|].
  unfold allCompleted. rewrite Hof, String.eqb_refl, forallb_app.
  cbn [forallb]. change (Subtask.completed new) with (JsBool false).
  apply andb_false_r.
Qed.

Lemma addSubtask_appends_and_keeps_status_witness :
  let result :=
    GoalController.addSubtask "user-1" "goal-1"
      (AddSubtaskBody.mk (Some "Proofread") None (Some (JsBool true)) None
         None
         None None) "ignored" 4
      demoService in
  exists new,
    fst result
    = mkResponse 201 (Success (Some "Subtask added successfully") new)
    /\ Subtask.completed new = JsBool false
    /\ Subtask.goalId new = "goal-1"
    /\ JsMap.get (Subtask.id new) (GoalService.inMemorySubtasks demoService)
       = None
    /\ subtasksOf "goal-1" (snd result)
       = subtasksOf "goal-1" demoService ++ [new]
    /\ (forall other, other <> "goal-1" ->
          subtasksOf other (snd result) = subtasksOf other demoService)
    /\ GoalService.inMemoryGoals (snd result)
       = GoalService.inMemoryGoals demoService
    /\ allCompleted "goal-1" (snd result) = false.
Proof.
  exact (addSubtask_appends_and_keeps_status
           "user-1" "goal-1"
           (AddSubtaskBody.mk (Some "Proofread") None (Some (JsBool true)) None
         None
         None None)
           "ignored" 4 demoService
           (Goal.mk "goal-1" "Launch Product MVP"
              (Some "Complete and launch the minimum viable product")
              HIGH ACTIVE (Some "2025-10-30T00:00:00.000Z") None "user-1"
              0 0 None None None)
           ShapeKept.demo_consistent eq_refl eq_refl eq_refl eq_refl).
Defined.

End AddFrame.

(** ** Deleting a goal *)

Module DeleteFrame.

Import InMemory.

Lemma delete_fold_filter (goalId : string)
      (snapshot : list (string * Subtask.t)) :
  forall m : JsMap.t Subtask.t,
    deleteSubtasksOf goalId snapshot m
    = filter (fun entry =>
                negb (existsb
                        (fun s => String.eqb (Subtask.goalId (snd s)) goalId
                                  && String.eqb (fst s) (fst entry))
                        snapshot)) m.
Proof.
  unfold deleteSubtasksOf.
  induction snapshot as [|s r IH]; intros m; cbn [fold_left existsb].
  - symmetry. apply forallb_filter_id, forallb_forall. reflexivity.
  - rewrite IH. destruct (String.eqb (Subtask.goalId (snd s)) goalId).
    + unfold JsMap.delete. rewrite Listing.filter_filter_and.
      apply filter_ext. intros entry. cbn [andb].
      rewrite negb_orb, (String.eqb_sym (fst s)). reflexivity.
    + reflexivity.
Qed.

Lemma wf_In_same {V} (m : JsMap.t V) (k : string) (v v' : V) :
  JsMap.wf m -> In (k, v) m -> In (k, v') m -> v = v'.
Proof.
  intros Hwf H H'.
  apply (JsMapMore.wf_In_get _ _ _ Hwf) in H.
  apply (JsMapMore.wf_In_get _ _ _ Hwf) in H'. congruence.
Qed.

(** On a map with distinct keys, the [forEach] of [deleteGoalInMemory]
    removes the entries whose subtask belongs to the goal, and keeps the
    others in their order. *)
Lemma deleteSubtasksOf_filter (goalId : string) (m : JsMap.t Subtask.t) :
  JsMap.wf m ->
  deleteSubtasksOf goalId m m
  = filter (fun entry =>
              negb (String.eqb (Subtask.goalId (snd entry)) goalId)) m.
Proof.
  intros Hwf. rewrite delete_fold_filter.
  apply filter_ext_in. intros [k v] Hin. f_equal. cbn [fst snd].
  destruct (String.eqb (Subtask.goalId v) goalId) eqn:E.
  - apply existsb_exists. exists (k, v). cbn [fst snd].
    now rewrite E, String.eqb_refl.
  - destruct (existsb _ m) eqn:Ex; [|reflexivity].
    apply existsb_exists in Ex as [[k' v'] [Hin' Hs]]. cbn [fst snd] in Hs.
    apply andb_true_iff in Hs as [Hg Hk]. apply String.eqb_eq in Hk.
    subst k'. rewrite (wf_In_same _ _ _ _ Hwf Hin Hin') in E. congruence.
Qed.

Lemma filter_map_snd {V} (p : V -> bool) (m : JsMap.t V) :
  filter p (JsMap.values m)
  = JsMap.values (filter (fun entry => p (snd entry)) m).
Proof.
  unfold JsMap.values. induction m as [|[k v] r IH]; cbn [List.map filter snd].
  - reflexivity.
  - destruct (p v); cbn [List.map snd]; now rewrite IH.
Qed.

(** The subtasks of the other goals stay, in their order. *)
Lemma filter_deleteSubtasksOf_other (goalId other : string)
      (m : JsMap.t Subtask.t) :
  JsMap.wf m ->
  other <> goalId ->
  filter (fun subtask => String.eqb (Subtask.goalId subtask) other)
         (JsMap.values (deleteSubtasksOf goalId m m))
  = filter (fun subtask => String.eqb (Subtask.goalId subtask) other)
           (JsMap.values m).
Proof.
  intros Hwf Hother.
  rewrite (deleteSubtasksOf_filter _ _ Hwf).
  rewrite !filter_map_snd. f_equal.
  rewrite Listing.filter_filter_and. apply filter_ext.
  intros [k v]. cbn [snd].
  destruct (String.eqb (Subtask.goalId v) other) eqn:E;
    [|apply andb_false_r].
  apply String.eqb_eq in E. rewrite E.
  apply String.eqb_neq in Hother. now rewrite Hother.
Qed.

Lemma filter_comm {A} (p q : A -> bool) (l : list A) :
  filter p (filter q l) = filter q (filter p l).
Proof.
  rewrite !Listing.filter_filter_and. apply filter_ext.
  intros a. apply andb_comm.
Qed.

(** The lists of goals after the deletion of a goal. *)
Lemma deleted_goalsOf (svc : GoalService.t) (goalId user : string) :
  consistent svc ->
  goalsOf user
    (GoalService.mk
       (GoalService.prisma svc) (GoalService.isDatabaseAvailable svc)
       (JsMap.delete goalId (GoalService.inMemoryGoals svc))
       (deleteSubtasksOf goalId (GoalService.inMemorySubtasks svc)
                         (GoalService.inMemorySubtasks svc))
       (GoalService.goalIdCounter svc)
       (GoalService.subtaskIdCounter svc))
  = filter (fun listed =>
              negb (String.eqb (Goal.id (GoalResponse.goal listed)) goalId))
           (goalsOf user svc).
Proof.
  intros (Hkg & _ & _ & Hwfs & _).
  unfold goalsOf. cbn [GoalService.inMemoryGoals].
  assert (Hvalues :
    JsMap.values (JsMap.delete goalId (GoalService.inMemoryGoals svc))
    = filter (fun g => negb (String.eqb (Goal.id g) goalId))
             (JsMap.values (GoalService.inMemoryGoals svc))).
  { rewrite filter_map_snd. unfold JsMap.delete. f_equal.
    apply filter_ext_in. intros [k v] Hin. cbn [fst snd].
    unfold keyed in Hkg. rewrite Forall_forall in Hkg.
    pose proof (Hkg _ Hin) as Hk. cbn [fst snd] in Hk.
    now rewrite Hk. }
  rewrite Hvalues, filter_comm.
  generalize (filter (fun goal0 => String.eqb (Goal.ownerId goal0) user)
                     (JsMap.values (GoalService.inMemoryGoals svc))).
  intros l. induction l as [|g r IH]; [reflexivity|].
  cbn [filter List.map]. unfold withSubtasks at 2.
  cbn [GoalResponse.goal].
  destruct (String.eqb (Goal.id g) goalId) eqn:E; cbn [negb].
  - exact IH.
  - cbn [List.map]. rewrite IH. f_equal.
    unfold withSubtasks. f_equal. unfold subtasksOf.
    cbn [GoalService.inMemorySubtasks].
    apply filter_deleteSubtasksOf_other; [exact Hwfs|].
    now apply String.eqb_neq.
Qed.

(** X8.  On a well-formed in-memory store, deleting a goal of the caller
    removes that goal and its subtasks and nothing else: the subtasks of
    every other goal are as before, each user's list of goals is the former
    list without the deleted goal, in the same order and with the same
    subtasks, and the two counters keep their values, so that the
    identifiers of the deleted goal and of its subtasks are not handed out
    again. *)
Theorem deleteGoal_removes_nothing_else
        (userId goalId : string) (svc : GoalService.t) (goal : Goal.t) :
  consistent svc ->
  JsMap.get goalId (GoalService.inMemoryGoals svc) = Some goal ->
  Goal.ownerId goal = userId ->
  let svc' := snd (deleteGoalInMemory userId goalId svc) in
  (forall other, other <> goalId ->
     subtasksOf other svc' = subtasksOf other svc)
  /\ (forall other, other <> goalId ->
        JsMap.get other (GoalService.inMemoryGoals svc')
        = JsMap.get other (GoalService.inMemoryGoals svc))
  /\ (forall user,
        goalsOf user svc'
        = filter (fun listed =>
                    negb (String.eqb (Goal.id (GoalResponse.goal listed))
                                     goalId))
                 (goalsOf user svc))
  /\ GoalService.goalIdCounter svc' = GoalService.goalIdCounter svc
  /\ GoalService.subtaskIdCounter svc' = GoalService.subtaskIdCounter svc
  /\ (forall n, (GoalService.goalIdCounter svc' <= n)%nat ->
                numbered "goal-" n <> goalId).
Proof.
  intros Hcons Hgoal Hown svc'. subst svc'.
  rewrite Delete.deleteGoalInMemory_run, Hgoal. unfold notOwned.
  rewrite Hown, String.eqb_refl. cbn [negb snd].
  pose proof Hcons as (Hkg & _ & _ & Hwfs & _ & Hfresh & _).
  assert (Hof : forall other, other <> goalId ->
            subtasksOf other
              (GoalService.mk
                 (GoalService.prisma svc)
                 (GoalService.isDatabaseAvailable svc)
                 (JsMap.delete goalId (GoalService.inMemoryGoals svc))
                 (deleteSubtasksOf goalId (GoalService.inMemorySubtasks svc)
                                   (GoalService.inMemorySubtasks svc))
                 (GoalService.goalIdCounter svc)
                 (GoalService.subtaskIdCounter svc))
            = subtasksOf other svc).
  { intros other Hother. unfold subtasksOf.
    cbn [GoalService.inMemorySubtasks].
    now apply filter_deleteSubtasksOf_other. }
  split; [exact Hof|].
  split.
  { intros other Hother. cbn [GoalService.inMemoryGoals].
    apply JsMapFacts.get_delete_other. congruence. }
  split; [intros user; now apply deleted_goalsOf|].
  split; [reflexivity|]. split; [reflexivity|].
  intros n Hn Heq. cbn [GoalService.goalIdCounter] in Hn.
  rewrite <- Heq, (Hfresh n Hn) in Hgoal. discriminate.
Qed.

Lemma deleteGoal_removes_nothing_else_witness :
  let svc' := snd (deleteGoalInMemory "user-1" "goal-1" demoService) in
  goalsOf "user-1" svc'
  = filter (fun listed =>
              negb (String.eqb (Goal.id (GoalResponse.goal listed)) "goal-1"))
           (goalsOf "user-1" demoService).
Proof.
  cbv zeta.
  apply (deleteGoal_removes_nothing_else
           "user-1" "goal-1" demoService
           (Goal.mk "goal-1" "Launch Product MVP"
              (Some "Complete and launch the minimum viable product")
              HIGH ACTIVE (Some "2025-10-30T00:00:00.000Z") None "user-1"
              0 0 None None None)
           ShapeKept.demo_consistent eq_refl eq_refl).
Defined.

End DeleteFrame.

(** ** Updating a goal *)

Section PartialUpdate.

Variable zodRequired : string.
Variable zodInvalidEnum : string -> string.
Variable toISOString : string -> option string.
Variable updateGoalInDatabase :
  string -> string -> GoalUpdate.t -> Date -> M GoalResponse.t.

Local Abbreviation parseBody :=
  (updateGoalSchema zodRequired zodInvalidEnum toISOString).
Local Abbreviation updateRequest :=
  (updateGoalHandler zodRequired zodInvalidEnum toISOString
                     updateGoalInDatabase).

Lemma enumKey_parsed {E} (schema : string -> option E) (path : list string)
      (value : option string) (e : option E) (issues : list ZodIssue) :
  enumKey zodInvalidEnum schema path value = (e, issues) ->
  issues = [] ->
  match value with
  | None => e = None
  | Some s => e <> None /\ schema s = e
  end.
Proof.
  unfold enumKey. destruct value as [s|].
  - destruct (schema s) as [x|]; intros [= <- <-]; [|discriminate].
    intros _. split; [discriminate|reflexivity].
  - now intros [= <- <-].
Qed.

Lemma finish_parsed {A} (issues : list ZodIssue) (a b : A) :
  finish issues a = Parsed b -> issues = [] /\ a = b.
Proof.
  destruct issues; simpl; [|discriminate]. intros [= <-]. now split.
Qed.

(** What an accepted update holds, key by key. *)
Lemma updateGoalSchema_fields (body : GoalBody.t) (data : GoalUpdate.t) :
  parseBody body = Parsed data ->
  GoalUpdate.title data = GoalBody.title body
  /\ GoalUpdate.description data = GoalBody.description body
  /\ match GoalBody.priority body with
     | None => GoalUpdate.priority data = None
     | Some s => GoalUpdate.priority data <> None
                 /\ prioritySchema s = GoalUpdate.priority data
     end
  /\ match GoalBody.status body with
     | None => GoalUpdate.status data = None
     | Some s => GoalUpdate.status data <> None
                 /\ statusSchema s = GoalUpdate.status data
     end
  /\ dueDateTransform toISOString (GoalBody.dueDate body)
     = inr (GoalUpdate.dueDate data)
  /\ GoalUpdate.projectId data = GoalBody.projectId body.
Proof.
  unfold updateGoalSchema.
  destruct (enumKey _ _ _ (GoalBody.priority body)) as [p pi] eqn:Hp.
  destruct (enumKey _ _ _ (GoalBody.status body)) as [s si] eqn:Hs.
  destruct (dueDateTransform _ _) as [e|due]; [discriminate|].
  assert (Hgen : forall subs subi,
    finish (optionalStringMin1 ["title"] "Goal title is required"
                               (GoalBody.title body) ++ pi ++ si ++ subi)
      (GoalUpdate.mk (GoalBody.title body) (GoalBody.description body)
         p s due (GoalBody.projectId body) (GoalBody.platformTags body)
         (GoalBody.teamMembers body) subs) = Parsed data ->
    pi = [] /\ si = []
    /\ data = GoalUpdate.mk (GoalBody.title body) (GoalBody.description body)
                p s due (GoalBody.projectId body)
                (GoalBody.platformTags body) (GoalBody.teamMembers body)
                subs).
  { intros subs subi Hfin. apply finish_parsed in Hfin as [Hnil <-].
    apply app_eq_nil in Hnil as [_ Hnil].
    apply app_eq_nil in Hnil as [Hpi Hnil].
    apply app_eq_nil in Hnil as [Hsi _]. now repeat split. }
  intros Hparse.
  assert (Hdata : exists subs,
            pi = [] /\ si = []
            /\ data = GoalUpdate.mk (GoalBody.title body)
                        (GoalBody.description body) p s due
                        (GoalBody.projectId body)
                        (GoalBody.platformTags body)
                        (GoalBody.teamMembers body) subs).
  { destruct (GoalBody.subtasks body) as [bodies|];
      [destruct (subtasksSchema _ _ _) as [subs subi]|];
      eexists; eapply Hgen; exact Hparse. }
  destruct Hdata as (subs & Hpi & Hsi & ->).
  cbn [GoalUpdate.title GoalUpdate.description GoalUpdate.priority
       GoalUpdate.status GoalUpdate.dueDate GoalUpdate.projectId].
  split; [reflexivity|]. split; [reflexivity|].
  split; [exact (enumKey_parsed _ _ _ _ _ Hp Hpi)|].
  split; [exact (enumKey_parsed _ _ _ _ _ Hs Hsi)|].
  split; reflexivity.
Qed.

(** X9.  An accepted Update Goal request of the owner on the in-memory
    store is answered 200 with the stored goal and the subtasks that the
    store holds for it.  The goal keeps its identifier, its owner and its
    creation date; a title, description or project of the body replaces the
    stored one and a key that the body leaves out keeps the stored value; a
    priority or status of the body is stored as the member of the enum with
    that name; a due date that is left out or is the empty string keeps the
    stored due date.  The stored subtasks, whatever the body says about
    subtasks, the other goals and the counters do not change. *)
Theorem updateGoal_changes_supplied_keys
        (userId goalId : string) (body : GoalBody.t) (data : GoalUpdate.t)
        (now : Date) (svc : GoalService.t) (goal : Goal.t) :
  GoalService.isDatabaseAvailable svc = false ->
  JsMap.get goalId (GoalService.inMemoryGoals svc) = Some goal ->
  Goal.ownerId goal = userId ->
  parseBody body = Parsed data ->
  let result := updateRequest userId goalId body now svc in
  exists goal',
    fst result
    = mkResponse 200
        (Success (Some "Goal updated successfully")
           (GoalResponse.mk goal' (InMemory.subtasksOf goalId svc) [] []))
    /\ snd result
       = GoalService.set_inMemoryGoals
           (JsMap.set goalId goal' (GoalService.inMemoryGoals svc)) svc
    /\ Goal.id goal' = Goal.id goal
    /\ Goal.ownerId goal' = Goal.ownerId goal
    /\ Goal.createdAt goal' = Goal.createdAt goal
    /\ Goal.updatedAt goal' = now
    /\ Goal.title goal' = orKeep (GoalBody.title body) (Goal.title goal)
    /\ Goal.description goal'
       = orElse (GoalBody.description body) (Goal.description goal)
    /\ Goal.projectId goal'
       = orElse (GoalBody.projectId body) (Goal.projectId goal)
    /\ match GoalBody.priority body with
       | None => Goal.priority goal' = Goal.priority goal
       | Some s => prioritySchema s = Some (Goal.priority goal')
       end
    /\ match GoalBody.status body with
       | None => Goal.status goal' = Goal.status goal
       | Some s => statusSchema s = Some (Goal.status goal')
       end
    /\ (GoalBody.dueDate body = None \/ GoalBody.dueDate body = Some "" ->
        Goal.dueDate goal' = Goal.dueDate goal)
    /\ GoalService.inMemorySubtasks (snd result)
       = GoalService.inMemorySubtasks svc
    /\ (forall other, other <> goalId ->
          JsMap.get other (GoalService.inMemoryGoals (snd result))
          = JsMap.get other (GoalService.inMemoryGoals svc)).
Proof.
  intros Hdb Hgoal Hown Hparse result. subst result userId.
  unfold updateGoalHandler, updateGoal, respond.
  unfold bind at 1. rewrite Hparse. unfold validated, ret.
  unfold bind, this. cbv beta iota. rewrite Hdb.
  change (negb false) with true. cbv beta iota.
  rewrite Runs.updateGoalInMemory_run, Hgoal, String.eqb_refl.
  cbn [negb fst snd].
  destruct (updateGoalSchema_fields body data Hparse)
    as (Ht & Hd & Hp & Hs & Hdue & Hproj).
  exists (InMemory.assignDefined data now goal).
  split; [reflexivity|]. split; [reflexivity|].
  unfold InMemory.assignDefined.
  cbn [Goal.id Goal.ownerId Goal.createdAt Goal.updatedAt Goal.title
       Goal.description Goal.projectId Goal.priority Goal.status
       Goal.dueDate].
  split; [reflexivity|]. split; [reflexivity|]. split; [reflexivity|].
  split; [reflexivity|].
  split; [now rewrite Ht|]. split; [now rewrite Hd|].
  split; [now rewrite Hproj|].
  split.
  { destruct (GoalBody.priority body) as [s|].
    - destruct Hp as [Hsome ->].
      destruct (GoalUpdate.priority data); [reflexivity|now destruct Hsome].
    - now rewrite Hp. }
  split.
  { destruct (GoalBody.status body) as [s|].
    - destruct Hs as [Hsome ->].
      destruct (GoalUpdate.status data); [reflexivity|now destruct Hsome].
    - now rewrite Hs. }
  split.
  { intros Hnone. unfold dueDateTransform in Hdue.
    destruct Hnone as [Hnone|Hnone]; rewrite Hnone in Hdue;
      cbn in Hdue; injection Hdue as <-; reflexivity. }
  split; [reflexivity|].
  intros other Hother. cbn [GoalService.inMemoryGoals
                            GoalService.set_inMemoryGoals].
  apply JsMapFacts.get_set_other. congruence.
Qed.

End PartialUpdate.

Lemma updateGoal_changes_supplied_keys_witness :
  let result :=
    updateGoalHandler sampleRequired sampleInvalidEnum sampleToISOString
                      (fun _ _ _ _ => noDatabase)
                      "user-1" "goal-1" priorityOnlyBody 5 demoService in
  exists goal',
    JsMap.get "goal-1" (GoalService.inMemoryGoals (snd result)) = Some goal'
    /\ Goal.priority goal' = LOW
    /\ Goal.title goal' = "Launch Product MVP"
    /\ Goal.status goal' = ACTIVE
    /\ GoalService.inMemorySubtasks (snd result)
       = GoalService.inMemorySubtasks demoService.
Proof.
  cbv zeta.
  destruct (updateGoal_changes_supplied_keys
              sampleRequired sampleInvalidEnum sampleToISOString
              (fun _ _ _ _ => noDatabase)
              "user-1" "goal-1" priorityOnlyBody
              (GoalUpdate.mk None None (Some LOW) None None None None None
                             None)
              5 demoService
              (Goal.mk "goal-1" "Launch Product MVP"
                 (Some "Complete and launch the minimum viable product")
                 HIGH ACTIVE (Some "2025-10-30T00:00:00.000Z") None "user-1"
                 0 0 None None None)
              eq_refl eq_refl eq_refl eq_refl)
    as (goal' & _ & Hstore & _ & _ & _ & _ & Ht & _ & _ & Hp & Hs & _
        & Hsubs & _).
  exists goal'.
  split; [rewrite Hstore; reflexivity|].
  split; [cbn in Hp; congruence|].
  split; [exact Ht|]. split; [exact Hs|exact Hsubs].
Defined.

(** ** Repeating an Update Subtask request *)

Module Repeat.

Import InMemory InMemoryFacts.

(** The completion check on a goal of the caller that has subtasks. *)
Lemma check_owned (userId goalId : string) (now : Date)
      (svc : GoalService.t) (goal : Goal.t) :
  JsMap.get goalId (GoalService.inMemoryGoals svc) = Some goal ->
  Goal.ownerId goal = userId ->
  subtasksOf goalId svc <> [] ->
  exists svc' goal',
    checkAndUpdateGoalCompletionInMemory userId goalId now svc
    = (Return tt, svc')
    /\ GoalService.inMemorySubtasks svc' = GoalService.inMemorySubtasks svc
    /\ GoalService.isDatabaseAvailable svc'
       = GoalService.isDatabaseAvailable svc
    /\ JsMap.get goalId (GoalService.inMemoryGoals svc') = Some goal'
    /\ Goal.ownerId goal' = userId
    /\ Goal.status goal'
       = recomputedStatus (allCompleted goalId svc) (Goal.status goal).
Proof.
  intros Hget Hown Hne.
  rewrite checkAndUpdateGoalCompletionInMemory_run, Hget.
  rewrite <- Hown, String.eqb_refl. cbn [negb].
  rewrite (CompletionRule.nonempty_length _ Hne).
  pose proof (recompute_status (allCompleted goalId svc) now goal) as Hst.
  destruct (recompute (allCompleted goalId svc) now goal) as [goal'|] eqn:Hre.
  - exists (GoalService.set_inMemoryGoals
              (JsMap.set goalId goal' (GoalService.inMemoryGoals svc)) svc),
           goal'.
    split; [reflexivity|]. split; [reflexivity|]. split; [reflexivity|].
    split; [apply JsMapFacts.get_set_same|]. split; [|exact Hst].
    unfold recompute in Hre.
    destruct (_ && _) in Hre; [now injection Hre as <-|].
    destruct (_ && _) in Hre; [now injection Hre as <-|discriminate].
  - exists svc, goal. now repeat split.
Qed.

(** The completion check writes nothing when the status is the derived
    one already. *)
Lemma check_noop (userId goalId : string) (now : Date)
      (svc : GoalService.t) (goal : Goal.t) :
  JsMap.get goalId (GoalService.inMemoryGoals svc) = Some goal ->
  Goal.ownerId goal = userId ->
  recomputedStatus (allCompleted goalId svc) (Goal.status goal)
  = Goal.status goal ->
  checkAndUpdateGoalCompletionInMemory userId goalId now svc
  = (Return tt, svc).
Proof.
  intros Hget Hown Hsame.
  rewrite checkAndUpdateGoalCompletionInMemory_run, Hget.
  rewrite <- Hown, String.eqb_refl. cbn [negb].
  apply (recompute_None _ now) in Hsame. rewrite Hsame.
  now destruct (0 <? _)%nat.
Qed.

Lemma assignSubtask_again (data : SubtaskUpdate.t) (now later : Date)
      (subtask : Subtask.t) :
  assignSubtask data later (assignSubtask data now subtask)
  = Subtask.set_updatedAt later (assignSubtask data now subtask).
Proof.
  unfold assignSubtask. destruct data as [[t|] [d|] [c|]], subtask;
    reflexivity.
Qed.

(** X10.  An Update Subtask request of the owner on the in-memory store is
    idempotent up to the clock: when it has been answered 200, the same
    request again is answered 200 with the same subtask, and the only thing
    that it writes to the store is the [updatedAt] of that subtask.  The
    completion of the subtask, its goal and the goal's status stay as the
    first request left them. *)
Theorem updateSubtask_again_only_moves_updatedAt
        (userId goalId subtaskId : string) (body : SubtaskUpdate.t)
        (now later : Date) (svc : GoalService.t)
        (subtask : Subtask.t) (goal : Goal.t) :
  GoalService.isDatabaseAvailable svc = false ->
  JsMap.get subtaskId (GoalService.inMemorySubtasks svc) = Some subtask ->
  Subtask.goalId subtask = goalId ->
  JsMap.get goalId (GoalService.inMemoryGoals svc) = Some goal ->
  Goal.ownerId goal = userId ->
  let first :=
    GoalController.updateSubtask userId goalId subtaskId body now svc in
  exists updated,
    fst first
    = mkResponse 200 (Success (Some "Subtask updated successfully") updated)
    /\ JsMap.get subtaskId (GoalService.inMemorySubtasks (snd first))
       = Some updated
    /\ GoalController.updateSubtask userId goalId subtaskId body later
                                    (snd first)
       = (mkResponse 200
            (Success (Some "Subtask updated successfully")
                     (Subtask.set_updatedAt later updated)),
          GoalService.set_inMemorySubtasks
            (JsMap.set subtaskId (Subtask.set_updatedAt later updated)
                       (GoalService.inMemorySubtasks (snd first)))
            (snd first)).
Proof.
  intros Hdb Hsub Hg Hgoal Hown first. subst first.
  set (updated := assignSubtask body now subtask).
  set (svc1 := GoalService.set_inMemorySubtasks
                 (JsMap.set subtaskId updated
                            (GoalService.inMemorySubtasks svc)) svc).
  assert (Hupd : updateSubtaskInMemory userId goalId subtaskId body now svc
                 = (Return updated, svc1)).
  { rewrite updateSubtaskInMemory_run, Hsub, Hg, String.eqb_refl, Hgoal.
    unfold notOwned. now rewrite Hown, String.eqb_refl. }
  assert (Hsub1 : JsMap.get subtaskId (GoalService.inMemorySubtasks svc1)
                  = Some updated) by apply JsMapFacts.get_set_same.
  assert (Hg1 : Subtask.goalId updated = goalId).
  { rewrite <- Hg. unfold updated, assignSubtask. now destruct subtask. }
  assert (Hagain : forall svc2 goal2,
            GoalService.inMemorySubtasks svc2
            = GoalService.inMemorySubtasks svc1 ->
            JsMap.get goalId (GoalService.inMemoryGoals svc2) = Some goal2 ->
            Goal.ownerId goal2 = userId ->
            updateSubtaskInMemory userId goalId subtaskId body later svc2
            = (Return (Subtask.set_updatedAt later updated),
               GoalService.set_inMemorySubtasks
                 (JsMap.set subtaskId (Subtask.set_updatedAt later updated)
                            (GoalService.inMemorySubtasks svc2)) svc2)).
  { intros svc2 goal2 Hsubs2 Hgoal2 Hown2.
    rewrite updateSubtaskInMemory_run, Hsubs2, Hsub1, Hg1, String.eqb_refl.
    rewrite Hgoal2. unfold notOwned. rewrite Hown2, String.eqb_refl.
    cbn [negb]. unfold updated. now rewrite assignSubtask_again. }
  exists updated.
  rewrite (Atomic.updateSubtask_handler_run _ _ _ _ _ _ Hdb), Hupd.
  destruct (SubtaskUpdate.completed body) as [c|] eqn:Hc.
  - assert (Hne : subtasksOf goalId svc1 <> []).
    { pose proof (Toggle.In_subtasksOf _ _ _ Hsub1) as Hin.
      rewrite Hg1 in Hin. intros Hnil. now rewrite Hnil in Hin. }
    destruct (check_owned userId goalId now svc1 goal Hgoal Hown Hne)
      as (svc2 & goal2 & Hcheck & Hsubs2 & Hdb2 & Hgoal2 & Hown2 & Hst2).
    rewrite Hcheck. cbn [fst snd].
    split; [reflexivity|]. split; [now rewrite Hsubs2|].
    assert (Hdb2' : GoalService.isDatabaseAvailable svc2 = false)
      by now rewrite Hdb2.
    rewrite (Atomic.updateSubtask_handler_run _ _ _ _ _ _ Hdb2'), Hc.
    rewrite (Hagain svc2 goal2 Hsubs2 Hgoal2 Hown2).
    set (svc3 := GoalService.set_inMemorySubtasks _ svc2).
    assert (Hall : allCompleted goalId svc3 = allCompleted goalId svc1).
    { unfold allCompleted, subtasksOf, svc3.
      cbn [GoalService.inMemorySubtasks GoalService.set_inMemorySubtasks].
      rewrite Hsubs2.
      apply (Toggle.every_set_same _ _ updated); [exact Hsub1| |];
        now destruct updated. }
    rewrite (check_noop userId goalId later svc3 goal2 Hgoal2 Hown2);
      [reflexivity|].
    rewrite Hall, Hst2. apply Recompute.recomputedStatus_idempotent.
  - cbn [fst snd].
    split; [reflexivity|]. split; [exact Hsub1|].
    assert (Hdb1 : GoalService.isDatabaseAvailable svc1 = false)
      by exact Hdb.
    rewrite (Atomic.updateSubtask_handler_run _ _ _ _ _ _ Hdb1), Hc.
    now rewrite (Hagain svc1 goal eq_refl Hgoal Hown).
Qed.

Lemma updateSubtask_again_only_moves_updatedAt_witness :
  let body := SubtaskUpdate.mk (Some "QA the checkout") None (Some (JsBool true)) in
  let first :=
    GoalController.updateSubtask "user-1" "goal-1" "subtask-2" body 3
                                 demoService in
  exists updated,
    fst first
    = mkResponse 200 (Success (Some "Subtask updated successfully") updated)
    /\ JsMap.get "subtask-2" (GoalService.inMemorySubtasks (snd first))
       = Some updated
    /\ GoalController.updateSubtask "user-1" "goal-1" "subtask-2" body 4
                                    (snd first)
       = (mkResponse 200
            (Success (Some "Subtask updated successfully")
                     (Subtask.set_updatedAt 4 updated)),
          GoalService.set_inMemorySubtasks
            (JsMap.set "subtask-2" (Subtask.set_updatedAt 4 updated)
                       (GoalService.inMemorySubtasks (snd first)))
            (snd first)).
Proof.
  exact (updateSubtask_again_only_moves_updatedAt
           "user-1" "goal-1" "subtask-2"
           (SubtaskUpdate.mk (Some "QA the checkout") None (Some (JsBool true)))
           3 4 demoService
           (Subtask.mk "subtask-2" "QA test checkout flow" None
                          (JsBool false)
                       None None None None "goal-1" 0 0)
           (Goal.mk "goal-1" "Launch Product MVP"
              (Some "Complete and launch the minimum viable product")
              HIGH ACTIVE (Some "2025-10-30T00:00:00.000Z") None "user-1"
              0 0 None None None)
           eq_refl eq_refl eq_refl eq_refl eq_refl).
Defined.

End Repeat.

(** ** Sequences of requests *)

Module Calls.

Import InMemory InMemoryFacts Runs.

Lemma perform_isDatabaseAvailable (userId : string) (call : Call)
      (svc : GoalService.t) :
  GoalService.isDatabaseAvailable (perform userId call svc)
  = GoalService.isDatabaseAvailable svc.
Proof.
  destruct call; unfold perform.
  - rewrite createGoalInMemory_run. reflexivity.
  - rewrite updateGoalInMemory_run.
    destruct (JsMap.get _ _); [|reflexivity].
    destruct (negb _); reflexivity.
  - rewrite toggleSubtaskInMemory_run.
    destruct (JsMap.get _ _); [|reflexivity].
    destruct (notOwned _ _); reflexivity.
  - rewrite addSubtaskInMemory_run.
    destruct (notOwned _ _); reflexivity.
  - rewrite updateSubtaskInMemory_run.
    destruct (JsMap.get _ _); [|reflexivity].
    destruct (negb _); [reflexivity|].
    destruct (notOwned _ _); reflexivity.
  - rewrite checkAndUpdateGoalCompletionInMemory_run.
    destruct (JsMap.get _ _); [|reflexivity].
    destruct (negb _); [reflexivity|]. cbn [snd].
    destruct (0 <? _)%nat; [|reflexivity].
    destruct (recompute _ _ _); reflexivity.
  - rewrite Delete.deleteGoalInMemory_run.
    destruct (notOwned _ _); reflexivity.
Qed.

Lemma perform_consistent (userId : string) (call : Call)
      (svc : GoalService.t) :
  consistent svc -> consistent (perform userId call svc).
Proof.
  intros Hc. destruct call; unfold perform.
  - now apply ShapeKept.createGoalInMemory_keeps.
  - now apply ShapeKept.updateGoalInMemory_keeps.
  - now apply ShapeKept.toggleSubtaskInMemory_keeps.
  - now apply ShapeKept.addSubtaskInMemory_keeps.
  - now apply ShapeKept.updateSubtaskInMemory_keeps.
  - now apply ShapeKept.checkAndUpdateGoalCompletionInMemory_keeps.
  - now apply ShapeKept.deleteGoalInMemory_keeps.
Qed.

Lemma performAll_kept (P : GoalService.t -> Prop) (userId : string) :
  (forall call svc, P svc -> P (perform userId call svc)) ->
  forall calls svc, P svc -> P (performAll userId calls svc).
Proof.
  intros Hstep. unfold performAll.
  induction calls as [|call r IH]; intros svc HP; cbn [fold_left];
    [exact HP|].
  apply IH, Hstep, HP.
Qed.

(** Each handler, on the in-memory store, leaves the store that a sequence
    of method calls on behalf of the caller leaves. *)
Section Handlers.

Variable zodRequired : string.
Variable zodInvalidEnum : string -> string.
Variable toISOString : string -> option string.
Variable createGoalInDatabase : string -> GoalData.t -> Date -> M GoalResponse.t.
Variable updateGoalInDatabase :
  string -> string -> GoalUpdate.t -> Date -> M GoalResponse.t.
Variable getUserGoalsInDatabase : string -> Filters.t -> M (list GoalResponse.t).
Variable deleteGoalInDatabase : string -> string -> M string.

Variable userId : string.
Variable svc : GoalService.t.
Hypothesis Hdb : GoalService.isDatabaseAvailable svc = false.

Lemma createGoalHandler_calls (body : GoalBody.t) (now : Date) :
  exists calls,
    snd (createGoalHandler zodRequired zodInvalidEnum toISOString
           createGoalInDatabase userId body now svc)
    = performAll userId calls svc.
Proof.
  unfold createGoalHandler, createGoal, respond, bind, validated, this.
  destruct (goalSchema _ _ _ body) as [data|first rest|[m]];
    unfold ret, throw; cbv beta iota; try (now exists []).
  rewrite Hdb. change (negb false) with true. cbv beta iota.
  exists [CallCreateGoal data now]. cbn [performAll fold_left perform].
  now destruct (createGoalInMemory userId data now svc) as [[r|[m]] svc'].
Qed.

Lemma updateGoalHandler_calls (id : string) (body : GoalBody.t)
      (now : Date) :
  exists calls,
    snd (updateGoalHandler zodRequired zodInvalidEnum toISOString
           updateGoalInDatabase userId id body now svc)
    = performAll userId calls svc.
Proof.
  unfold updateGoalHandler, updateGoal, respond, bind, validated, this.
  destruct (updateGoalSchema _ _ _ body) as [data|first rest|[m]];
    unfold ret, throw; cbv beta iota; try (now exists []).
  rewrite Hdb. change (negb false) with true. cbv beta iota.
  exists [CallUpdateGoal id data now]. cbn [performAll fold_left perform].
  now destruct (updateGoalInMemory userId id data now svc)
    as [[r|[m]] svc'].
Qed.

Lemma getGoalHandler_calls (id : string) :
  snd (getGoalHandler getUserGoalsInDatabase userId id svc) = svc.
Proof.
  unfold getGoalHandler, getUserGoals, bind, this. cbv beta iota.
  rewrite Hdb. change (negb false) with true. cbv beta iota.
  rewrite CreateAndList.getUserGoalsInMemory_none.
  now destruct (find _ _).
Qed.

Lemma deleteGoalHandler_calls (id : string) :
  snd (deleteGoalHandler deleteGoalInDatabase userId id svc)
  = performAll userId [CallDeleteGoal id] svc.
Proof.
  unfold deleteGoalHandler, deleteGoal, bind, this. cbv beta iota.
  rewrite Hdb. change (negb false) with true. cbv beta iota.
  cbn [performAll fold_left perform].
  now destruct (deleteGoalInMemory userId id svc) as [[r|[m]] svc'].
Qed.

Lemma addSubtask_calls (id : string) (body : AddSubtaskBody.t)
      (newId : string) (now : Date) :
  exists calls,
    snd (GoalController.addSubtask userId id body newId now svc)
    = performAll userId calls svc.
Proof.
  unfold GoalController.addSubtask.
  destruct (GoalController.falsy _); [now exists []|].
  unfold respond. rewrite (AddFrame.addSubtask_inMemory _ _ _ _ _ _ Hdb).
  exists [CallAddSubtask id
            (NewSubtask.mk (orKeep (AddSubtaskBody.title body) "")
                           (AddSubtaskBody.description body)
                           None None None None) now].
  cbn [performAll fold_left perform].
  now destruct (addSubtaskInMemory userId id _ now svc) as [[r|[m]] svc'].
Qed.

Lemma updateSubtask_calls (goalId subtaskId : string)
      (body : SubtaskUpdate.t) (now : Date) :
  exists calls,
    snd (GoalController.updateSubtask userId goalId subtaskId body now svc)
    = performAll userId calls svc.
Proof.
  rewrite (Atomic.updateSubtask_handler_run _ _ _ _ _ _ Hdb).
  destruct (updateSubtaskInMemory userId goalId subtaskId body now svc)
    as [[subtask|[m]] svc1] eqn:Hupd.
  - destruct (SubtaskUpdate.completed body).
    + exists [CallUpdateSubtask goalId subtaskId body now;
              CallCheckCompletion goalId now].
      cbn [performAll fold_left perform]. rewrite Hupd. cbn [snd].
      now destruct (checkAndUpdateGoalCompletionInMemory _ _ _ svc1)
        as [[u|[m]] svc2].
    + exists [CallUpdateSubtask goalId subtaskId body now].
      cbn [performAll fold_left perform]. now rewrite Hupd.
  - exists [CallUpdateSubtask goalId subtaskId body now].
    cbn [performAll fold_left perform]. now rewrite Hupd.
Qed.

Lemma toggleSubtask_calls (subtaskId : string) (now : Date) :
  exists calls,
    snd (GoalController.toggleSubtask userId subtaskId now svc)
    = performAll userId calls svc.
Proof.
  rewrite (Toggle.toggleSubtask_handler_run _ _ _ _ Hdb).
  destruct (toggleSubtaskInMemory userId subtaskId now svc)
    as [[subtask|[m]] svc1] eqn:Htog.
  - exists [CallToggleSubtask subtaskId now;
            CallCheckCompletion (Subtask.goalId subtask) now].
    cbn [performAll fold_left perform]. rewrite Htog. cbn [snd].
    now destruct (checkAndUpdateGoalCompletionInMemory _ _ _ svc1)
      as [[u|[m]] svc2].
  - exists [CallToggleSubtask subtaskId now].
    cbn [performAll fold_left perform]. now rewrite Htog.
Qed.

Variable jwtVerify : string -> option Claims.t.

Local Abbreviation serving :=
  (serve jwtVerify zodRequired zodInvalidEnum toISOString
         createGoalInDatabase updateGoalInDatabase getUserGoalsInDatabase
         deleteGoalInDatabase).

(** A request that passes [authenticate] is served by calls on behalf of
    the user of its token. *)
Lemma serve_calls (request : Request.t) :
  authenticate jwtVerify (Request.authorization request) = inr userId ->
  exists calls, snd (serving request svc) = performAll userId calls svc.
Proof.
  intros Hauth. unfold serve. rewrite Hauth.
  destruct (Request.route request); unfold answered; cbn [snd].
  - apply createGoalHandler_calls.
  - exists []. apply getGoalHandler_calls.
  - apply updateGoalHandler_calls.
  - eexists. apply deleteGoalHandler_calls.
  - apply addSubtask_calls.
  - apply updateSubtask_calls.
  - apply toggleSubtask_calls.
Qed.

End Handlers.

End Calls.

(** ** What the requests of one user do to the goals of another *)

Module Isolation.

Import InMemory InMemoryFacts Runs.

Lemma filter_set_present {V} (p : V -> bool) (k : string) (old new : V)
      (m : JsMap.t V) :
  JsMap.get k m = Some old -> p old = false -> p new = false ->
  filter p (JsMap.values (JsMap.set k new m)) = filter p (JsMap.values m).
Proof.
  intros Hget Hold Hnew.
  destruct (JsMapMore.values_set_present k new old m Hget)
    as (before & after & Hm & Hset & _).
  rewrite Hset, Hm, !AddFrame.values_app, !filter_app.
  unfold JsMap.values. cbn [List.map snd filter].
  now rewrite Hold, Hnew.
Qed.

Lemma filter_set_fresh {V} (p : V -> bool) (k : string) (new : V)
      (m : JsMap.t V) :
  JsMap.get k m = None -> p new = false ->
  filter p (JsMap.values (JsMap.set k new m)) = filter p (JsMap.values m).
Proof.
  intros Hget Hnew.
  rewrite (JsMapMore.set_fresh _ _ _ Hget), AddFrame.values_app, filter_app.
  unfold JsMap.values at 2. cbn [List.map snd filter].
  rewrite Hnew. apply app_nil_r.
Qed.

Lemma filter_delete {V} (p : V -> bool) (k : string) (old : V)
      (m : JsMap.t V) :
  JsMap.wf m -> JsMap.get k m = Some old -> p old = false ->
  filter p (JsMap.values (JsMap.delete k m)) = filter p (JsMap.values m).
Proof.
  intros Hwf Hget Hold. unfold JsMap.delete.
  rewrite !DeleteFrame.filter_map_snd. f_equal.
  rewrite Listing.filter_filter_and.
  apply filter_ext_in. intros [k' v] Hin. cbn [fst snd].
  destruct (String.eqb k' k) eqn:E; [|reflexivity].
  apply String.eqb_eq in E. subst k'.
  rewrite (JsMapMore.wf_In_get _ _ _ Hwf Hin) in Hget.
  injection Hget as ->. now rewrite Hold.
Qed.

(** A goal of another user is not the goal that a caller owns. *)
Lemma owned_elsewhere (svc : GoalService.t) (userId other goalId : string)
      (mine theirs : Goal.t) :
  consistent svc ->
  userId <> other ->
  JsMap.get goalId (GoalService.inMemoryGoals svc) = Some mine ->
  Goal.ownerId mine = userId ->
  In theirs (JsMap.values (GoalService.inMemoryGoals svc)) ->
  Goal.ownerId theirs = other ->
  Goal.id theirs <> goalId.
Proof.
  intros (Hkg & _ & Hwg & _) Hne Hget Hown Hin Hother Hid.
  apply CreateAndList.In_values_inv in Hin as [k Hin].
  unfold keyed in Hkg. rewrite Forall_forall in Hkg.
  pose proof (Hkg _ Hin) as Hk. cbn [fst snd] in Hk.
  apply (JsMapMore.wf_In_get _ _ _ Hwg) in Hin.
  rewrite <- Hk, Hid, Hget in Hin. injection Hin as ->. congruence.
Qed.

Lemma stored_goal (svc : GoalService.t) (goal : Goal.t) :
  consistent svc ->
  In goal (JsMap.values (GoalService.inMemoryGoals svc)) ->
  JsMap.get (Goal.id goal) (GoalService.inMemoryGoals svc) = Some goal.
Proof.
  intros (Hkg & _ & Hwg & _) Hin.
  apply CreateAndList.In_values_inv in Hin as [k Hin].
  unfold keyed in Hkg. rewrite Forall_forall in Hkg.
  pose proof (Hkg _ Hin) as Hk. cbn [fst snd] in Hk.
  rewrite Hk. now apply JsMapMore.wf_In_get.
Qed.

Lemma goalsOf_same (other : string) (svc svc' : GoalService.t) :
  filter (fun goal => String.eqb (Goal.ownerId goal) other)
         (JsMap.values (GoalService.inMemoryGoals svc'))
  = filter (fun goal => String.eqb (Goal.ownerId goal) other)
           (JsMap.values (GoalService.inMemoryGoals svc)) ->
  (forall goal,
     In goal (JsMap.values (GoalService.inMemoryGoals svc)) ->
     Goal.ownerId goal = other ->
     subtasksOf (Goal.id goal) svc' = subtasksOf (Goal.id goal) svc) ->
  goalsOf other svc' = goalsOf other svc.
Proof.
  intros Hgoals Hsubs. unfold goalsOf. rewrite Hgoals.
  apply map_ext_in. intros goal Hin. apply filter_In in Hin as [Hin Hown].
  apply String.eqb_eq in Hown. unfold withSubtasks. f_equal.
  now apply Hsubs.
Qed.

Lemma notOwned_false (goal : option Goal.t) (userId : string) :
  notOwned goal userId = false ->
  exists g, goal = Some g /\ Goal.ownerId g = userId.
Proof.
  destruct goal as [g|]; [|discriminate]. cbn [notOwned]. intros H.
  exists g. split; [reflexivity|].
  apply String.eqb_eq. now destruct (String.eqb _ _).
Qed.

Lemma eqb_other (userId other : string) :
  userId <> other -> String.eqb userId other = false.
Proof. intros H. now apply String.eqb_neq. Qed.

(** A write to a subtask of a goal of the caller. *)
Lemma subtask_write_isolated (svc : GoalService.t)
      (userId other k : string) (old new : Subtask.t) (mine : Goal.t) :
  consistent svc ->
  userId <> other ->
  JsMap.get k (GoalService.inMemorySubtasks svc) = Some old ->
  Subtask.goalId new = Subtask.goalId old ->
  JsMap.get (Subtask.goalId old) (GoalService.inMemoryGoals svc)
  = Some mine ->
  Goal.ownerId mine = userId ->
  goalsOf other
    (GoalService.set_inMemorySubtasks
       (JsMap.set k new (GoalService.inMemorySubtasks svc)) svc)
  = goalsOf other svc.
Proof.
  intros Hc Hne Hget Hg Hmine Hown.
  apply goalsOf_same; [reflexivity|].
  intros goal Hin Hother. unfold subtasksOf.
  cbn [GoalService.inMemorySubtasks GoalService.set_inMemorySubtasks].
  pose proof (owned_elsewhere svc userId other _ mine goal
                Hc Hne Hmine Hown Hin Hother) as Hid.
  apply (filter_set_present _ k old new); [exact Hget| |].
  - apply String.eqb_neq. congruence.
  - rewrite Hg. apply String.eqb_neq. congruence.
Qed.

(** A write to a goal of the caller that keeps the owner. *)
Lemma goal_write_isolated (svc : GoalService.t)
      (userId other k : string) (old new : Goal.t) :
  userId <> other ->
  JsMap.get k (GoalService.inMemoryGoals svc) = Some old ->
  Goal.ownerId old = userId ->
  Goal.ownerId new = userId ->
  goalsOf other
    (GoalService.set_inMemoryGoals
       (JsMap.set k new (GoalService.inMemoryGoals svc)) svc)
  = goalsOf other svc.
Proof.
  intros Hne Hget Hold Hnew.
  assert (Hgoals :
    filter (fun goal => String.eqb (Goal.ownerId goal) other)
           (JsMap.values (JsMap.set k new (GoalService.inMemoryGoals svc)))
    = filter (fun goal => String.eqb (Goal.ownerId goal) other)
             (JsMap.values (GoalService.inMemoryGoals svc))).
  { apply (filter_set_present _ k old new _ Hget).
    - rewrite Hold. now apply eqb_other.
    - rewrite Hnew. now apply eqb_other. }
  unfold goalsOf.
  cbn [GoalService.inMemoryGoals GoalService.set_inMemoryGoals].
  rewrite Hgoals. reflexivity.
Qed.

(** No call on behalf of one user changes what another user is listed. *)
Lemma perform_isolated (userId other : string) (call : Call)
      (svc : GoalService.t) :
  consistent svc ->
  userId <> other ->
  goalsOf other (perform userId call svc) = goalsOf other svc.
Proof.
  intros Hc Hne. destruct call; unfold perform.
  - rewrite createGoalInMemory_run. cbv zeta. cbn [snd].
    destruct Hc as (Hkg & Hks & Hwg & Hws & Hrefs & Hfg & Hfs).
    apply goalsOf_same.
    + cbn [GoalService.inMemoryGoals].
      apply filter_set_fresh; [apply Hfg, le_n|].
      cbn [newGoal Goal.ownerId]. now apply eqb_other.
    + intros goal Hin Hother. unfold subtasksOf.
      cbn [GoalService.inMemorySubtasks].
      rewrite (CreateAndList.setAll_fresh _ _ _ _ _ Hfs).
      rewrite AddFrame.values_app, filter_app, CreateAndList.values_pairs.
      rewrite CreateAndList.newSubtasks_other; [apply app_nil_r|].
      intros Hid.
      pose proof (stored_goal svc goal
                    (conj Hkg (conj Hks (conj Hwg (conj Hws
                       (conj Hrefs (conj Hfg Hfs)))))) Hin) as Hstored.
      cbn [newGoal Goal.id] in Hid.
      rewrite Hid, (Hfg _ (le_n _)) in Hstored. discriminate.
  - rewrite updateGoalInMemory_run.
    destruct (JsMap.get goalId _) as [goal|] eqn:Hget; [|reflexivity].
    destruct (negb _) eqn:Hown; [reflexivity|]. cbn [snd].
    apply negb_false_iff, String.eqb_eq in Hown.
    now apply (goal_write_isolated svc userId other goalId goal).
  - rewrite toggleSubtaskInMemory_run.
    destruct (JsMap.get subtaskId _) as [subtask|] eqn:Hget; [|reflexivity].
    destruct (notOwned _ _) eqn:Hown; [reflexivity|]. cbn [snd].
    apply notOwned_false in Hown as (mine & Hmine & Hown).
    now apply (subtask_write_isolated svc userId other subtaskId subtask
                 _ mine).
  - rewrite addSubtaskInMemory_run.
    destruct (notOwned _ _) eqn:Hown; [reflexivity|]. cbv zeta. cbn [snd].
    apply notOwned_false in Hown as (mine & Hmine & Hown).
    apply goalsOf_same; [reflexivity|].
    intros goal Hin Hother. unfold subtasksOf.
    cbn [GoalService.inMemorySubtasks].
    pose proof (owned_elsewhere svc userId other _ mine goal
                  Hc Hne Hmine Hown Hin Hother) as Hid.
    destruct Hc as (_ & _ & _ & _ & _ & _ & Hfs).
    apply filter_set_fresh; [apply Hfs, le_n|].
    cbn [addedSubtask Subtask.goalId]. apply String.eqb_neq. congruence.
  - rewrite updateSubtaskInMemory_run.
    destruct (JsMap.get subtaskId _) as [subtask|] eqn:Hget; [|reflexivity].
    destruct (negb _) eqn:Hg; [reflexivity|].
    apply negb_false_iff, String.eqb_eq in Hg.
    destruct (notOwned _ _) eqn:Hown; [reflexivity|]. cbn [snd].
    apply notOwned_false in Hown as (mine & Hmine & Hown).
    rewrite <- Hg in Hmine.
    apply (subtask_write_isolated svc userId other subtaskId subtask
             _ mine); try assumption.
    unfold assignSubtask. now destruct subtask.
  - rewrite checkAndUpdateGoalCompletionInMemory_run.
    destruct (JsMap.get goalId _) as [goal|] eqn:Hget; [|reflexivity].
    destruct (negb _) eqn:Hown; [reflexivity|]. cbn [snd].
    apply negb_false_iff, String.eqb_eq in Hown.
    destruct (0 <? _)%nat; [|reflexivity].
    destruct (recompute _ now goal) as [goal'|] eqn:Hre; [|reflexivity].
    apply (goal_write_isolated svc userId other goalId goal goal' Hne Hget
             Hown).
    unfold recompute in Hre.
    destruct (_ && _) in Hre; [now injection Hre as <-|].
    destruct (_ && _) in Hre; [now injection Hre as <-|discriminate].
  - rewrite Delete.deleteGoalInMemory_run.
    destruct (notOwned _ _) eqn:Hown; [reflexivity|]. cbn [snd].
    apply notOwned_false in Hown as (mine & Hmine & Hown).
    apply goalsOf_same.
    + cbn [GoalService.inMemoryGoals].
      destruct Hc as (_ & _ & Hwg & _).
      apply (filter_delete _ goalId mine _ Hwg Hmine).
      rewrite Hown. now apply eqb_other.
    + intros goal Hin Hother. unfold subtasksOf.
      cbn [GoalService.inMemorySubtasks].
      pose proof (owned_elsewhere svc userId other _ mine goal
                    Hc Hne Hmine Hown Hin Hother) as Hid.
      destruct Hc as (_ & _ & _ & Hws & _).
      now apply DeleteFrame.filter_deleteSubtasksOf_other.
Qed.

Lemma performAll_isolated (userId other : string) (calls : list Call) :
  userId <> other ->
  forall svc,
    consistent svc ->
    goalsOf other (performAll userId calls svc) = goalsOf other svc.
Proof.
  intros Hne. unfold performAll.
  induction calls as [|call r IH]; intros svc Hc; cbn [fold_left];
    [reflexivity|].
  rewrite IH by now apply Calls.perform_consistent.
  now apply perform_isolated.
Qed.

End Isolation.

Section Served.

Variable jwtVerify : string -> option Claims.t.
Variable zodRequired : string.
Variable zodInvalidEnum : string -> string.
Variable toISOString : string -> option string.
Variable createGoalInDatabase : string -> GoalData.t -> Date -> M GoalResponse.t.
Variable updateGoalInDatabase :
  string -> string -> GoalUpdate.t -> Date -> M GoalResponse.t.
Variable getUserGoalsInDatabase : string -> Filters.t -> M (list GoalResponse.t).
Variable deleteGoalInDatabase : string -> string -> M string.

Local Abbreviation serving :=
  (serve jwtVerify zodRequired zodInvalidEnum toISOString
         createGoalInDatabase updateGoalInDatabase getUserGoalsInDatabase
         deleteGoalInDatabase).
Local Abbreviation servingAll :=
  (serveAll jwtVerify zodRequired zodInvalidEnum toISOString
            createGoalInDatabase updateGoalInDatabase getUserGoalsInDatabase
            deleteGoalInDatabase).

Lemma serve_rejected (request : Request.t) (svc : GoalService.t)
      (status : nat) (error : string) :
  authenticate jwtVerify (Request.authorization request)
  = inl (status, error) ->
  serving request svc = (status, svc).
Proof. intros Hauth. unfold serve. now rewrite Hauth. Qed.

Lemma serve_kept (request : Request.t) (svc : GoalService.t) :
  GoalService.isDatabaseAvailable svc = false ->
  consistent svc ->
  GoalService.isDatabaseAvailable (snd (serving request svc)) = false
  /\ consistent (snd (serving request svc)).
Proof.
  intros Hdb Hc.
  destruct (authenticate jwtVerify (Request.authorization request))
    as [[status error]|userId] eqn:Hauth.
  - rewrite (serve_rejected _ _ _ _ Hauth). now split.
  - destruct (Calls.serve_calls zodRequired zodInvalidEnum toISOString
                createGoalInDatabase updateGoalInDatabase
                getUserGoalsInDatabase deleteGoalInDatabase
                userId svc Hdb jwtVerify request Hauth) as [calls ->].
    apply (Calls.performAll_kept
             (fun svc => GoalService.isDatabaseAvailable svc = false
                         /\ consistent svc)); [|now split].
    intros call svc0 [Hdb0 Hc0]. split.
    + now rewrite Calls.perform_isDatabaseAvailable.
    + now apply Calls.perform_consistent.
Qed.

(** X11.  Started on a well-formed in-memory store, the service stays on a
    well-formed in-memory store whatever requests it serves, authenticated
    or not, accepted or rejected: every goal and subtask is stored under its
    own identifier, no identifier occurs twice, every subtask belongs to a
    stored goal and the next identifiers are unused. *)
Theorem requests_keep_shape (requests : list Request.t)
        (svc : GoalService.t) :
  GoalService.isDatabaseAvailable svc = false ->
  consistent svc ->
  GoalService.isDatabaseAvailable (servingAll requests svc) = false
  /\ consistent (servingAll requests svc).
Proof.
  unfold serveAll. revert svc.
  induction requests as [|request r IH]; intros svc Hdb Hc;
    cbn [fold_left]; [now split|].
  destruct (serve_kept request svc Hdb Hc) as [Hdb' Hc'].
  now apply IH.
Qed.

(** X12.  On a well-formed in-memory store, the goals that a user is
    listed, with their subtasks and in their order, are not changed by any
    sequence of requests none of which carries an access token of that
    user: requests of other users, whatever identifiers they name, and
    requests that fail authentication. *)
Theorem requests_of_others_change_nothing (other : string)
        (requests : list Request.t) (svc : GoalService.t) :
  GoalService.isDatabaseAvailable svc = false ->
  consistent svc ->
  Forall (fun request =>
            authenticate jwtVerify (Request.authorization request)
            <> inr other) requests ->
  goalsOf other (servingAll requests svc) = goalsOf other svc.
Proof.
  unfold serveAll. revert svc.
  induction requests as [|request r IH]; intros svc Hdb Hc Hall;
    cbn [fold_left]; [reflexivity|].
  destruct (serve_kept request svc Hdb Hc) as [Hdb' Hc'].
  rewrite (IH _ Hdb' Hc' (Forall_inv_tail Hall)).
  pose proof (Forall_inv Hall) as Hnot. cbv beta in Hnot.
  destruct (authenticate jwtVerify (Request.authorization request))
    as [[status error]|userId] eqn:Hauth.
  - now rewrite (serve_rejected _ _ _ _ Hauth).
  - destruct (Calls.serve_calls zodRequired zodInvalidEnum toISOString
                createGoalInDatabase updateGoalInDatabase
                getUserGoalsInDatabase deleteGoalInDatabase
                userId svc Hdb jwtVerify request Hauth) as [calls ->].
    apply Isolation.performAll_isolated; [congruence|exact Hc].
Qed.

End Served.

Lemma requests_keep_shape_witness :
  consistent
    (sampleServeAll
       [Request.mk (Some "Bearer access:user-1") (PostGoal launchBody) 1 "";
        Request.mk (Some "Bearer access:user-1") (PutSubtaskToggle "subtask-6")
                   2 "";
        Request.mk (Some "Bearer access:user-1") (DeleteGoal "goal-1") 3 "";
        Request.mk None (DeleteGoal "goal-2") 4 ""]
       demoService).
Proof.
  apply (requests_keep_shape sampleJwtVerify sampleRequired
           sampleInvalidEnum sampleToISOString
           (fun _ _ _ => noDatabase) (fun _ _ _ _ => noDatabase)
           (fun _ _ => noDatabase) (fun _ _ => noDatabase)).
  - reflexivity.
  - exact ShapeKept.demo_consistent.
Defined.

Lemma requests_of_others_change_nothing_witness :
  goalsOf "user-1"
    (sampleServeAll
       [Request.mk (Some "Bearer access:user-2") (DeleteGoal "goal-1") 1 "";
        Request.mk (Some "Bearer access:user-2")
                   (PutSubtaskToggle "subtask-1") 2 "";
        Request.mk (Some "Bearer access:user-2") (PostGoal launchBody) 3 "";
        Request.mk (Some "Bearer refresh:user-1") (DeleteGoal "goal-1") 4 "";
        Request.mk None (DeleteGoal "goal-2") 5 ""]
       demoService)
  = goalsOf "user-1" demoService.
Proof.
  apply (requests_of_others_change_nothing sampleJwtVerify sampleRequired
           sampleInvalidEnum sampleToISOString
           (fun _ _ _ => noDatabase) (fun _ _ _ _ => noDatabase)
           (fun _ _ => noDatabase) (fun _ _ => noDatabase)).
  - reflexivity.
  - exact ShapeKept.demo_consistent.
  - repeat constructor; vm_compute; discriminate.
Defined.

(** ** Requests without a valid access token *)

Section Authentication.

Variable jwtVerify : string -> option Claims.t.
Variable zodRequired : string.
Variable zodInvalidEnum : string -> string.
Variable toISOString : string -> option string.
Variable createGoalInDatabase : string -> GoalData.t -> Date -> M GoalResponse.t.
Variable updateGoalInDatabase :
  string -> string -> GoalUpdate.t -> Date -> M GoalResponse.t.
Variable getUserGoalsInDatabase : string -> Filters.t -> M (list GoalResponse.t).
Variable deleteGoalInDatabase : string -> string -> M string.

Local Abbreviation serving :=
  (serve jwtVerify zodRequired zodInvalidEnum toISOString
         createGoalInDatabase updateGoalInDatabase getUserGoalsInDatabase
         deleteGoalInDatabase).

Lemma substring_all (s : string) :
  String.substring 0 (String.length s) s = s.
Proof. induction s as [|c r IH]; simpl; [reflexivity|now rewrite IH]. Qed.

(** The token that is verified is what follows [Bearer ] in the header. *)
Lemma bearer_token (token : string) :
  String.prefix "Bearer " ("Bearer " ++ token) = true
  /\ String.substring 7 (String.length ("Bearer " ++ token) - 7)
                      ("Bearer " ++ token) = token.
Proof.
  split.
  - cbn. now destruct token.
  - cbn. rewrite Nat.sub_0_r. apply substring_all.
Qed.

(** X13.  The goal routes answer 401 and leave the service as it was,
    whether it runs on the in-memory store or on the database, when the
    request has no [Authorization] header, when the header does not start
    with [Bearer ], when the rest of the header is not a token that
    verifies, and when it is a token of another type than [access], such as
    a refresh token.  A header [Bearer ] followed by a verified access token
    makes the handler run for the user of that token. *)
Theorem goal_routes_need_access_token (request : Request.t)
        (svc : GoalService.t) :
  (Request.authorization request = None -> serving request svc = (401%nat, svc))
  /\ (forall header,
        Request.authorization request = Some header ->
        String.prefix "Bearer " header = false ->
        serving request svc = (401%nat, svc))
  /\ (forall token,
        Request.authorization request = Some ("Bearer " ++ token)%string ->
        match jwtVerify token with
        | None => serving request svc = (401%nat, svc)
        | Some decoded =>
            if String.eqb (Claims.type decoded) "access"
            then authenticate jwtVerify (Request.authorization request)
                 = inr (Claims.userId decoded)
            else serving request svc = (401%nat, svc)
        end).
Proof.
  split; [|split].
  - intros Hnone. unfold serve, authenticate. now rewrite Hnone.
  - intros header Hsome Hprefix. unfold serve, authenticate.
    now rewrite Hsome, Hprefix.
  - intros token Hsome.
    destruct (bearer_token token) as [Hprefix Htoken].
    unfold serve, authenticate. rewrite Hsome, Hprefix. cbn [negb].
    cbv zeta. rewrite Htoken. unfold verifyToken.
    destruct (jwtVerify token) as [decoded|]; [|reflexivity].
    destruct (String.eqb (Claims.type decoded) "access"); reflexivity.
Qed.

End Authentication.

Lemma goal_routes_need_access_token_witness :
  sampleServe (Request.mk (Some "Basic dXNlci0x") (DeleteGoal "goal-1") 1 "")
              demoService
  = (401%nat, demoService).
Proof.
  apply (proj1 (proj2 (goal_routes_need_access_token
                         sampleJwtVerify sampleRequired sampleInvalidEnum
                         sampleToISOString
                         (fun _ _ _ => noDatabase)
                         (fun _ _ _ _ => noDatabase)
                         (fun _ _ => noDatabase) (fun _ _ => noDatabase)
                         (Request.mk (Some "Basic dXNlci0x")
                                     (DeleteGoal "goal-1") 1 "")
                         demoService))
               "Basic dXNlci0x" eq_refl eq_refl).
Defined.

(** ** Estimates and dependencies of the rule-based suggestion *)

Module FallbackPlan.

Import LLM.

(** X14.  In the output of the rule-based generator, the total of the
    estimated hours is the sum over all the tasks that were generated: it is
    the sum over the returned tasks, plus the two hours of the closing
    review when that task was cut off, and it lies between 5 and 28.  The
    output has at least two tasks, with pairwise different titles, and its
    critical path is the titles of its first three tasks.  Every dependency
    names an earlier task of the output exactly when the description
    mentions building if it mentions testing, and testing if it mentions
    deploying; otherwise a task depends on a task that is not there.  The
    call returns an output for every string and every context but [null];
    a context object has a number under [teamSize], if it has the key. *)
Theorem fallback_hours_and_dependencies (goalDescription : string)
        (context : ContextArgument) :
  let words := toLowerCase goalDescription in
  match generateSubtasksFallback (Some (JsString goalDescription)) context
  with
  | Throws _ => context = Null
  | Returns output =>
      estimatedTotalHours output
      = (hours (subtasks output)
         + if allTriggers goalDescription context then 2 else 0)%Z
      /\ (5 <= estimatedTotalHours output <= 28)%Z
      /\ (2 <= List.length (subtasks output))%nat
      /\ NoDup (titles output)
      /\ criticalPath output = firstn 3 (titles output)
      /\ resolved [] (subtasks output)
         = implb (mentionsTest words) (mentionsBuild words)
           && implb (mentionsDeploy words) (mentionsTest words)
  end.
Proof.
  unfold allTriggers, titles, generateSubtasksFallback, allSubtasks, hours.
  destruct (destructured context) as [c|] eqn:Hc;
    [|now destruct context].
  cbv zeta. cbn [orKeep].
  destruct (mentionsBuild _), (mentionsTest _), (mentionsDeploy _),
    (greaterThanOne _); cbn;
    (split; [reflexivity|]); (split; [lia|]); (split; [lia|]);
    (split; [|split; reflexivity]);
    repeat (constructor; [cbn; intuition discriminate|]); constructor.
Qed.

End FallbackPlan.

(** ** The suggested priority *)

Module PriorityRule.

Import LLMController.
Import LLM (includes).

Lemma toLowerCase_app (a b : string) :
  LLM.toLowerCase (a ++ b) = (LLM.toLowerCase a ++ LLM.toLowerCase b)%string.
Proof. induction a as [|c r IH]; simpl; [reflexivity|now rewrite IH]. Qed.

Lemma prefix_nil (s : string) : String.prefix "" s = true.
Proof. now destruct s. Qed.

Lemma prefix_app (k s b : string) :
  String.prefix k s = true -> String.prefix k (s ++ b) = true.
Proof.
  revert k. induction s as [|c' s' IH]; intros k; destruct k as [|c r].
  - intros _. apply prefix_nil.
  - discriminate.
  - intros _. apply prefix_nil.
  - cbn. destruct (ascii_dec c c'); [apply IH|discriminate].
Qed.

Lemma includes_app_l (s b k : string) :
  includes s k = true -> includes (s ++ b) k = true.
Proof.
  induction s as [|c r IH]; simpl.
  - rewrite orb_false_r. intros H.
    destruct k; [|discriminate].
    destruct b; reflexivity.
  - intros H. apply orb_true_iff in H as [H|H]; apply orb_true_iff.
    + left. exact (prefix_app k (String c r) b H).
    + right. now apply IH.
Qed.

Lemma includes_app_r (a s k : string) :
  includes s k = true -> includes (a ++ s) k = true.
Proof.
  intros H. induction a as [|c r IH]; simpl; [exact H|].
  apply orb_true_iff. now right.
Qed.

Lemma includes_within (a s b k : string) :
  includes s k = true -> includes (a ++ s ++ b) k = true.
Proof. intros H. now apply includes_app_r, includes_app_l. Qed.

Lemma urgent_within (a s b : string) :
  urgent (LLM.toLowerCase s) = true ->
  urgent (LLM.toLowerCase (a ++ s ++ b)) = true.
Proof.
  unfold urgent. rewrite !toLowerCase_app. intros H.
  repeat (apply orb_true_iff in H as [H|H]);
    rewrite (includes_within _ _ _ _ H); cbn;
    repeat rewrite orb_true_r; reflexivity.
Qed.

Lemma deferred_within (a s b : string) :
  deferred (LLM.toLowerCase s) = true ->
  deferred (LLM.toLowerCase (a ++ s ++ b)) = true.
Proof.
  unfold deferred. rewrite !toLowerCase_app. intros H.
  repeat (apply orb_true_iff in H as [H|H]);
    rewrite (includes_within _ _ _ _ H); cbn;
    repeat rewrite orb_true_r; reflexivity.
Qed.

Lemma falsy_within (a s b : string) :
  falsy (Some (JsString s)) = false ->
  falsy (Some (JsString (a ++ s ++ b))) = false.
Proof.
  cbn. destruct s as [|c r]; [discriminate|]. intros _.
  destruct a; reflexivity.
Qed.

Lemma suggested_cases (s : string) :
  suggested (suggestPriority (Some (JsString s)))
  = if falsy (Some (JsString s)) then None
    else if urgent (LLM.toLowerCase s) then Some HIGH
    else if deferred (LLM.toLowerCase s) then Some LOW
    else Some MEDIUM.
Proof.
  unfold suggestPriority, suggested.
  destruct (falsy (Some (JsString s))); [reflexivity|].
  cbn [toLowerCase]. cbv zeta.
  destruct (urgent _); [reflexivity|].
  destruct (deferred _); reflexivity.
Qed.

(** X15.  The priority suggestion answers 400 when the description is
    missing or falsy ([null], [false], zero, the empty string), 500 when it
    is a truthy value that is not a string, and 200 when it is a string
    that is not empty.  Words of urgency win over words of deferral, and
    the suggestion only rises with more text: when a description is
    suggested HIGH, so is every text that contains it, and when it is
    suggested LOW, a text that contains it is suggested LOW or HIGH, never
    MEDIUM. *)
Theorem suggestion_rises_with_text (before description after : string) :
  let longer := (before ++ description ++ after)%string in
  suggestPriority None
  = mkResponse 400 (Failure "Goal description is required")
  /\ (forall value,
        truthy value = false ->
        suggestPriority (Some value)
        = mkResponse 400 (Failure "Goal description is required"))
  /\ (forall value,
        truthy value = true ->
        (forall s, value <> JsString s) ->
        suggestPriority (Some value)
        = mkResponse 500 (Failure "Priority suggestion failed"))
  /\ (description <> "" ->
      code (suggestPriority (Some (JsString description))) = 200%nat)
  /\ (urgent (LLM.toLowerCase description) = true ->
      description <> "" ->
      suggested (suggestPriority (Some (JsString description))) = Some HIGH)
  /\ (suggested (suggestPriority (Some (JsString description))) = Some HIGH ->
      suggested (suggestPriority (Some (JsString longer))) = Some HIGH)
  /\ (suggested (suggestPriority (Some (JsString description))) = Some LOW ->
      suggested (suggestPriority (Some (JsString longer))) = Some LOW
      \/ suggested (suggestPriority (Some (JsString longer))) = Some HIGH).
Proof.
  cbv zeta.
  split; [reflexivity|]. split.
  { intros value Hfalsy. unfold suggestPriority, falsy. now rewrite Hfalsy. }
  split.
  { intros value Htruthy Hstring. unfold suggestPriority, falsy.
    rewrite Htruthy. cbn [negb].
    destruct value; try reflexivity. now destruct (Hstring s). }
  split.
  { intros Hne. unfold suggestPriority.
    destruct description as [|c r]; [congruence|].
    cbn [falsy truthy String.eqb negb toLowerCase]. cbv zeta.
    destruct (urgent _); [reflexivity|]. now destruct (deferred _). }
  split.
  { intros Hu Hne. rewrite suggested_cases, Hu.
    destruct description; [congruence|reflexivity]. }
  rewrite !suggested_cases.
  destruct (falsy (Some (JsString description))) eqn:Hf;
    [split; discriminate|].
  rewrite (falsy_within before description after Hf).
  destruct (urgent (LLM.toLowerCase description)) eqn:Hu.
  - rewrite (urgent_within before description after Hu).
    split; [reflexivity|discriminate].
  - destruct (deferred (LLM.toLowerCase description)) eqn:Hd;
      [|split; discriminate].
    split; [discriminate|]. intros _.
    rewrite (deferred_within before description after Hd).
    destruct (urgent (LLM.toLowerCase (before ++ description ++ after)));
      [now right|now left].
Qed.

Lemma suggestion_rises_with_text_witness :
  suggested (suggestPriority (Some (JsString "Fix it ASAP, someday")))
  = Some HIGH
  /\ suggestPriority (Some (JsNum (Finite 5)))
     = mkResponse 500 (Failure "Priority suggestion failed").
Proof.
  pose proof (suggestion_rises_with_text "Fix it " "ASAP" ", someday")
    as (_ & _ & Hthrows & _ & _ & Hhigh & _).
  split.
  - apply Hhigh. reflexivity.
  - apply Hthrows; [reflexivity|discriminate].
Defined.

End PriorityRule.

(** ** The frontend conversions *)

Module Conversions.

Import GoalUtils.

(** X16.  The frontend keeps the priority of a goal through its
    conversions, in both directions, but not its status: a goal that is read
    from the backend and converted back for an update keeps its title,
    description, due date, project and priority, keeps [COMPLETED] and
    [ACTIVE], and comes back as [ACTIVE] when it was [PAUSED] or
    [CANCELLED]; a frontend status [pending] comes back as [in_progress].
    Platform tags and team that the backend left out come back as empty
    lists.  A subtask keeps its completion. *)
Theorem conversions_keep_priority_not_status (apiGoal : ApiGoal.t)
        (apiSubtask : ApiSubtask.t) (priority : Priority)
        (frontendPriority : FrontendPriority.t)
        (frontendStatus : FrontendStatus.t) :
  let sent := goalToApiGoal (apiGoalToGoal apiGoal) in
  let sentSubtask := subtaskToApiSubtask (apiSubtaskToSubtask apiSubtask) in
  frontendToBackendPriority (backendToFrontendPriority priority) = priority
  /\ backendToFrontendPriority (frontendToBackendPriority frontendPriority)
     = frontendPriority
  /\ backendToFrontendStatus (frontendToBackendStatus frontendStatus)
     = match frontendStatus with
       | FrontendStatus.completed => FrontendStatus.completed
       | _ => FrontendStatus.in_progress
       end
  /\ PartialApiGoal.title sent = ApiGoal.title apiGoal
  /\ PartialApiGoal.description sent = ApiGoal.description apiGoal
  /\ PartialApiGoal.dueDate sent = ApiGoal.dueDate apiGoal
  /\ PartialApiGoal.project sent = ApiGoal.project apiGoal
  /\ PartialApiGoal.priority sent = ApiGoal.priority apiGoal
  /\ PartialApiGoal.status sent
     = match ApiGoal.status apiGoal with
       | COMPLETED => COMPLETED
       | ACTIVE | PAUSED | CANCELLED => ACTIVE
       end
  /\ PartialApiGoal.platformTags sent
     = Some (orKeep (ApiGoal.platformTags apiGoal) [])
  /\ PartialApiGoal.team sent = Some (orKeep (ApiGoal.team apiGoal) [])
  /\ PartialApiSubtask.completed sentSubtask
     = ApiSubtask.completed apiSubtask
  /\ PartialApiSubtask.title sentSubtask = ApiSubtask.title apiSubtask
  /\ PartialApiSubtask.description sentSubtask
     = ApiSubtask.description apiSubtask.
Proof.
  cbv zeta.
  split; [now destruct priority|].
  split; [now destruct frontendPriority|].
  split; [now destruct frontendStatus|].
  unfold goalToApiGoal, apiGoalToGoal, subtaskToApiSubtask,
    apiSubtaskToSubtask. cbn.
  repeat (split; [reflexivity|]).
  split; [now destruct (ApiGoal.priority apiGoal)|].
  split; [now destruct (ApiGoal.status apiGoal)|].
  repeat (split; [reflexivity|]).
  split; [apply orb_diag|]. split; reflexivity.
Qed.

End Conversions.

(** ** The local store of the frontend *)

Module LocalStore.

Import UseGoals.

Lemma set_same {V} (k : string) (v : V) (m : JsMap.t V) :
  JsMap.get k m = Some v -> JsMap.set k v m = m.
Proof.
  induction m as [|[k0 v0] r IH]; simpl; [discriminate|].
  destruct (String.eqb k0 k) eqn:E.
  - apply String.eqb_eq in E. subst k0. now intros [= ->].
  - intros H. now rewrite (IH H).
Qed.

Lemma toggle_goal_twice (goalId subtaskId : string) (g : FrontGoal.t) :
  let toggle g :=
    if negb (String.eqb (FrontGoal.id g) goalId) then g
    else
      FrontGoal.set_subtasks
        (List.map
           (fun s =>
              if String.eqb (FrontSubtask.id s) subtaskId
              then FrontSubtask.set_done (negb (FrontSubtask.done s)) s
              else s)
           (FrontGoal.subtasks g))
        g in
  toggle (toggle g) = g.
Proof.
  cbv beta zeta.
  destruct (negb (String.eqb (FrontGoal.id g) goalId)) eqn:E.
  - now rewrite E.
  - cbn [FrontGoal.set_subtasks FrontGoal.id]. rewrite E.
    destruct g as [id title project priority tags due team subtasks d st].
    unfold FrontGoal.set_subtasks. simpl. f_equal. rewrite map_map.
    transitivity (List.map (fun s : FrontSubtask.t => s) subtasks);
      [|apply map_id].
    apply map_ext. intros s.
    destruct (String.eqb (FrontSubtask.id s) subtaskId) eqn:Es.
    + cbn [FrontSubtask.set_done FrontSubtask.id FrontSubtask.done].
      rewrite Es, negb_involutive. now destruct s.
    + now rewrite Es.
Qed.

(** X17.  The local toggle of the frontend is its own inverse: under a date
    that has a list of goals, toggling the same subtask twice gives back
    the store as it was, with every goal and subtask unchanged.  Under a
    date that has no list, a toggle stores the empty list for that date. *)
Theorem local_toggle_twice (dateKey goalId subtaskId : string)
        (goalsByDate : GoalsByDate) :
  match JsMap.get dateKey goalsByDate with
  | Some goals =>
      toggleSubtaskLocal dateKey goalId subtaskId
        (toggleSubtaskLocal dateKey goalId subtaskId goalsByDate)
      = goalsByDate
  | None =>
      toggleSubtaskLocal dateKey goalId subtaskId goalsByDate
      = JsMap.set dateKey [] goalsByDate
  end.
Proof.
  unfold toggleSubtaskLocal.
  destruct (JsMap.get dateKey goalsByDate) as [goals|] eqn:Hget;
    [|reflexivity].
  cbv zeta. cbn [orKeep].
  rewrite JsMapFacts.get_set_same. cbn [orKeep].
  rewrite Toggle.set_set, map_map.
  rewrite (map_ext _ (fun g => g)).
  - rewrite map_id. now apply set_same.
  - intros g. apply (toggle_goal_twice goalId subtaskId g).
Qed.

Lemma replaceFirst_none (goal : FrontGoal.t) (goals : list FrontGoal.t) :
  replaceFirst goal goals = None <->
  existsb (fun g => String.eqb (FrontGoal.id g) (FrontGoal.id goal)) goals
  = false.
Proof.
  induction goals as [|g r IH]; simpl; [tauto|].
  destruct (String.eqb (FrontGoal.id g) (FrontGoal.id goal)); simpl.
  - split; discriminate.
  - rewrite <- IH. destruct (replaceFirst goal r); simpl; split;
      congruence.
Qed.

Lemma replaceFirst_find (goal : FrontGoal.t) (goals : list FrontGoal.t) :
  forall replaced,
    replaceFirst goal goals = Some replaced ->
    find (fun g => String.eqb (FrontGoal.id g) (FrontGoal.id goal)) replaced
    = Some goal
    /\ List.length replaced = List.length goals
    /\ replaceFirst goal replaced = Some replaced.
Proof.
  induction goals as [|g r IH]; simpl; intros replaced; [discriminate|].
  destruct (String.eqb (FrontGoal.id g) (FrontGoal.id goal)) eqn:E.
  - intros [= <-]. simpl. now rewrite String.eqb_refl.
  - destruct (replaceFirst goal r) as [r'|]; simpl; [|discriminate].
    intros [= <-]. destruct (IH r' eq_refl) as (Hfind & Hlen & Hagain).
    simpl. rewrite E, Hfind, Hlen, Hagain. now repeat split.
Qed.

Lemma filter_absent (goalId : string) (goals : list FrontGoal.t) :
  existsb (fun g => String.eqb (FrontGoal.id g) goalId) goals = false ->
  filter (fun g => negb (String.eqb (FrontGoal.id g) goalId)) goals = goals.
Proof.
  induction goals as [|g r IH]; simpl; [reflexivity|].
  destruct (String.eqb (FrontGoal.id g) goalId); simpl; [discriminate|].
  intros H. now rewrite (IH H).
Qed.

(** X18.  In the local store of the frontend, a goal that has been saved
    under a date is the one found there under its identifier; saving it
    again changes nothing; saving a goal whose identifier is in the list
    keeps the length of the list, and saving a new one puts it first.
    Removing a goal that was saved as a new one gives back the list as it
    was. *)
Theorem local_upsert_then_find (dateKey : string) (goal : FrontGoal.t)
        (goalsByDate : GoalsByDate) :
  let before := orKeep (JsMap.get dateKey goalsByDate) [] in
  let saved := upsertLocal dateKey goal goalsByDate in
  let after := orKeep (JsMap.get dateKey saved) [] in
  let known :=
    existsb (fun g => String.eqb (FrontGoal.id g) (FrontGoal.id goal))
            before in
  find (fun g => String.eqb (FrontGoal.id g) (FrontGoal.id goal)) after
  = Some goal
  /\ upsertLocal dateKey goal saved = saved
  /\ (if known then List.length after = List.length before
      else after = goal :: before
           /\ JsMap.get dateKey
                (removeLocal dateKey (FrontGoal.id goal) saved)
              = Some before).
Proof.
  cbv zeta. unfold upsertLocal. cbv zeta.
  rewrite JsMapFacts.get_set_same. cbn [orKeep].
  set (before := orKeep (JsMap.get dateKey goalsByDate) []).
  destruct (replaceFirst goal before) as [replaced|] eqn:Hrep.
  - destruct (replaceFirst_find goal before replaced Hrep)
      as (Hfind & Hlen & Hagain).
    rewrite Hagain, Toggle.set_set.
    split; [exact Hfind|]. split; [reflexivity|].
    destruct (existsb _ before) eqn:Hex; [exact Hlen|].
    apply replaceFirst_none in Hex. congruence.
  - cbn [replaceFirst]. rewrite String.eqb_refl, Toggle.set_set.
    split; [cbn; now rewrite String.eqb_refl|]. split; [reflexivity|].
    pose proof (proj1 (replaceFirst_none goal before) Hrep) as Hex.
    rewrite Hex. split; [reflexivity|].
    unfold removeLocal. rewrite JsMapFacts.get_set_same. cbn [orKeep].
    rewrite JsMapFacts.get_set_same. cbn [orKeep filter].
    rewrite String.eqb_refl. cbn [negb].
    now rewrite (filter_absent _ _ Hex).
Qed.

End LocalStore.

(** ** Creating, fetching and deleting a goal *)

Section CreateFetchDelete.

Variable zodRequired : string.
Variable zodInvalidEnum : string -> string.
Variable toISOString : string -> option string.
Variable createGoalInDatabase : string -> GoalData.t -> Date -> M GoalResponse.t.
Variable getUserGoalsInDatabase : string -> Filters.t -> M (list GoalResponse.t).
Variable deleteGoalInDatabase : string -> string -> M string.

Local Abbreviation parseGoalBody :=
  (goalSchema zodRequired zodInvalidEnum toISOString).
Local Abbreviation postGoal :=
  (createGoalHandler zodRequired zodInvalidEnum toISOString
                     createGoalInDatabase).
Local Abbreviation getGoal := (getGoalHandler getUserGoalsInDatabase).
Local Abbreviation deleteGoalRequest :=
  (deleteGoalHandler deleteGoalInDatabase).

Lemma subtasksSchema_data (bodies : list SubtaskBody.t) :
  forall index,
    fst (subtasksSchema zodRequired index bodies)
    = List.map (fun body =>
                  SubtaskData.mk (SubtaskBody.id body)
                                 (orKeep (SubtaskBody.title body) "")
                                 (SubtaskBody.description body)
                                 (orKeep (SubtaskBody.completed body) false))
               bodies.
Proof.
  induction bodies as [|body r IH]; intros index; cbn; [reflexivity|].
  specialize (IH (S index)).
  destruct (subtasksSchema zodRequired (S index) r) as [datas issues].
  cbn in *. now rewrite IH.
Qed.

(** What an accepted body of [POST /api/goals] holds, with the defaults of
    the schema. *)
Lemma goalSchema_fields (body : GoalBody.t) (data : GoalData.t) :
  parseGoalBody body = Parsed data ->
  GoalBody.title body = Some (GoalData.title data)
  /\ match GoalBody.priority body with
     | None => GoalData.priority data = MEDIUM
     | Some s => prioritySchema s = Some (GoalData.priority data)
     end
  /\ match GoalBody.status body with
     | None => GoalData.status data = ACTIVE
     | Some s => statusSchema s = Some (GoalData.status data)
     end
  /\ GoalData.subtasks data
     = List.map (fun body =>
                   SubtaskData.mk (SubtaskBody.id body)
                                  (orKeep (SubtaskBody.title body) "")
                                  (SubtaskBody.description body)
                                  (orKeep (SubtaskBody.completed body) false))
                (orKeep (GoalBody.subtasks body) []).
Proof.
  intros Hparse.
  destruct (goalSchema_title zodRequired zodInvalidEnum toISOString
              body data Hparse) as [Htitle _].
  split; [exact Htitle|]. revert Hparse. unfold goalSchema.
  destruct (enumKey _ _ _ (GoalBody.priority body)) as [p pi] eqn:Hp.
  destruct (enumKey _ _ _ (GoalBody.status body)) as [s si] eqn:Hs.
  destruct (dueDateTransform _ _) as [e|due]; [discriminate|].
  pose proof (subtasksSchema_data (orKeep (GoalBody.subtasks body) []) 0%nat)
    as Hsubs.
  destruct (subtasksSchema _ _ _) as [subs subi]. cbn [fst] in Hsubs.
  intros Hfin. apply finish_parsed in Hfin as [Hnil <-].
  apply app_eq_nil in Hnil as [_ Hnil].
  apply app_eq_nil in Hnil as [Hpi Hnil].
  apply app_eq_nil in Hnil as [Hsi _].
  cbn [GoalData.priority GoalData.status GoalData.subtasks].
  pose proof (enumKey_parsed zodInvalidEnum _ _ _ _ _ Hp Hpi) as Hp'.
  pose proof (enumKey_parsed zodInvalidEnum _ _ _ _ _ Hs Hsi) as Hs'.
  split.
  { destruct (GoalBody.priority body) as [x|].
    - destruct Hp' as [Hsome ->]. destruct p; [reflexivity|now destruct Hsome].
    - now rewrite Hp'. }
  split; [|exact Hsubs].
  destruct (GoalBody.status body) as [x|].
  - destruct Hs' as [Hsome ->]. destruct s; [reflexivity|now destruct Hsome].
  - now rewrite Hs'.
Qed.

Lemma newSubtasks_completed (goalId : string) (now : Date)
      (datas : list SubtaskData.t) :
  forall counter,
    List.map Subtask.completed (newSubtasks goalId now counter datas)
    = List.map (fun data => JsBool (SubtaskData.completed data)) datas.
Proof.
  induction datas as [|d r IH]; intros counter; cbn; [reflexivity|].
  now rewrite IH.
Qed.

Lemma find_app_none {A} (p : A -> bool) (l l' : list A) :
  find p l = None -> find p (l ++ l') = find p l'.
Proof.
  induction l as [|a r IH]; cbn; [reflexivity|].
  destruct (p a); [discriminate|exact IH].
Qed.

Lemma getGoal_run (userId id : string) (svc : GoalService.t) :
  GoalService.isDatabaseAvailable svc = false ->
  getGoal userId id svc
  = (match find (fun g => String.eqb (Goal.id (GoalResponse.goal g)) id)
                (goalsOf userId svc) with
     | None => mkResponse 404 (Failure "Goal not found")
     | Some goal => mkResponse 200 (Success None goal)
     end, svc).
Proof.
  intros Hdb. unfold getGoalHandler, getUserGoals, bind, this.
  cbv beta iota. rewrite Hdb. change (negb false) with true. cbv beta iota.
  rewrite CreateAndList.getUserGoalsInMemory_none.
  now destruct (find _ _).
Qed.

Lemma find_fresh (userId id : string) (svc : GoalService.t) :
  consistent svc ->
  JsMap.get id (GoalService.inMemoryGoals svc) = None ->
  find (fun g => String.eqb (Goal.id (GoalResponse.goal g)) id)
       (goalsOf userId svc) = None
  /\ filter (fun g => negb (String.eqb (Goal.id (GoalResponse.goal g)) id))
            (goalsOf userId svc) = goalsOf userId svc.
Proof.
  intros Hc Hnone.
  assert (Hall : forall g, In g (goalsOf userId svc) ->
                   String.eqb (Goal.id (GoalResponse.goal g)) id = false).
  { intros g Hin. unfold goalsOf in Hin.
    apply in_map_iff in Hin as (goal & <- & Hin).
    apply filter_In in Hin as [Hin _]. cbn [InMemory.withSubtasks
                                             GoalResponse.goal].
    apply String.eqb_neq. intros Heq.
    pose proof (Isolation.stored_goal svc goal Hc Hin) as Hget.
    rewrite Heq, Hnone in Hget. discriminate. }
  split.
  - destruct (find _ _) as [g|] eqn:Hfind; [|reflexivity].
    apply find_some in Hfind as [Hin Heq]. now rewrite (Hall g Hin) in Heq.
  - apply forallb_filter_id, forallb_forall. intros g Hin.
    now rewrite (Hall g Hin).
Qed.

(** X19.  On a well-formed in-memory store, an accepted Create Goal
    request is answered 201 with a goal that has the title of the body, the
    priority and the status of the body or else [MEDIUM] and [ACTIVE], and
    the subtasks of the body with [completed] as given or else false: the
    status is stored as requested, not derived from the subtasks.  Fetching
    the goal by its identifier then returns the same goal with the same
    subtasks to its owner and 404 to every other user.  After its owner
    has deleted it, fetching it returns 404 and the owner's list of goals
    is the list from before the creation. *)
Theorem created_goal_is_fetched_until_deleted
        (userId : string) (body : GoalBody.t) (data : GoalData.t)
        (now : Date) (svc : GoalService.t) :
  GoalService.isDatabaseAvailable svc = false ->
  consistent svc ->
  parseGoalBody body = Parsed data ->
  let result := postGoal userId body now svc in
  exists created,
    fst result
    = mkResponse 201 (Success (Some "Goal created successfully") created)
    /\ GoalBody.title body = Some (Goal.title (GoalResponse.goal created))
    /\ match GoalBody.priority body with
       | None => Goal.priority (GoalResponse.goal created) = MEDIUM
       | Some s =>
           prioritySchema s = Some (Goal.priority (GoalResponse.goal created))
       end
    /\ match GoalBody.status body with
       | None => Goal.status (GoalResponse.goal created) = ACTIVE
       | Some s =>
           statusSchema s = Some (Goal.status (GoalResponse.goal created))
       end
    /\ List.map Subtask.completed (GoalResponse.subtasks created)
       = List.map (fun subtask =>
                     JsBool (orKeep (SubtaskBody.completed subtask) false))
                  (orKeep (GoalBody.subtasks body) [])
    /\ getGoal userId (Goal.id (GoalResponse.goal created)) (snd result)
       = (mkResponse 200 (Success None created), snd result)
    /\ (forall other,
          other <> userId ->
          getGoal other (Goal.id (GoalResponse.goal created)) (snd result)
          = (mkResponse 404 (Failure "Goal not found"), snd result))
    /\ let deleted :=
         deleteGoalRequest userId (Goal.id (GoalResponse.goal created))
                           (snd result) in
       code (fst deleted) = 200%nat
       /\ fst (getGoal userId (Goal.id (GoalResponse.goal created))
                       (snd deleted))
          = mkResponse 404 (Failure "Goal not found")
       /\ goalsOf userId (snd deleted) = goalsOf userId svc.
Proof.
  intros Hdb Hc Hparse result. subst result.
  destruct (goalSchema_fields body data Hparse)
    as (Htitle & Hpriority & Hstatus & Hsubtasks).
  pose proof Hc as (_ & _ & _ & _ & _ & Hfg & _).
  pose proof (Hfg _ (le_n _)) as Hfresh.
  pose proof (CreateAndList.createGoalInMemory_goalsOf userId data now svc Hc)
    as Hlist.
  pose proof (ShapeKept.createGoalInMemory_keeps svc userId now data Hc)
    as Hc'.
  rewrite Runs.createGoalInMemory_run in Hc'.
  unfold createGoalHandler, createGoal, respond.
  unfold bind at 1. rewrite Hparse. unfold validated, ret.
  unfold bind, this. cbv beta iota.
  replace (negb (GoalService.isDatabaseAvailable svc)) with true
    by now rewrite Hdb.
  cbv beta iota.
  rewrite Runs.createGoalInMemory_run. cbv zeta. cbn [fst snd].
  set (goal := newGoal userId data now (GoalService.goalIdCounter svc))
    in *.
  set (subtasks := newSubtasks (Goal.id goal) now
                     (GoalService.subtaskIdCounter svc)
                     (GoalData.subtasks data)) in *.
  set (svc' := GoalService.mk _ _ _ _ _ _).
  change (consistent svc') in Hc'.
  change (forall u,
            goalsOf u svc'
            = goalsOf u svc
              ++ (if String.eqb userId u
                  then [GoalResponse.mk goal subtasks [] []] else []))
    in Hlist.
  assert (Hdb' : GoalService.isDatabaseAvailable svc' = false) by exact Hdb.
  change (numbered "goal-" (GoalService.goalIdCounter svc))
    with (Goal.id goal) in Hfresh.
  exists (GoalResponse.mk goal subtasks [] []).
  cbn [GoalResponse.goal GoalResponse.subtasks].
  split; [reflexivity|]. split; [exact Htitle|].
  split; [exact Hpriority|]. split; [exact Hstatus|].
  split.
  { subst subtasks.
    rewrite newSubtasks_completed, Hsubtasks, map_map. reflexivity. }
  split.
  { rewrite (getGoal_run _ _ _ Hdb'), Hlist, String.eqb_refl.
    destruct (find_fresh userId _ svc Hc Hfresh) as [Hfind _].
    rewrite (find_app_none _ _ _ Hfind). cbn [find GoalResponse.goal].
    now rewrite String.eqb_refl. }
  split.
  { intros other Hother. rewrite (getGoal_run _ _ _ Hdb'), Hlist.
    apply String.eqb_neq in Hother. rewrite String.eqb_sym, Hother.
    rewrite app_nil_r.
    destruct (find_fresh other _ svc Hc Hfresh) as [Hfind _].
    now rewrite Hfind. }
  cbv zeta.
  assert (Hdel : deleteGoalRequest userId (Goal.id goal) svc'
                 = (mkResponse 200 (Success (Some "Goal deleted successfully")
                                            tt),
                    GoalService.mk
                      (GoalService.prisma svc')
                      (GoalService.isDatabaseAvailable svc')
                      (JsMap.delete (Goal.id goal)
                                    (GoalService.inMemoryGoals svc'))
                      (InMemory.deleteSubtasksOf (Goal.id goal)
                         (GoalService.inMemorySubtasks svc')
                         (GoalService.inMemorySubtasks svc'))
                      (GoalService.goalIdCounter svc')
                      (GoalService.subtaskIdCounter svc'))).
  { unfold deleteGoalHandler, deleteGoal, bind, this. cbv beta iota.
    replace (negb (GoalService.isDatabaseAvailable svc')) with true
      by now rewrite Hdb'.
    cbv beta iota. rewrite Delete.deleteGoalInMemory_run.
    replace (JsMap.get (Goal.id goal) (GoalService.inMemoryGoals svc'))
      with (Some goal) by (symmetry; apply JsMapFacts.get_set_same).
    cbn [InMemory.notOwned]. change (Goal.ownerId goal) with userId.
    rewrite String.eqb_refl. reflexivity. }
  rewrite Hdel. cbn [fst snd code].
  split; [reflexivity|].
  set (svc'' := GoalService.mk _ _ (JsMap.delete _ _) _ _ _).
  assert (Hdb'' : GoalService.isDatabaseAvailable svc'' = false)
    by exact Hdb.
  assert (Hafter : goalsOf userId svc'' = goalsOf userId svc).
  { unfold svc''. rewrite (DeleteFrame.deleted_goalsOf svc' _ _ Hc').
    rewrite Hlist, String.eqb_refl, filter_app.
    destruct (find_fresh userId _ svc Hc Hfresh) as [_ Hfilter].
    rewrite Hfilter. cbn [filter GoalResponse.goal].
    rewrite String.eqb_refl. cbn [negb]. apply app_nil_r. }
  split; [|exact Hafter].
  rewrite (getGoal_run _ _ _ Hdb''), Hafter.
  destruct (find_fresh userId _ svc Hc Hfresh) as [Hfind _].
  now rewrite Hfind.
Qed.

End CreateFetchDelete.

Lemma created_goal_is_fetched_until_deleted_witness :
  let result :=
    createGoalHandler sampleRequired sampleInvalidEnum sampleToISOString
                      (fun _ _ _ => noDatabase) "user-2"
                      (GoalBody.mk (Some "Ship it") None None None None None
                                   None None
                                   (Some [SubtaskBody.mk None (Some "Pack")
                                                         None (Some true)]))
                      5 demoService in
  exists created,
    getGoalHandler (fun _ _ => noDatabase) "user-2"
                   (Goal.id (GoalResponse.goal created)) (snd result)
    = (mkResponse 200 (Success None created), snd result)
    /\ Goal.status (GoalResponse.goal created) = ACTIVE
    /\ List.map Subtask.completed (GoalResponse.subtasks created)
       = [JsBool true].
Proof.
  cbv zeta.
  destruct (created_goal_is_fetched_until_deleted
              sampleRequired sampleInvalidEnum sampleToISOString
              (fun _ _ _ => noDatabase) (fun _ _ => noDatabase)
              (fun _ _ => noDatabase)
              "user-2"
              (GoalBody.mk (Some "Ship it") None None None None None
                           None None
                           (Some [SubtaskBody.mk None (Some "Pack")
                                                 None (Some true)]))
              (GoalData.mk "Ship it" None MEDIUM ACTIVE None None [] []
                           [SubtaskData.mk None "Pack" None true])
              5 demoService eq_refl ShapeKept.demo_consistent eq_refl)
    as (created & _ & _ & _ & Hstatus & Hsubs & Hget & _).
  exists created. split; [exact Hget|]. split; [exact Hstatus|exact Hsubs].
Defined.

(** ** The fallback of the subtask generation *)

Section Generation.

Variable R : Type.
Variable isGeminiAvailable : bool.
Variable buildSubtaskPrompt : string -> LLM.Context -> string.
Variable generateContent : string -> option string.
Variable parseSubtasksResponse : string -> option R.

Local Abbreviation generate :=
  (generateSubtasks R isGeminiAvailable buildSubtaskPrompt generateContent
                    parseSubtasksResponse).
Local Abbreviation handler :=
  (generateSubtasksHandler R isGeminiAvailable buildSubtaskPrompt
                           generateContent parseSubtasksResponse).






End Generation.


(** ** The two stores behind a toggle request *)

Module SameRows.

Import InMemory InMemoryFacts.

Lemma toggleSubtask_isDatabaseAvailable (userId subtaskId : string)
      (now : Date) (svc : GoalService.t) :
  GoalService.isDatabaseAvailable
    (snd (Service.toggleSubtask userId subtaskId now svc))
  = GoalService.isDatabaseAvailable svc.
Proof.
  destruct (GoalService.isDatabaseAvailable svc) eqn:Hdb.
  - unfold Service.toggleSubtask, bind, this. cbv beta iota. rewrite Hdb.
    cbn [negb]. cbv zeta.
    destruct (Prisma.subtask_findFirst _ _) as [subtask|]; [|exact Hdb].
    unfold Service.withDatabase, bind, this. cbv beta iota.
    destruct (Prisma.subtask_update _ _ _ _) as [[row db]|]; exact Hdb.
  - rewrite (Toggle.toggleSubtask_inMemory _ _ _ _ Hdb).
    rewrite Toggle.toggleSubtaskInMemory_isDatabaseAvailable. exact Hdb.
Qed.

(** On stores that hold the same rows, the completion check returns in the
    in-memory store exactly when it returns in the Prisma-backed one, and
    it leaves the same rows; when it throws, both throw the same error and
    both stores are unchanged. *)
Lemma checkAndUpdateGoalCompletion_same_rows (userId goalId : string)
      (now : Date) (memory database : GoalService.t) :
  GoalService.isDatabaseAvailable memory = false ->
  GoalService.isDatabaseAvailable database = true ->
  keyed Goal.id (GoalService.inMemoryGoals memory) ->
  JsMap.wf (GoalService.inMemoryGoals memory) ->
  sameRows memory database ->
  match Service.checkAndUpdateGoalCompletion userId goalId now memory,
        Service.checkAndUpdateGoalCompletion userId goalId now database with
  | (Return _, memory'), (Return _, database') =>
      sameRows memory' database'
  | (Throw e, memory'), (Throw e', database') =>
      e = e' /\ memory' = memory /\ database' = database
  | _, _ => False
  end.
Proof.
  intros Hmem Hdb Hkg Hwg (Hgoals & Hsubs).
  rewrite (Toggle.checkAndUpdateGoalCompletion_inMemory _ _ _ _ Hmem).
  rewrite checkAndUpdateGoalCompletionInMemory_run.
  unfold Service.checkAndUpdateGoalCompletion, bind, this.
  cbv beta iota. rewrite Hdb. cbn [negb]. cbv zeta.
  unfold Prisma.goal_findFirst. rewrite Hgoals.
  rewrite (Stores.get_find Goal.id goalId _ Hkg).
  destruct (find (fun row => String.eqb (Goal.id row) goalId)
                 (JsMap.values (GoalService.inMemoryGoals memory)))
    as [goal|] eqn:Hfind.
  - assert (Hget : JsMap.get goalId (GoalService.inMemoryGoals memory)
                   = Some goal)
      by now rewrite (Stores.get_find Goal.id goalId _ Hkg).
    rewrite (Stores.find_and _ _ _ goal Hfind
               (Stores.keyed_unique Goal.id goalId _ goal Hkg Hwg Hget)).
    destruct (String.eqb (Goal.ownerId goal) userId); cbn [negb];
      [|now repeat split].
    pose proof (JsMapMore.keyed_get _ _ _ _ Hkg Hget) as Hid.
    unfold Prisma.subtasksOf. rewrite Hid, Hsubs.
    change (filter (fun subtask => String.eqb (Subtask.goalId subtask) goalId)
              (JsMap.values (GoalService.inMemorySubtasks memory)))
      with (subtasksOf goalId memory).
    change (forallb (fun subtask => truthy (Subtask.completed subtask))
                   (subtasksOf goalId memory))
      with (allCompleted goalId memory).
    destruct (0 <? List.length (subtasksOf goalId memory))%nat;
      [|now split].
    unfold recompute.
    assert (Hupdate : forall status,
      Service.withDatabase
        (Prisma.goal_update goalId (Goal.set_status status) now) database
      = (Return (Goal.set_updatedAt now (Goal.set_status status goal)),
         GoalService.set_prisma
           (Database.mk
              (Prisma.updateRows Goal.id goalId
                 (fun row => Goal.set_updatedAt now
                               (Goal.set_status status row))
                 (JsMap.values (GoalService.inMemoryGoals memory)))
              (JsMap.values (GoalService.inMemorySubtasks memory)))
           database)).
    { intros status.
      unfold Service.withDatabase, bind, this, Prisma.goal_update.
      cbv beta iota zeta. rewrite Hgoals, Hsubs, Hfind. reflexivity. }
    assert (Hrows : forall status,
      JsMap.values
        (JsMap.set goalId
           (Goal.set_updatedAt now (Goal.set_status status goal))
           (GoalService.inMemoryGoals memory))
      = Prisma.updateRows Goal.id goalId
          (fun row => Goal.set_updatedAt now (Goal.set_status status row))
          (JsMap.values (GoalService.inMemoryGoals memory))).
    { intros status.
      apply (Stores.values_set_updateRows Goal.id goalId
               (fun row => Goal.set_updatedAt now
                             (Goal.set_status status row))
               _ goal Hkg Hwg Hget). }
    destruct (allCompleted goalId memory
              && negb (Status_eqb (Goal.status goal) COMPLETED)).
    { rewrite Hupdate. unfold ret, sameRows.
      cbn [GoalService.prisma GoalService.set_prisma
           GoalService.inMemoryGoals GoalService.inMemorySubtasks
           GoalService.set_inMemoryGoals Database.goal Database.subtask].
      split; [symmetry; apply Hrows|reflexivity]. }
    destruct (negb (allCompleted goalId memory)
              && Status_eqb (Goal.status goal) COMPLETED).
    { rewrite Hupdate. unfold ret, sameRows.
      cbn [GoalService.prisma GoalService.set_prisma
           GoalService.inMemoryGoals GoalService.inMemorySubtasks
           GoalService.set_inMemoryGoals Database.goal Database.subtask].
      split; [symmetry; apply Hrows|reflexivity]. }
    now split.
  - rewrite (Stores.find_and_none _ _ _ Hfind). now repeat split.
Qed.

Lemma toggleSubtask_handler_general (userId subtaskId : string) (now : Date)
      (svc : GoalService.t) :
  GoalController.toggleSubtask userId subtaskId now svc =
  match Service.toggleSubtask userId subtaskId now svc with
  | (Return subtask, svc1) =>
      match Service.checkAndUpdateGoalCompletion
              userId (Subtask.goalId subtask) now svc1 with
      | (Return _, svc2) =>
          (mkResponse 200 (Success (Some "Subtask updated successfully")
                                   subtask), svc2)
      | (Throw (Error m), svc2) => (mkResponse 400 (Failure m), svc2)
      end
  | (Throw (Error m), svc1) => (mkResponse 400 (Failure m), svc1)
  end.
Proof.
  unfold GoalController.toggleSubtask, respond, bind, ret.
  destruct (Service.toggleSubtask userId subtaskId now svc)
    as [[subtask|[m]] svc1]; [|reflexivity].
  destruct (Service.checkAndUpdateGoalCompletion _ _ _ svc1)
    as [[u|[m]] svc2]; reflexivity.
Qed.

(** X21.  On a well-formed in-memory store and a database that hold the
    same rows, a toggle request gets the same status from both; when it
    succeeds, both return the same subtask and the two stores hold the same
    rows afterwards, the new status of the goal included; when it fails,
    both stores are unchanged. *)
Theorem toggle_request_same_rows (userId subtaskId : string) (now : Date)
        (memory database : GoalService.t) :
  GoalService.isDatabaseAvailable memory = false ->
  GoalService.isDatabaseAvailable database = true ->
  consistent memory ->
  sameRows memory database ->
  let inMemory := GoalController.toggleSubtask userId subtaskId now memory in
  let inDatabase :=
    GoalController.toggleSubtask userId subtaskId now database in
  code (fst inMemory) = code (fst inDatabase)
  /\ match json (fst inMemory), json (fst inDatabase) with
     | Success message subtask, Success message' subtask' =>
         message = message' /\ subtask = subtask'
         /\ sameRows (snd inMemory) (snd inDatabase)
     | Failure _, Failure _ =>
         snd inMemory = memory /\ snd inDatabase = database
     | _, _ => False
     end.
Proof.
  intros Hmem Hdb Hc Hrows.
  pose proof Hc as (Hkg & Hks & Hwg & Hws & _).
  pose proof (Stores.toggleSubtask_same_rows userId subtaskId now
                memory database Hmem Hdb (conj Hkg (conj Hks Hws)) Hrows)
    as Htoggle.
  pose proof (toggleSubtask_isDatabaseAvailable userId subtaskId now memory)
    as Hmem1.
  pose proof (toggleSubtask_isDatabaseAvailable userId subtaskId now database)
    as Hdb1.
  pose proof (ShapeKept.toggleSubtaskInMemory_keeps memory userId subtaskId
                now Hc) as Hc1.
  rewrite <- (Toggle.toggleSubtask_inMemory _ _ _ _ Hmem) in Hc1.
  assert (Hreturns :
    forall subtask memory1,
      Service.toggleSubtask userId subtaskId now memory
      = (Return subtask, memory1) ->
      fst (checkAndUpdateGoalCompletionInMemory
             userId (Subtask.goalId subtask) now memory1) = Return tt).
  { intros subtask memory1.
    rewrite (Toggle.toggleSubtask_inMemory _ _ _ _ Hmem).
    rewrite toggleSubtaskInMemory_run.
    destruct (JsMap.get subtaskId _) as [old|]; [|discriminate].
    destruct (notOwned _ _) eqn:Hown; [discriminate|].
    intros [= <- <-]. now apply Atomic.check_returns. }
  cbv zeta. rewrite !toggleSubtask_handler_general.
  destruct (Service.toggleSubtask userId subtaskId now memory)
    as [[a|[ma]] memory1];
    destruct (Service.toggleSubtask userId subtaskId now database)
      as [[b|[mb]] database1]; try contradiction.
  - destruct Htoggle as [<- Hrows1]. cbn [snd] in Hmem1, Hdb1, Hc1.
    rewrite Hmem in Hmem1. rewrite Hdb in Hdb1.
    destruct Hc1 as (Hkg1 & _ & Hwg1 & _).
    pose proof (checkAndUpdateGoalCompletion_same_rows
                  userId (Subtask.goalId a) now memory1 database1
                  Hmem1 Hdb1 Hkg1 Hwg1 Hrows1) as Hcheck.
    pose proof (Hreturns a memory1 eq_refl) as Hret.
    rewrite <- (Toggle.checkAndUpdateGoalCompletion_inMemory _ _ _ _ Hmem1)
      in Hret.
    destruct (Service.checkAndUpdateGoalCompletion
                userId (Subtask.goalId a) now memory1)
      as [[u|e] memory2]; [|discriminate].
    destruct (Service.checkAndUpdateGoalCompletion
                userId (Subtask.goalId a) now database1)
      as [[u'|e'] database2]; [|contradiction].
    cbn [fst snd code json].
    split; [reflexivity|]. split; [reflexivity|].
    split; [reflexivity|exact Hcheck].
  - destruct Htoggle as [-> ->]. cbn [fst snd code json].
    split; [reflexivity|]. split; reflexivity.
Qed.

Lemma toggle_request_same_rows_witness :
  let inMemory :=
    GoalController.toggleSubtask "user-1" "subtask-2" 3 demoService in
  let inDatabase :=
    GoalController.toggleSubtask "user-1" "subtask-2" 3 demoDatabaseService in
  code (fst inMemory) = code (fst inDatabase)
  /\ match json (fst inMemory), json (fst inDatabase) with
     | Success message subtask, Success message' subtask' =>
         message = message' /\ subtask = subtask'
         /\ sameRows (snd inMemory) (snd inDatabase)
     | Failure _, Failure _ =>
         snd inMemory = demoService /\ snd inDatabase = demoDatabaseService
     | _, _ => False
     end.
Proof.
  exact (toggle_request_same_rows "user-1" "subtask-2" 3
           demoService demoDatabaseService eq_refl eq_refl
           ShapeKept.demo_consistent (proj2 Stores.demo_same_rows)).
Defined.

End SameRows.

(** ** Registering and logging in *)

Section AccountFacts.

Variable hashPassword : string -> string -> string.
Variable comparePassword : string -> string -> bool.
Variable jwtSign : Claims.t -> Date -> string.

Local Abbreviation register := (registerInMemory hashPassword jwtSign).
Local Abbreviation login := (loginInMemory comparePassword jwtSign).

Lemma find_after_set {V} (p : V -> bool) (k : string) (v : V)
      (m : JsMap.t V) :
  existsb p (JsMap.values m) = false ->
  p v = true ->
  find p (JsMap.values (JsMap.set k v m)) = Some v
  /\ existsb p (JsMap.values (JsMap.set k v m)) = true.
Proof.
  intros Hnone Hv.
  induction m as [|[k0 v0] r IH]; cbn in *.
  - now rewrite Hv.
  - apply orb_false_iff in Hnone as [Hv0 Hr].
    destruct (String.eqb k0 k); cbn.
    + now rewrite Hv.
    + rewrite Hv0. cbn. now apply IH.
Qed.

(** X22.  A registration on the in-memory accounts either finds the email
    in use, throws "User with this email already exists" and changes
    nothing, or it creates the account under the next identifier.  After
    that, a login with the same email and a password that the stored hash
    accepts returns the same user and changes nothing; a login with a
    password that the hash refuses is answered "Invalid email or password",
    the answer that an unknown email gets; and another registration with the
    same email is refused. *)
Theorem register_then_login (data : RegisterData.t) (salt : string)
        (now later : Date) (auth : AuthService.t) :
  let '(outcome, auth') := register data salt now auth in
  let taken :=
    existsb (fun user => String.eqb (User.email user)
                                    (RegisterData.email data))
            (JsMap.values (AuthService.inMemoryUsers auth)) in
  match outcome with
  | Throw e =>
      taken = true
      /\ e = Error "User with this email already exists"
      /\ auth' = auth
  | Return session =>
      taken = false
      /\ UserWithoutPassword.id (Session.user session)
         = numbered "user-" (AuthService.userIdCounter auth)
      /\ UserWithoutPassword.email (Session.user session)
         = RegisterData.email data
      /\ (forall password,
            login (LoginData.mk (RegisterData.email data) password) later
                  auth'
            = if comparePassword password
                   (hashPassword (RegisterData.password data) salt)
              then (Return (Session.mk (Session.user session)
                              (generateTokens jwtSign
                                 (UserWithoutPassword.id
                                    (Session.user session)) later)),
                    auth')
              else (Throw (Error "Invalid email or password"), auth'))
      /\ (forall email password,
            find (fun user => String.eqb (User.email user) email)
                 (JsMap.values (AuthService.inMemoryUsers auth')) = None ->
            login (LoginData.mk email password) later auth'
            = (Throw (Error "Invalid email or password"), auth'))
      /\ (forall again salt' now',
            RegisterData.email again = RegisterData.email data ->
            register again salt' now' auth'
            = (Throw (Error "User with this email already exists"), auth'))
  end.
Proof.
  unfold registerInMemory.
  destruct (existsb _ (JsMap.values (AuthService.inMemoryUsers auth)))
    eqn:Htaken.
  - now repeat split.
  - cbv zeta.
    set (user := User.mk _ _ _ _ _ now).
    destruct (find_after_set
                (fun u => String.eqb (User.email u) (RegisterData.email data))
                (numbered "user-" (AuthService.userIdCounter auth)) user
                (AuthService.inMemoryUsers auth) Htaken
                (String.eqb_refl _)) as [Hfind Hexists].
    split; [reflexivity|]. split; [reflexivity|]. split; [reflexivity|].
    split.
    { intros password. unfold loginInMemory.
      cbn [AuthService.inMemoryUsers LoginData.email LoginData.password].
      rewrite Hfind. cbn [User.passwordHash user].
      now destruct (comparePassword _ _). }
    split.
    { intros email password Hnone. unfold loginInMemory.
      cbn [LoginData.email]. now rewrite Hnone. }
    intros again salt' now' Hsame.
    cbn [AuthService.inMemoryUsers]. now rewrite Hsame, Hexists.
Qed.

End AccountFacts.

(** ** The first account and the demo goals *)

Section FirstAccount.

Variable hashPassword : string -> string -> string.
Variable jwtSign : Claims.t -> Date -> string.
Variable jwtVerify : string -> option Claims.t.
Variable zodRequired : string.
Variable zodInvalidEnum : string -> string.
Variable toISOString : string -> option string.
Variable createGoalInDatabase : string -> GoalData.t -> Date -> M GoalResponse.t.
Variable updateGoalInDatabase :
  string -> string -> GoalUpdate.t -> Date -> M GoalResponse.t.
Variable getUserGoalsInDatabase : string -> Filters.t -> M (list GoalResponse.t).
Variable deleteGoalInDatabase : string -> string -> M string.

(** A token that was signed verifies, with the payload that was signed. *)
Hypothesis jwt_round_trip :
  forall userId type now,
    type = "access" \/ type = "refresh" ->
    jwtVerify (jwtSign (Claims.mk userId type) now)
    = Some (Claims.mk userId type).

Local Abbreviation register := (registerInMemory hashPassword jwtSign).
Local Abbreviation serving :=
  (serve jwtVerify zodRequired zodInvalidEnum toISOString
         createGoalInDatabase updateGoalInDatabase getUserGoalsInDatabase
         deleteGoalInDatabase).

Lemma bearer_access (userId : string) (now : Date) :
  authenticate jwtVerify
    (Some ("Bearer "
           ++ Tokens.accessToken (generateTokens jwtSign userId now))%string)
  = inr userId.
Proof.
  unfold authenticate.
  destruct (bearer_token (Tokens.accessToken
                            (generateTokens jwtSign userId now)))
    as [Hprefix Htoken].
  rewrite Hprefix. cbn [negb]. cbv zeta. rewrite Htoken.
  unfold verifyToken, generateTokens. cbn [Tokens.accessToken].
  now rewrite jwt_round_trip by now left.
Qed.

Lemma bearer_refresh (userId : string) (now : Date) :
  authenticate jwtVerify
    (Some ("Bearer "
           ++ Tokens.refreshToken (generateTokens jwtSign userId now))%string)
  = inl (401%nat, "Invalid or expired token").
Proof.
  unfold authenticate.
  destruct (bearer_token (Tokens.refreshToken
                            (generateTokens jwtSign userId now)))
    as [Hprefix Htoken].
  rewrite Hprefix. cbn [negb]. cbv zeta. rewrite Htoken.
  unfold verifyToken, generateTokens. cbn [Tokens.refreshToken].
  now rewrite jwt_round_trip by now right.
Qed.

(** X23.  When the services start without a database, the first account
    that is registered is [user-1], the owner of the seeded demo goals: its
    access token fetches the demo goal [goal-1] from the goal routes.  The
    second account is [user-2]; its access token gets 404 for that goal, and
    its list of goals is empty.  A refresh token is refused by the goal
    routes. *)
Theorem first_account_owns_demo_goals
        (first second : RegisterData.t) (salt salt' : string)
        (now now' seeded asked : Date) :
  RegisterData.email second <> RegisterData.email first ->
  let store := snd (InMemory.seedDemoData seeded emptyService) in
  let bearer token := Some ("Bearer " ++ token)%string in
  let '(outcome, auth) := register first salt now AuthService.initial in
  let '(outcome', auth') := register second salt' now' auth in
  match outcome, outcome' with
  | Return session, Return session' =>
      let access := Tokens.accessToken (Session.tokens session) in
      let access' := Tokens.accessToken (Session.tokens session') in
      UserWithoutPassword.id (Session.user session) = "user-1"
      /\ UserWithoutPassword.id (Session.user session') = "user-2"
      /\ serving (Request.mk (bearer access) (GetGoal "goal-1") asked "")
                 store
         = (200%nat, store)
      /\ serving (Request.mk (bearer access') (GetGoal "goal-1") asked "")
                 store
         = (404%nat, store)
      /\ List.map (fun listed => Goal.id (GoalResponse.goal listed))
                  (goalsOf "user-1" store) = ["goal-1"; "goal-2"]
      /\ goalsOf "user-2" store = []
      /\ fst (serving (Request.mk
                         (bearer (Tokens.refreshToken
                                    (Session.tokens session)))
                         (GetGoal "goal-1") asked "") store)
         = 401%nat
  | _, _ => False
  end.
Proof.
  intros Hemail. cbv zeta. unfold registerInMemory.
  cbn [AuthService.initial AuthService.inMemoryUsers JsMap.empty
       JsMap.values List.map existsb AuthService.userIdCounter].
  cbv zeta.
  unfold JsMap.empty.
  cbn [AuthService.inMemoryUsers AuthService.userIdCounter JsMap.set
       JsMap.values List.map snd existsb User.email].
  apply String.eqb_neq in Hemail. rewrite String.eqb_sym, Hemail.
  cbn [orb].
  cbn [Session.user Session.tokens withoutPassword UserWithoutPassword.id
       User.id].
  change (numbered "user-" 1) with "user-1".
  change (numbered "user-" 2) with "user-2".
  split; [reflexivity|]. split; [reflexivity|].
  unfold serve. cbn [Request.authorization Request.route Request.now].
  rewrite !bearer_access, bearer_refresh.
  split; [reflexivity|]. split; [reflexivity|].
  split; [reflexivity|]. split; reflexivity.
Qed.

End FirstAccount.

Lemma prefix_append (p s : string) : String.prefix p (p ++ s) = true.
Proof.
  induction p as [|c r IH]; cbn; [now destruct s|].
  destruct (ascii_dec c c); [exact IH|congruence].
Qed.

Lemma substring_append (p s : string) :
  String.substring (String.length p)
                   (String.length (p ++ s) - String.length p) (p ++ s) = s.
Proof.
  induction p as [|c r IH]; cbn.
  - rewrite Nat.sub_0_r. apply substring_all.
  - exact IH.
Qed.

Lemma sample_jwt (userId type : string) (now : Date) :
  type = "access" \/ type = "refresh" ->
  sampleJwtVerify (type ++ ":" ++ userId)%string
  = Some (Claims.mk userId type).
Proof.
  intros [-> | ->]; unfold sampleJwtVerify.
  - change ("access" ++ ":" ++ userId)%string
      with ("access:" ++ userId)%string.
    rewrite prefix_append.
    pose proof (substring_append "access:" userId) as Hrest.
    change (String.length "access:") with 7%nat in Hrest.
    now rewrite Hrest.
  - change ("refresh" ++ ":" ++ userId)%string
      with ("refresh:" ++ userId)%string.
    rewrite prefix_append.
    replace (String.prefix "access:" ("refresh:" ++ userId)) with false
      by reflexivity.
    pose proof (substring_append "refresh:" userId) as Hrest.
    change (String.length "refresh:") with 8%nat in Hrest.
    now rewrite Hrest.
Qed.

Lemma first_account_owns_demo_goals_witness :
  List.map (fun listed => Goal.id (GoalResponse.goal listed))
           (goalsOf "user-1" demoService) = ["goal-1"; "goal-2"]
  /\ goalsOf "user-2" demoService = [].
Proof.
  pose proof (first_account_owns_demo_goals
                (fun password salt => (salt ++ password)%string)
                (fun claims _ =>
                   (Claims.type claims ++ ":" ++ Claims.userId claims)%string)
                sampleJwtVerify sampleRequired sampleInvalidEnum
                sampleToISOString
                (fun _ _ _ => noDatabase) (fun _ _ _ _ => noDatabase)
                (fun _ _ => noDatabase) (fun _ _ => noDatabase)
                sample_jwt
                (RegisterData.mk "ann@example.com" "secret1" None None)
                (RegisterData.mk "bob@example.com" "secret2" None None)
                "s1" "s2" 1 2 0 3) as H.
  cbv zeta in H. cbn in H.
  destruct H as (_ & _ & _ & _ & H1 & H2 & _); [discriminate|].
  split; assumption.
Defined.

(** ** Identifiers are not handed out twice *)

Module Gone.

Import InMemory InMemoryFacts Runs.

Lemma get_set_None {V} (k k' : string) (v : V) (m : JsMap.t V) :
  JsMap.get k' m = None -> k <> k' -> JsMap.get k' (JsMap.set k v m) = None.
Proof. intros H Hne. now rewrite JsMapFacts.get_set_other. Qed.

Lemma get_present_ne {V} (k k' : string) (v : V) (m : JsMap.t V) :
  JsMap.get k m = Some v -> JsMap.get k' m = None -> k <> k'.
Proof. intros H H' ->. congruence. Qed.

Lemma get_pairs_None (id goalId : string) (now : Date)
      (datas : list SubtaskData.t) :
  forall counter,
    (forall n, (counter <= n)%nat -> id <> numbered "subtask-" n) ->
    JsMap.get id
      (List.map (fun subtask => (Subtask.id subtask, subtask))
                (newSubtasks goalId now counter datas)) = None.
Proof.
  induction datas as [|d r IH]; intros counter Hspent; cbn [newSubtasks
    List.map JsMap.get Subtask.id]; [reflexivity|].
  destruct (String.eqb (numbered "subtask-" counter) id) eqn:E.
  - apply String.eqb_eq in E. symmetry in E.
    now destruct (Hspent counter (le_n _)).
  - apply IH. intros n Hn. apply Hspent. lia.
Qed.

Lemma get_deleteSubtasksOf_None (goalId id : string)
      (snapshot : list (string * Subtask.t)) :
  forall m,
    JsMap.get id m = None ->
    JsMap.get id (deleteSubtasksOf goalId snapshot m) = None.
Proof.
  unfold deleteSubtasksOf.
  induction snapshot as [|[k v] r IH]; intros m Hnone; cbn [fold_left];
    [exact Hnone|].
  apply IH. destruct (String.eqb _ _); [|exact Hnone].
  now apply JsMapMore.get_delete_None.
Qed.

Lemma perform_goalGone (id userId : string) (call : Call)
      (svc : GoalService.t) :
  goalGone id svc -> goalGone id (perform userId call svc).
Proof.
  intros (Hc & Hnone & Hspent).
  split; [now apply Calls.perform_consistent|].
  destruct call; unfold perform, spentGoalId.
  - rewrite createGoalInMemory_run. cbv zeta.
    cbn [snd GoalService.inMemoryGoals GoalService.goalIdCounter].
    split.
    + apply get_set_None; [exact Hnone|].
      cbn [newGoal Goal.id]. intros Heq.
      now destruct (Hspent _ (le_n _)).
    + intros n Hn. apply Hspent. lia.
  - rewrite updateGoalInMemory_run.
    destruct (JsMap.get goalId _) as [goal|] eqn:Hget; [|now split].
    destruct (negb _); [now split|].
    cbn [snd GoalService.inMemoryGoals GoalService.set_inMemoryGoals
         GoalService.goalIdCounter].
    split; [|exact Hspent].
    apply get_set_None; [exact Hnone|].
    exact (get_present_ne _ _ _ _ Hget Hnone).
  - rewrite toggleSubtaskInMemory_run.
    destruct (JsMap.get subtaskId _); [|now split].
    destruct (notOwned _ _); now split.
  - rewrite addSubtaskInMemory_run.
    destruct (notOwned _ _); now split.
  - rewrite updateSubtaskInMemory_run.
    destruct (JsMap.get subtaskId _); [|now split].
    destruct (negb _); [now split|].
    destruct (notOwned _ _); now split.
  - rewrite checkAndUpdateGoalCompletionInMemory_run.
    destruct (JsMap.get goalId _) as [goal|] eqn:Hget; [|now split].
    destruct (negb _); [now split|]. cbn [snd].
    destruct (0 <? _)%nat; [|now split].
    destruct (recompute _ _ _); [|now split].
    cbn [GoalService.inMemoryGoals GoalService.set_inMemoryGoals
         GoalService.goalIdCounter].
    split; [|exact Hspent].
    apply get_set_None; [exact Hnone|].
    exact (get_present_ne _ _ _ _ Hget Hnone).
  - rewrite Delete.deleteGoalInMemory_run.
    destruct (notOwned _ _); [now split|].
    cbn [snd GoalService.inMemoryGoals GoalService.goalIdCounter].
    split; [|exact Hspent].
    now apply JsMapMore.get_delete_None.
Qed.

Lemma perform_subtaskGone (id userId : string) (call : Call)
      (svc : GoalService.t) :
  subtaskGone id svc -> subtaskGone id (perform userId call svc).
Proof.
  intros (Hc & Hnone & Hspent).
  split; [now apply Calls.perform_consistent|].
  destruct call; unfold perform, spentSubtaskId.
  - rewrite createGoalInMemory_run. cbv zeta.
    cbn [snd GoalService.inMemorySubtasks GoalService.subtaskIdCounter].
    destruct Hc as (_ & _ & _ & _ & _ & _ & Hfs).
    split.
    + rewrite (CreateAndList.setAll_fresh _ _ _ _ _ Hfs).
      rewrite (CreateAndList.get_app_None _ _ _ Hnone).
      now apply get_pairs_None.
    + intros n Hn. apply Hspent. lia.
  - rewrite updateGoalInMemory_run.
    destruct (JsMap.get goalId _); [|now split].
    destruct (negb _); now split.
  - rewrite toggleSubtaskInMemory_run.
    destruct (JsMap.get subtaskId _) as [subtask|] eqn:Hget; [|now split].
    destruct (notOwned _ _); [now split|].
    cbn [snd GoalService.inMemorySubtasks GoalService.set_inMemorySubtasks
         GoalService.subtaskIdCounter].
    split; [|exact Hspent].
    apply get_set_None; [exact Hnone|].
    exact (get_present_ne _ _ _ _ Hget Hnone).
  - rewrite addSubtaskInMemory_run.
    destruct (notOwned _ _); [now split|]. cbv zeta.
    cbn [snd GoalService.inMemorySubtasks GoalService.subtaskIdCounter].
    split.
    + apply get_set_None; [exact Hnone|].
      cbn [addedSubtask Subtask.id]. intros Heq.
      now destruct (Hspent _ (le_n _)).
    + intros n Hn. apply Hspent. lia.
  - rewrite updateSubtaskInMemory_run.
    destruct (JsMap.get subtaskId _) as [subtask|] eqn:Hget; [|now split].
    destruct (negb _); [now split|].
    destruct (notOwned _ _); [now split|].
    cbn [snd GoalService.inMemorySubtasks GoalService.set_inMemorySubtasks
         GoalService.subtaskIdCounter].
    split; [|exact Hspent].
    apply get_set_None; [exact Hnone|].
    exact (get_present_ne _ _ _ _ Hget Hnone).
  - rewrite checkAndUpdateGoalCompletionInMemory_run.
    destruct (JsMap.get goalId _); [|now split].
    destruct (negb _); [now split|]. cbn [snd].
    destruct (0 <? _)%nat; [|now split].
    destruct (recompute _ _ _); now split.
  - rewrite Delete.deleteGoalInMemory_run.
    destruct (notOwned _ _); [now split|].
    cbn [snd GoalService.inMemorySubtasks GoalService.subtaskIdCounter].
    split; [|exact Hspent].
    now apply get_deleteSubtasksOf_None.
Qed.

End Gone.

Section NeverAgain.

Variable jwtVerify : string -> option Claims.t.
Variable zodRequired : string.
Variable zodInvalidEnum : string -> string.
Variable toISOString : string -> option string.
Variable createGoalInDatabase : string -> GoalData.t -> Date -> M GoalResponse.t.
Variable updateGoalInDatabase :
  string -> string -> GoalUpdate.t -> Date -> M GoalResponse.t.
Variable getUserGoalsInDatabase : string -> Filters.t -> M (list GoalResponse.t).
Variable deleteGoalInDatabase : string -> string -> M string.

Local Abbreviation servingAll :=
  (serveAll jwtVerify zodRequired zodInvalidEnum toISOString
            createGoalInDatabase updateGoalInDatabase getUserGoalsInDatabase
            deleteGoalInDatabase).

Lemma serveAll_kept (P : GoalService.t -> Prop) :
  (forall userId call svc, P svc -> P (perform userId call svc)) ->
  forall requests svc,
    GoalService.isDatabaseAvailable svc = false ->
    P svc ->
    P (servingAll requests svc)
    /\ GoalService.isDatabaseAvailable (servingAll requests svc) = false.
Proof.
  intros Hstep. unfold serveAll.
  induction requests as [|request r IH]; intros svc Hdb HP;
    cbn [fold_left]; [now split|].
  assert (Hnext :
    P (snd (serve jwtVerify zodRequired zodInvalidEnum toISOString
              createGoalInDatabase updateGoalInDatabase
              getUserGoalsInDatabase deleteGoalInDatabase request svc))
    /\ GoalService.isDatabaseAvailable
         (snd (serve jwtVerify zodRequired zodInvalidEnum toISOString
                 createGoalInDatabase updateGoalInDatabase
                 getUserGoalsInDatabase deleteGoalInDatabase request svc))
       = false).
  { destruct (authenticate jwtVerify (Request.authorization request))
      as [[status error]|userId] eqn:Hauth.
    - rewrite (serve_rejected _ _ _ _ _ _ _ _ _ _ _ _ Hauth). now split.
    - destruct (Calls.serve_calls zodRequired zodInvalidEnum toISOString
                  createGoalInDatabase updateGoalInDatabase
                  getUserGoalsInDatabase deleteGoalInDatabase
                  userId svc Hdb jwtVerify request Hauth) as [calls ->].
      apply (Calls.performAll_kept
               (fun svc => P svc
                           /\ GoalService.isDatabaseAvailable svc = false));
        [|now split].
      intros call svc0 [HP0 Hdb0]. split; [now apply Hstep|].
      now rewrite Calls.perform_isDatabaseAvailable. }
  destruct Hnext as [HP' Hdb']. now apply IH.
Qed.

(** X24.  On a well-formed in-memory store, an identifier that the counter
    has passed and that is not in the store, such as the identifier of a
    goal or of a subtask that has been deleted, is never in the store
    again, whatever requests follow: the goal or the subtask does not come
    back and no new one is given its identifier. *)
Theorem spent_identifier_stays_absent (id : string)
        (requests : list Request.t) (svc : GoalService.t) :
  GoalService.isDatabaseAvailable svc = false ->
  consistent svc ->
  (JsMap.get id (GoalService.inMemoryGoals svc) = None ->
   spentGoalId id svc ->
   JsMap.get id (GoalService.inMemoryGoals (servingAll requests svc)) = None)
  /\ (JsMap.get id (GoalService.inMemorySubtasks svc) = None ->
      spentSubtaskId id svc ->
      JsMap.get id (GoalService.inMemorySubtasks (servingAll requests svc))
      = None).
Proof.
  intros Hdb Hc. split; intros Hnone Hspent.
  - destruct (serveAll_kept (goalGone id)
                (fun userId call svc0 => Gone.perform_goalGone id userId
                                           call svc0)
                requests svc Hdb (conj Hc (conj Hnone Hspent)))
      as [(_ & Hgone & _) _].
    exact Hgone.
  - destruct (serveAll_kept (subtaskGone id)
                (fun userId call svc0 => Gone.perform_subtaskGone id userId
                                           call svc0)
                requests svc Hdb (conj Hc (conj Hnone Hspent)))
      as [(_ & Hgone & _) _].
    exact Hgone.
Qed.

End NeverAgain.

Lemma spent_identifier_stays_absent_witness :
  let deleted := snd (sampleServe
                        (Request.mk (Some "Bearer access:user-1")
                                    (DeleteGoal "goal-1") 1 "")
                        demoService) in
  JsMap.get "goal-1"
    (GoalService.inMemoryGoals
       (sampleServeAll
          [Request.mk (Some "Bearer access:user-1") (PostGoal launchBody)
                      2 "";
           Request.mk (Some "Bearer access:user-2") (PostGoal launchBody)
                      3 ""]
          deleted)) = None.
Proof.
  cbv zeta.
  set (deleted := snd (sampleServe
                         (Request.mk (Some "Bearer access:user-1")
                                     (DeleteGoal "goal-1") 1 "")
                         demoService)).
  assert (Hc : consistent deleted).
  { apply (serve_kept sampleJwtVerify sampleRequired sampleInvalidEnum
             sampleToISOString
             (fun _ _ _ => noDatabase) (fun _ _ _ _ => noDatabase)
             (fun _ _ => noDatabase) (fun _ _ => noDatabase)
             (Request.mk (Some "Bearer access:user-1")
                         (DeleteGoal "goal-1") 1 "")
             demoService eq_refl ShapeKept.demo_consistent). }
  apply (spent_identifier_stays_absent sampleJwtVerify sampleRequired
           sampleInvalidEnum sampleToISOString
           (fun _ _ _ => noDatabase) (fun _ _ _ _ => noDatabase)
           (fun _ _ => noDatabase) (fun _ _ => noDatabase)
           "goal-1"
           [Request.mk (Some "Bearer access:user-1") (PostGoal launchBody)
                       2 "";
            Request.mk (Some "Bearer access:user-2") (PostGoal launchBody)
                       3 ""]
           deleted eq_refl Hc).
  - reflexivity.
  - intros n Hn Heq.
    change (GoalService.goalIdCounter deleted) with 3%nat in Hn.
    apply (Identifiers.numbered_inj "goal-" 1 n) in Heq. lia.
Defined.

(** ** Updating a subtask *)

Module SubtaskUpdateFrame.

Import InMemory InMemoryFacts.

Lemma check_counters (userId goalId : string) (now : Date)
      (svc : GoalService.t) :
  GoalService.goalIdCounter
    (snd (checkAndUpdateGoalCompletionInMemory userId goalId now svc))
  = GoalService.goalIdCounter svc
  /\ GoalService.subtaskIdCounter
       (snd (checkAndUpdateGoalCompletionInMemory userId goalId now svc))
     = GoalService.subtaskIdCounter svc.
Proof.
  rewrite checkAndUpdateGoalCompletionInMemory_run.
  destruct (JsMap.get goalId _); [|now split].
  destruct (negb _); [now split|]. cbn [snd].
  destruct (0 <? _)%nat; [|now split].
  destruct (recompute _ _ _); now split.
Qed.

(** X25.  A successful Update Subtask request of the owner on the
    in-memory store is answered 200 with the stored subtask.  The subtask
    keeps its identifier, its goal and its creation date; a title,
    description or completion of the body replaces the stored one, an empty
    title included, and a key that the body leaves out keeps the stored
    value.  Every other subtask and the counters are unchanged.  When the
    body has no [completed], no goal is written to: the status of the goal
    is not checked again. *)
Theorem updateSubtask_changes_supplied_keys
        (userId goalId subtaskId : string) (body : SubtaskUpdate.t)
        (now : Date) (svc : GoalService.t)
        (subtask : Subtask.t) (goal : Goal.t) :
  GoalService.isDatabaseAvailable svc = false ->
  JsMap.get subtaskId (GoalService.inMemorySubtasks svc) = Some subtask ->
  Subtask.goalId subtask = goalId ->
  JsMap.get goalId (GoalService.inMemoryGoals svc) = Some goal ->
  Goal.ownerId goal = userId ->
  let result :=
    GoalController.updateSubtask userId goalId subtaskId body now svc in
  exists updated,
    fst result
    = mkResponse 200 (Success (Some "Subtask updated successfully") updated)
    /\ JsMap.get subtaskId (GoalService.inMemorySubtasks (snd result))
       = Some updated
    /\ Subtask.id updated = Subtask.id subtask
    /\ Subtask.goalId updated = Subtask.goalId subtask
    /\ Subtask.createdAt updated = Subtask.createdAt subtask
    /\ Subtask.updatedAt updated = now
    /\ Subtask.title updated
       = orKeep (SubtaskUpdate.title body) (Subtask.title subtask)
    /\ Subtask.description updated
       = orElse (SubtaskUpdate.description body)
                (Subtask.description subtask)
    /\ Subtask.completed updated
       = orKeep (SubtaskUpdate.completed body) (Subtask.completed subtask)
    /\ (forall other, other <> subtaskId ->
          JsMap.get other (GoalService.inMemorySubtasks (snd result))
          = JsMap.get other (GoalService.inMemorySubtasks svc))
    /\ GoalService.goalIdCounter (snd result) = GoalService.goalIdCounter svc
    /\ GoalService.subtaskIdCounter (snd result)
       = GoalService.subtaskIdCounter svc
    /\ (SubtaskUpdate.completed body = None ->
        GoalService.inMemoryGoals (snd result)
        = GoalService.inMemoryGoals svc).
Proof.
  intros Hdb Hsub Hg Hgoal Hown result. subst result.
  rewrite (Atomic.updateSubtask_handler_run _ _ _ _ _ _ Hdb).
  rewrite updateSubtaskInMemory_run, Hsub, Hg, String.eqb_refl, Hgoal.
  unfold notOwned. rewrite Hown, String.eqb_refl. cbn [negb].
  set (updated := assignSubtask body now subtask).
  set (svc1 := GoalService.set_inMemorySubtasks _ svc).
  assert (Hfields :
    Subtask.id updated = Subtask.id subtask
    /\ Subtask.goalId updated = Subtask.goalId subtask
    /\ Subtask.createdAt updated = Subtask.createdAt subtask
    /\ Subtask.updatedAt updated = now
    /\ Subtask.title updated
       = orKeep (SubtaskUpdate.title body) (Subtask.title subtask)
    /\ Subtask.description updated
       = orElse (SubtaskUpdate.description body)
                (Subtask.description subtask)
    /\ Subtask.completed updated
       = orKeep (SubtaskUpdate.completed body) (Subtask.completed subtask)).
  { unfold updated, assignSubtask. destruct subtask. now repeat split. }
  assert (Hstore :
    JsMap.get subtaskId (GoalService.inMemorySubtasks svc1) = Some updated
    /\ (forall other, other <> subtaskId ->
          JsMap.get other (GoalService.inMemorySubtasks svc1)
          = JsMap.get other (GoalService.inMemorySubtasks svc))).
  { split; [apply JsMapFacts.get_set_same|].
    intros other Hother. apply JsMapFacts.get_set_other. congruence. }
  destruct Hfields as (F1 & F2 & F3 & F4 & F5 & F6 & F7).
  destruct Hstore as [Hget Hothers].
  exists updated.
  destruct (SubtaskUpdate.completed body) as [c|] eqn:Hc.
  - assert (Hne : subtasksOf goalId svc1 <> []).
    { pose proof (Toggle.In_subtasksOf _ _ _ Hget) as Hin.
      rewrite F2, Hg in Hin. intros Hnil. now rewrite Hnil in Hin. }
    destruct (Repeat.check_owned userId goalId now svc1 goal Hgoal Hown Hne)
      as (svc2 & goal2 & Hcheck & Hsubs2 & _ & _ & _ & _).
    assert (Hcounters :
      GoalService.goalIdCounter svc2 = GoalService.goalIdCounter svc
      /\ GoalService.subtaskIdCounter svc2
         = GoalService.subtaskIdCounter svc).
    { pose proof (check_counters userId goalId now svc1) as Hcounters.
      rewrite Hcheck in Hcounters. exact Hcounters. }
    destruct Hcounters as [Hgc Hsc].
    rewrite Hcheck. cbn [fst snd]. rewrite Hsubs2.
    split; [reflexivity|]. split; [exact Hget|].
    split; [exact F1|]. split; [congruence|]. split; [exact F3|].
    split; [exact F4|]. split; [exact F5|]. split; [exact F6|].
    split; [exact F7|]. split; [exact Hothers|].
    split; [exact Hgc|]. split; [exact Hsc|]. discriminate.
  - cbn [fst snd].
    split; [reflexivity|]. split; [exact Hget|].
    split; [exact F1|]. split; [congruence|]. split; [exact F3|].
    split; [exact F4|]. split; [exact F5|]. split; [exact F6|].
    split; [exact F7|]. split; [exact Hothers|].
    split; [reflexivity|]. split; reflexivity.
Qed.

Lemma updateSubtask_changes_supplied_keys_witness :
  let result :=
    GoalController.updateSubtask "user-1" "goal-1" "subtask-2"
      (SubtaskUpdate.mk (Some "") None None) 4 demoService in
  exists updated,
    JsMap.get "subtask-2" (GoalService.inMemorySubtasks (snd result))
    = Some updated
    /\ Subtask.title updated = ""
    /\ Subtask.completed updated = JsBool false
    /\ GoalService.inMemoryGoals (snd result)
       = GoalService.inMemoryGoals demoService.
Proof.
  cbv zeta.
  destruct (updateSubtask_changes_supplied_keys
              "user-1" "goal-1" "subtask-2"
              (SubtaskUpdate.mk (Some "") None None) 4 demoService
              (Subtask.mk "subtask-2" "QA test checkout flow" None
                          (JsBool false)
                          None None None None "goal-1" 0 0)
              (Goal.mk "goal-1" "Launch Product MVP"
                 (Some "Complete and launch the minimum viable product")
                 HIGH ACTIVE (Some "2025-10-30T00:00:00.000Z") None "user-1"
                 0 0 None None None)
              eq_refl eq_refl eq_refl eq_refl eq_refl)
    as (updated & _ & Hget & _ & _ & _ & _ & Htitle & _ & Hdone & _ & _ & _
        & Hgoals).
  exists updated. split; [exact Hget|]. split; [exact Htitle|].
  split; [exact Hdone|]. now apply Hgoals.
Defined.

End SubtaskUpdateFrame.
